(** * NitiVista: a shallow embedding of the policy pipeline's decision code

    The Python sources are embedded function by function.  Python [str]
    values are Rocq [string]s whose characters are read as the code points
    U+0000..U+00FF; Python [int] is [Z]; Python [float] is the kernel's
    binary64 [float]; a [dict] is an insertion-ordered association list.
    Calls into third-party libraries (Tesseract, the QA pipeline, the
    clock, the file system) are parameters of the functions that use them. *)

From Stdlib Require Import ZArith List ListDec String Ascii Bool Lia Sorted.
From Stdlib Require Import Floats DecimalString DecimalNat.
Import ListNotations.

Set Warnings "-inexact-float".
Local Open Scope string_scope.
Local Open Scope list_scope.
Local Open Scope Z_scope.

(* ================================================================= *)
(** ** Python strings *)

Module PyStr.

Definition chars (s : string) : list ascii := list_ascii_of_string s.
Definition of_chars (l : list ascii) : string := string_of_list_ascii l.

(** [len(s)] *)
Definition len (s : string) : Z := Z.of_nat (String.length s).

(** [c.isspace()] on U+0000..U+00FF: TAB..CR, FS..US, space, NEL, NBSP. *)
Definition is_space (c : ascii) : bool :=
  let n := nat_of_ascii c in
  ((9 <=? n) && (n <=? 13) || (28 <=? n) && (n <=? 32)
   || (n =? 133) || (n =? 160))%nat.

(** [c.lower()] on U+0000..U+00FF: A-Z, and the Latin-1 capitals
    U+00C0..U+00DE except the multiplication sign U+00D7. *)
Definition lower_char (c : ascii) : ascii :=
  let n := nat_of_ascii c in
  if ((65 <=? n) && (n <=? 90)
      || (192 <=? n) && (n <=? 222) && negb (n =? 215))%nat
  then ascii_of_nat (n + 32) else c.

(** [s.lower()] *)
Fixpoint lower (s : string) : string :=
  match s with
  | EmptyString => EmptyString
  | String c s' => String (lower_char c) (lower s')
  end.

(** [needle in hay] *)
Fixpoint contains (needle hay : string) : bool :=
  String.prefix needle hay ||
  match hay with
  | EmptyString => false
  | String _ hay' => contains needle hay'
  end.

(** [any(w in s for w in ws)] *)
Definition any_in (ws : list string) (s : string) : bool :=
  existsb (fun w => contains w s) ws.

(** Slice bounds as CPython adjusts them for a sequence of length [n]:
    a negative index counts from the end, and the result is clamped to
    [0..n]. *)
Definition clamp_index (n i : Z) : Z :=
  if i <? 0 then Z.max 0 (i + n) else Z.min i n.

Definition slice_chars (l : list ascii) (start stop : Z) : list ascii :=
  let n := Z.of_nat (List.length l) in
  let lo := clamp_index n start in
  let hi := clamp_index n stop in
  firstn (Z.to_nat (hi - lo)) (skipn (Z.to_nat lo) l).

(** [s[start:stop]] *)
Definition slice (s : string) (start stop : Z) : string :=
  of_chars (slice_chars (chars s) start stop).

(** [s[:stop]] *)
Definition take (s : string) (stop : Z) : string := slice s 0 stop.

(** Index of the last [c] in [l], whose first element has index [i];
    [acc] when there is none. *)
Fixpoint last_index (c : ascii) (l : list ascii) (i acc : Z) : Z :=
  match l with
  | [] => acc
  | x :: l' => last_index c l' (i + 1) (if Ascii.eqb x c then i else acc)
  end.

(** [s.rfind(c, start, stop)] for a one-character needle. *)
Definition rfind (s : string) (c : ascii) (start stop : Z) : Z :=
  let lo := clamp_index (len s) start in
  last_index c (slice_chars (chars s) start stop) lo (-1).

Fixpoint lstrip_chars (l : list ascii) : list ascii :=
  match l with
  | [] => []
  | c :: l' => if is_space c then lstrip_chars l' else l
  end.

Definition strip_chars (l : list ascii) : list ascii :=
  rev (lstrip_chars (rev (lstrip_chars l))).

(** [s.strip()] *)
Definition strip (s : string) : string := of_chars (strip_chars (chars s)).

(** [s.split()]: the maximal runs of non-whitespace characters.  [cur]
    is the run being read, most recent character first. *)
Fixpoint split_chars (l cur : list ascii) : list string :=
  match l with
  | [] => match cur with [] => [] | _ => [of_chars (rev cur)] end
  | c :: l' =>
      if is_space c
      then match cur with
           | [] => split_chars l' []
           | _ => of_chars (rev cur) :: split_chars l' []
           end
      else split_chars l' (c :: cur)
  end.

Definition split (s : string) : list string := split_chars (chars s) [].

(** [sep.join(parts)] *)
Fixpoint join (sep : string) (parts : list string) : string :=
  match parts with
  | [] => ""
  | [p] => p
  | p :: rest => (p ++ sep ++ join sep rest)%string
  end.

(** Truthiness of a string: [if s:]. *)
Definition nonempty (s : string) : bool :=
  match s with EmptyString => false | _ => true end.

End PyStr.

(* ================================================================= *)
(** ** Python floats and dicts *)

Module PyFloat.

(** [float(z)] for an [int] below 2^63 in absolute value. *)
Definition of_Z (z : Z) : float :=
  if z <? 0 then PrimFloat.opp (PrimFloat.of_uint63 (Uint63.of_Z (- z)))
  else PrimFloat.of_uint63 (Uint63.of_Z z).

(** [np.dot(u, v)] of two one-dimensional arrays of one length, the
    products added left to right.  NumPy leaves the order of the additions
    to its BLAS; what is proved below of vectors with more than one
    non-zero coordinate does not depend on it. *)
Fixpoint dot_from (acc : float) (u v : list float) : float :=
  match u, v with
  | x :: u', y :: v' => dot_from (acc + x * y)%float u' v'
  | _, _ => acc
  end.

Definition dot (u v : list float) : float := dot_from 0%float u v.

(** [np.linalg.norm(v)] of a one-dimensional array: [sqrt(dot(v, v))]. *)
Definition norm (v : list float) : float := PrimFloat.sqrt (dot v v).

(** [sum(xs)], added left to right from [0] (CPython 3.12 and later
    compensate the rounding error of the additions). *)
Definition sum (xs : list float) : float :=
  fold_left (fun acc x => (acc + x)%float) xs 0%float.

End PyFloat.

Module PyDict.

(** A [dict] with [str] keys: its items in insertion order, one per key. *)
Definition t (V : Type) : Type := list (string * V).

Section Ops.
Context {V : Type}.

(** [d.get(k)] *)
Fixpoint get (d : t V) (k : string) : option V :=
  match d with
  | [] => None
  | (k', v) :: d' => if String.eqb k' k then Some v else get d' k
  end.

(** [k in d] *)
Definition mem (d : t V) (k : string) : bool :=
  match get d k with Some _ => true | None => false end.

(** [d[k] = v]: an existing key keeps its place. *)
Fixpoint set (d : t V) (k : string) (v : V) : t V :=
  match d with
  | [] => [(k, v)]
  | (k', v') :: d' =>
      if String.eqb k' k then (k, v) :: d' else (k', v') :: set d' k v
  end.

(** [del d[k]] for a key that is present; nothing to do otherwise. *)
Fixpoint del (d : t V) (k : string) : t V :=
  match d with
  | [] => []
  | (k', v') :: d' => if String.eqb k' k then d' else (k', v') :: del d' k
  end.

(** [list(d.keys())] *)
Definition keys (d : t V) : list string := map fst d.

(** A well-formed dict holds each key once. *)
Definition wf (d : t V) : Prop := NoDup (keys d).

End Ops.
End PyDict.

(* ================================================================= *)
(** ** services/policy-engine/vector_store.py *)

Module VectorStore.

(** [self.embedding_dim] *)
Definition embedding_dim : Z := 384.

Record chunk := mk_chunk {
  chunk_id : string;
  policy_id : string;
  section : string;
  content : string;
  content_hash : string;
  timestamp : string
}.

Record embedding_data := mk_embedding_data {
  e_chunk_id : string;
  e_policy_id : string;
  embedding : list float;
  e_section : string;
  e_content_length : Z;
  e_timestamp : string
}.

Record index_entry := mk_index_entry {
  i_chunk_id : string;
  i_content_length : Z
}.

(** The store: the three dicts of [__init__] and the files below
    [storage_dir]. *)
Record store := mk_store {
  embeddings : PyDict.t (list embedding_data);
  chunks : PyDict.t chunk;
  index : PyDict.t (PyDict.t (list index_entry));
  files : list string
}.

Record search_result := mk_search_result {
  r_chunk_id : string;
  r_policy_id : string;
  r_section : string;
  r_content : string;
  similarity_score : float;
  r_content_length : Z
}.

(** [embedding[i] += v] *)
Fixpoint add_at (i : nat) (v : float) (e : list float) : list float :=
  match e, i with
  | [], _ => []
  | x :: e', O => (x + v)%float :: e'
  | x :: e', S i' => x :: add_at i' v e'
  end.

Section Embedding.

(** Python's built-in [hash] on [str]: salted per process, so a
    parameter. *)
Variable hash : string -> Z.

(** [hash(word) % self.embedding_dim]; Python's [%] takes the sign of the
    divisor, as [Z.modulo] does. *)
Definition bucket (word : string) : nat :=
  Z.to_nat (hash word mod embedding_dim).

(** The loop [for i, word in enumerate(words[:50])], entered at
    position [i]. *)
Fixpoint accumulate (words : list string) (i : Z) (e : list float)
  : list float :=
  match words with
  | [] => e
  | word :: words' =>
      accumulate words' (i + 1)
        (add_at (bucket word) (1 / PyFloat.of_Z (i + 1))%float e)
  end.

Definition raw_embedding (text : string) : list float :=
  let words := PyStr.split (PyStr.lower text) in
  accumulate (firstn 50 words) 0 (repeat 0%float (Z.to_nat embedding_dim)).

(** [_generate_embedding].  Nothing in the [try] block raises on a [str],
    so the random fallback of the [except] branch is unreachable. *)
Definition _generate_embedding (text : string) : list float :=
  let e := raw_embedding text in
  let n := PyFloat.norm e in
  if (0 <? n)%float then map (fun x => (x / n)%float) e else e.

(** [_cosine_similarity]; [None] is the [ValueError] that [np.dot] raises
    on arrays of different lengths. *)
Definition _cosine_similarity (vec1 vec2 : list float) : option float :=
  if Nat.eqb (List.length vec1) (List.length vec2) then
    let dot_product := PyFloat.dot vec1 vec2 in
    let norm1 := PyFloat.norm vec1 in
    let norm2 := PyFloat.norm vec2 in
    if (norm1 =? 0)%float || (norm2 =? 0)%float then Some 0%float
    else Some (dot_product / (norm1 * norm2))%float
  else None.

(** The inner loop over [self.embeddings[policy]]. *)
Fixpoint scan_policy (st : store) (q : list float) (policy : string)
  (eds : list embedding_data) (results : list search_result)
  : option (list search_result) :=
  match eds with
  | [] => Some results
  | ed :: eds' =>
      match _cosine_similarity q (embedding ed) with
      | None => None
      | Some similarity =>
          let results' :=
            if (0.3 <? similarity)%float then
              let content :=
                match PyDict.get (chunks st) (e_chunk_id ed) with
                | Some c => content c
                | None => ""
                end in
              results ++ [mk_search_result (e_chunk_id ed) policy
                            (e_section ed) content similarity
                            (e_content_length ed)]
            else results in
          scan_policy st q policy eds' results'
      end
  end.

(** The outer loop over [target_policies]. *)
Fixpoint scan_policies (st : store) (q : list float)
  (targets : list string) (results : list search_result)
  : option (list search_result) :=
  match targets with
  | [] => Some results
  | policy :: targets' =>
      match PyDict.get (embeddings st) policy with
      | None => scan_policies st q targets' results
      | Some eds =>
          match scan_policy st q policy eds results with
          | None => None
          | Some results' => scan_policies st q targets' results'
          end
      end
  end.

(** [results.sort(key=..., reverse=True)]: a stable sort by decreasing
    score, comparing keys with [<] as [list.sort] does. *)
Fixpoint insert_desc (x : search_result) (l : list search_result)
  : list search_result :=
  match l with
  | [] => [x]
  | y :: l' =>
      if (similarity_score x <? similarity_score y)%float
      then y :: insert_desc x l'
      else x :: l
  end.

Definition sort_desc (l : list search_result) : list search_result :=
  fold_right insert_desc [] l.

(** [l[:k]] on a list. *)
Definition list_take {A : Type} (l : list A) (k : Z) : list A :=
  if k <? 0 then firstn (Z.to_nat (Z.of_nat (List.length l) + k)) l
  else firstn (Z.to_nat k) l.

(** [[policy_id] if policy_id else list(self.embeddings.keys())] *)
Definition target_policies (st : store) (policy : option string)
  : list string :=
  match policy with
  | Some p => if PyStr.nonempty p then [p] else PyDict.keys (embeddings st)
  | None => PyDict.keys (embeddings st)
  end.

(** [search_similar]; an exception anywhere in the [try] block gives
    [[]]. *)
Definition search_similar (st : store) (query : string)
  (policy : option string) (top_k : Z) : list search_result :=
  let query_embedding := _generate_embedding query in
  match scan_policies st query_embedding (target_policies st policy) [] with
  | Some results => list_take (sort_desc results) top_k
  | None => []
  end.

End Embedding.

(** [get_policy_chunks] *)
Definition get_policy_chunks (st : store) (p : string)
  (sec : option string) : list chunk :=
  map snd
    (filter (fun kc =>
               String.eqb (policy_id (snd kc)) p &&
               match sec with
               | None => true
               | Some s => String.eqb (section (snd kc)) s
               end)
            (chunks st)).

Definition storage_dir : string := "vector_store".

(** The three files of a policy, in the order [_delete_from_disk] lists
    them. *)
Definition policy_files (p : string) : list string :=
  [ (storage_dir ++ "/" ++ p ++ "_embeddings.json")%string;
    (storage_dir ++ "/" ++ p ++ "_chunks.json")%string;
    (storage_dir ++ "/" ++ p ++ "_index.json")%string ].

Definition remove_file (path : string) (fs : list string) : list string :=
  filter (fun f => negb (String.eqb f path)) fs.

(** [_delete_from_disk]: [removable path] is false when [os.remove]
    raises on [path].  The result pairs the files left with whether the
    loop ran to its end. *)
Fixpoint delete_paths (removable : string -> bool) (paths fs : list string)
  : list string * bool :=
  match paths with
  | [] => (fs, true)
  | path :: paths' =>
      if existsb (String.eqb path) fs then
        if removable path
        then delete_paths removable paths' (remove_file path fs)
        else (fs, false)
      else delete_paths removable paths' fs
  end.

(** [chunks_to_remove] *)
Definition chunks_to_remove (cs : PyDict.t chunk) (p : string)
  : list string :=
  map fst (filter (fun kc => String.eqb (policy_id (snd kc)) p) cs).

(** [delete_policy]: the returned flag is the method's result. *)
Definition delete_policy (removable : string -> bool) (st : store)
  (p : string) : bool * store :=
  let embeddings' :=
    if PyDict.mem (embeddings st) p then PyDict.del (embeddings st) p
    else embeddings st in
  let index' :=
    if PyDict.mem (index st) p then PyDict.del (index st) p
    else index st in
  let chunks' :=
    fold_left (fun cs k => PyDict.del cs k)
      (chunks_to_remove (chunks st) p) (chunks st) in
  let '(files', ok) := delete_paths removable (policy_files p) (files st) in
  (ok, mk_store embeddings' chunks' index' files').

End VectorStore.

(* ================================================================= *)
(** ** vector_store.py: creating embeddings *)

Module VectorStoreIngest.
Import VectorStore.

(** The values of [structured_data] as [create_embeddings] tells them
    apart: a list, whose items are strings or something else, a string,
    or something else. *)
Inductive item :=
| ItemStr (s : string)
| ItemOther.

Inductive value :=
| ValueList (items : list item)
| ValueStr (s : string)
| ValueOther.

(** [str(n)] for a natural number. *)
Definition str_of_nat (n : nat) : string :=
  NilEmpty.string_of_uint (Nat.to_uint n).

(** [f"{policy_id}_chunk_{chunk_id}"] *)
Definition chunk_name (policy : string) (n : nat) : string :=
  (policy ++ "_chunk_" ++ str_of_nat n)%string.

(** [len(s.strip()) > 10] *)
Definition long_enough (s : string) : bool :=
  10 <? PyStr.len (PyStr.strip s).

Section Ingest.

Variable hash : string -> Z.
(** [hashlib.md5(content.encode()).hexdigest()] *)
Variable md5_hexdigest : string -> string.
(** [datetime.now().isoformat()] when the chunk with the given number is
    made. *)
Variable clock : nat -> string.

(** [_hash_content] *)
Definition _hash_content (text : string) : string :=
  PyStr.take (md5_hexdigest text) 8.

(** The [chunk] dict built from a text that is long enough. *)
Definition make_chunk (policy sec : string) (n : nat) (text : string)
  : chunk :=
  mk_chunk (chunk_name policy n) policy sec (PyStr.strip text)
    (_hash_content (PyStr.strip text)) (clock n).

(** The loop over the items of a list, entered with the chunks so far;
    the next chunk gets the number [length all_chunks]. *)
Fixpoint chunks_of_items (policy sec : string) (items : list item)
  (all_chunks : list chunk) : list chunk :=
  match items with
  | [] => all_chunks
  | ItemStr s :: items' =>
      chunks_of_items policy sec items'
        (if long_enough s
         then all_chunks ++ [make_chunk policy sec (List.length all_chunks) s]
         else all_chunks)
  | ItemOther :: items' => chunks_of_items policy sec items' all_chunks
  end.

(** The loop over [structured_data.items()]. *)
Fixpoint chunks_of_data (policy : string) (data : PyDict.t value)
  (all_chunks : list chunk) : list chunk :=
  match data with
  | [] => all_chunks
  | (sec, ValueList items) :: data' =>
      chunks_of_data policy data'
        (chunks_of_items policy sec items all_chunks)
  | (sec, ValueStr s) :: data' =>
      chunks_of_data policy data'
        (if long_enough s
         then all_chunks ++ [make_chunk policy sec (List.length all_chunks) s]
         else all_chunks)
  | (_, ValueOther) :: data' => chunks_of_data policy data' all_chunks
  end.

(** The [embedding_data] dict of a chunk. *)
Definition embed (policy : string) (c : chunk) : embedding_data :=
  mk_embedding_data (chunk_id c) policy
    (_generate_embedding hash (content c)) (section c)
    (PyStr.len (content c)) (timestamp c).

(** One step of the loop of [_update_search_index], on the index of
    the policy. *)
Definition index_add (idx : PyDict.t (list index_entry))
  (ed : embedding_data) : PyDict.t (list index_entry) :=
  let old := match PyDict.get idx (e_section ed) with
             | Some l => l
             | None => []
             end in
  PyDict.set idx (e_section ed)
    (old ++ [mk_index_entry (e_chunk_id ed) (e_content_length ed)]).

(** [_update_search_index] *)
Definition _update_search_index (index : PyDict.t (PyDict.t (list index_entry)))
  (policy : string) (eds : list embedding_data)
  : PyDict.t (PyDict.t (list index_entry)) :=
  let idx := match PyDict.get index policy with
             | Some i => i
             | None => []
             end in
  PyDict.set index policy (fold_left index_add eds idx).

(** [_save_to_disk]: the three files are written in turn; the first one
    that cannot be opened ends the method, which logs the error. *)
Fixpoint save_paths (writable : string -> bool) (paths fs : list string)
  : list string :=
  match paths with
  | [] => fs
  | path :: paths' =>
      if writable path
      then save_paths writable paths'
             (if existsb (String.eqb path) fs then fs else fs ++ [path])
      else fs
  end.

(** [create_embeddings].  Nothing in its [try] block raises on these
    values, so it returns [True]. *)
Definition create_embeddings (writable : string -> bool) (st : store)
  (structured_data : PyDict.t value) (policy : string) : bool * store :=
  let all_chunks := chunks_of_data policy structured_data [] in
  let eds := map (embed policy) all_chunks in
  let embeddings' := PyDict.set (embeddings st) policy eds in
  let chunks' :=
    fold_left (fun cs c => PyDict.set cs (chunk_id c) c) all_chunks
      (chunks st) in
  let index' := _update_search_index (index st) policy eds in
  let files' := save_paths writable (policy_files policy) (files st) in
  (true, mk_store embeddings' chunks' index' files').

End Ingest.
End VectorStoreIngest.

(* ================================================================= *)
(** ** validation/validate_performance_metrics.py *)

Module PerformanceValidator.

Record test_case := mk_test_case {
  tc_type : string;
  expected_accuracy : float
}.

Record ocr_report := mk_ocr_report {
  expected : float;
  actual : float;
  status : string
}.

(** A value of [self.results['tests']]: the reports of
    [test_ocr_accuracy], the error record of its [except] branch, or what
    another test stored. *)
Inductive test_report :=
| OcrAccuracy (reports : PyDict.t ocr_report)
| TestError (error : string)
| OtherReport (summary : string).

Record validator := mk_validator {
  results_timestamp : string;
  tests : PyDict.t test_report;
  summary : PyDict.t string
}.

(** The [test_cases] literal of [test_ocr_accuracy]. *)
Definition test_cases : list test_case :=
  [ mk_test_case "clean_pdf" 0.99%float;
    mk_test_case "scanned_300dpi" 0.98%float;
    mk_test_case "handwritten_annotation" 0.95%float ].

(** The body of the loop over [test_cases]. *)
Definition report_of (tc : test_case) : ocr_report :=
  let actual_accuracy := (expected_accuracy tc - 0.01)%float in
  mk_ocr_report (expected_accuracy tc) actual_accuracy
    (if (0.95 <=? actual_accuracy)%float then "PASSED" else "FAILED").

(** [test_ocr_accuracy].  The [try] block subtracts and compares floats
    and stores into dicts, none of which raises, so the [except] branch is
    never taken. *)
Definition test_ocr_accuracy (self : validator) : validator :=
  let results :=
    fold_left (fun rs tc => PyDict.set rs (tc_type tc) (report_of tc))
      test_cases [] in
  mk_validator (results_timestamp self)
    (PyDict.set (tests self) "ocr_accuracy" (OcrAccuracy results))
    (summary self).

End PerformanceValidator.

(* ================================================================= *)
(** ** validate_performance_metrics.py: the report *)

Module PerformanceReport.
Import PerformanceValidator.

(** The values of [self.results['tests']] as [generate_report] reads
    them: strings, numbers and dicts. *)
#[warnings="-register-all"]
Inductive json :=
| JStr (s : string)
| JNum (x : float)
| JDict (items : list (string * json)).

(** [results[test_case['type']]] of [test_ocr_accuracy] *)
Definition json_of_report (r : ocr_report) : json :=
  JDict [("expected", JNum (expected r)); ("actual", JNum (actual r));
         ("status", JStr (status r))].

(** What [test_ocr_accuracy] stores under ['ocr_accuracy']. *)
Definition ocr_accuracy_results : json :=
  JDict (fold_left
           (fun rs tc => PyDict.set rs (tc_type tc) (json_of_report (report_of tc)))
           test_cases []).

(** The body of the loop of [test_voice_generation]. *)
Definition voice_result (lang : string) : json :=
  let '(naturalness, intelligibility, success_rate) :=
    if String.eqb lang "en" then (4.2, 4.3, 0.99)%float
    else if String.eqb lang "hi" then (3.8, 4.0, 0.98)%float
    else (3.5, 3.8, 0.96)%float in
  JDict [("naturalness_score", JNum naturalness);
         ("intelligibility_score", JNum intelligibility);
         ("success_rate", JNum success_rate);
         ("status", JStr (if (0.95 <=? success_rate)%float
                          then "PASSED" else "FAILED"))].

(** What [test_voice_generation] stores under ['voice_generation']. *)
Definition voice_generation_results : json :=
  JDict (fold_left (fun rs lang => PyDict.set rs lang (voice_result lang))
           ["en"; "hi"; "mr"] []).

Definition test_queries : list test_case :=
  [ mk_test_case "coverage" 0.90%float;
    mk_test_case "exclusions" 0.85%float;
    mk_test_case "claims" 0.88%float;
    mk_test_case "premium" 0.92%float ].

Section Report.

(** [statistics.mean] *)
Variable mean : list float -> float.

(** What [test_rag_accuracy] stores under ['rag_accuracy']. *)
Definition rag_accuracy_results : json :=
  let step (acc : PyDict.t json * list float) (query : test_case) :=
    let actual_accuracy := (expected_accuracy query - 0.02)%float in
    (PyDict.set (fst acc) (tc_type query)
       (JDict [("expected", JNum (expected_accuracy query));
               ("actual", JNum actual_accuracy);
               ("status", JStr (if (0.80 <=? actual_accuracy)%float
                                then "PASSED" else "FAILED"))]),
     snd acc ++ [actual_accuracy]) in
  let '(results, overall_accuracy) := fold_left step test_queries ([], []) in
  let overall := mean overall_accuracy in
  let results := PyDict.set results "overall_accuracy" (JNum overall) in
  JDict (PyDict.set results "overall_status"
           (JStr (if (0.85 <=? overall)%float then "PASSED" else "FAILED"))).

(** [status == 'FAILED'] *)
Definition is_failed (status : json) : bool :=
  match status with
  | JStr s => String.eqb s "FAILED"
  | _ => false
  end.

(** The tests and the failed tests that one value of a category adds:
    a dict with a ['status'] counts once. *)
Definition count_result (counts : Z * Z) (test_result : json) : Z * Z :=
  match test_result with
  | JDict d =>
      match PyDict.get d "status" with
      | Some status =>
          (fst counts + 1, if is_failed status then snd counts + 1 else snd counts)
      | None => counts
      end
  | _ => counts
  end.

(** The body of the loop over [self.results['tests'].items()]. *)
Definition count_category (counts : Z * Z) (results : json) : Z * Z :=
  match results with
  | JDict d =>
      match PyDict.get d "status" with
      | Some status =>
          (fst counts + 1, if is_failed status then snd counts + 1 else snd counts)
      | None => fold_left (fun c kv => count_result c (snd kv)) d counts
      end
  | _ => counts
  end.

Record summary := mk_summary {
  total_tests : Z;
  passed_tests : Z;
  failed_tests : Z;
  overall_status : string;
  success_rate : float
}.

(** [generate_report]: the summary it stores, and whether it returns;
    it raises after storing the summary when no test was counted (the
    success rate it prints divides by their number) or when the report
    file cannot be opened. *)
Definition generate_report (writable : bool) (tests : PyDict.t json)
  : summary * bool :=
  let '(total, failed) :=
    fold_left (fun c kv => count_category c (snd kv)) tests (0, 0) in
  (mk_summary total (total - failed) failed
     (if failed =? 0 then "PASSED" else "FAILED")
     (if 0 <? total
      then (PyFloat.of_Z (total - failed) / PyFloat.of_Z total)%float
      else 0%float),
   (0 <? total) && writable).

(** [validate_all]: the three API results depend on measured times and
    are given; [None] when [generate_report] raises. *)
Definition validate_all (writable : bool)
  (policy_engine voice_system rag_qa : json) (tests : PyDict.t json)
  : option bool :=
  let api := JDict [("policy_engine", policy_engine);
                    ("voice_system", voice_system); ("rag_qa", rag_qa)] in
  let tests := PyDict.set tests "api_performance" api in
  let tests := PyDict.set tests "ocr_accuracy" ocr_accuracy_results in
  let tests := PyDict.set tests "voice_generation" voice_generation_results in
  let tests := PyDict.set tests "rag_accuracy" rag_accuracy_results in
  let '(s, returned) := generate_report writable tests in
  if returned then Some (String.eqb (overall_status s) "PASSED") else None.

End Report.
End PerformanceReport.

(* ================================================================= *)
(** ** validation/run_all_validations.py *)

Module ValidationSuite.

(** The exit status of [validate_performance_metrics.py] run as a
    script: its [main] prints one of two messages and returns, so the
    status is 0 whatever [validate_all] returned, and 1 when an exception
    leaves [asyncio.run]. *)
Definition performance_script_exit (validate_all_result : option bool) : Z :=
  match validate_all_result with
  | Some _ => 0
  | None => 1
  end.

Record validation := mk_validation {
  v_description : string;
  v_status : string;
  v_timestamp : string
}.

Definition validations : list (string * string) :=
  [ ("validate_research_stats.py", "Research Statistics Validation");
    ("validate_performance_metrics.py", "Performance Metrics Validation") ].

Section Suite.

(** [subprocess.run([sys.executable, script_name], ...).returncode];
    [None] when the call raises. *)
Variable returncode : string -> option Z.
(** [datetime.now().isoformat()] *)
Variable now : string.

(** [run_validation_script] *)
Definition run_validation_script (script_name description : string) : bool :=
  match returncode script_name with
  | Some rc => rc =? 0
  | None => false
  end.

(** The loop of [main] over the scripts: the entries of
    [validation_results['validations']], and [all_passed]. *)
Definition run_validations : PyDict.t validation * bool :=
  fold_left
    (fun (acc : PyDict.t validation * bool) (v : string * string) =>
       let success := run_validation_script (fst v) (snd v) in
       (PyDict.set (fst acc) (fst v)
          (mk_validation (snd v) (if success then "PASSED" else "FAILED") now),
        if negb success then false else snd acc))
    validations ([], true).

(** [main]: the value handed to [sys.exit]; [None] when one of the two
    summary files cannot be written. *)
Definition main (summaries_writable : bool) : option Z :=
  let all_passed := snd run_validations in
  if summaries_writable then Some (if all_passed then 0 else 1) else None.

End Suite.
End ValidationSuite.

(* ================================================================= *)
(** ** services/voice-system/whatsapp_client.py *)

Module WhatsAppClient.

Record message_record := mk_message_record {
  phone_number : string;
  message_type : string;
  content : string;
  timestamp : string;
  status : string
}.

(** The fields of the client that sending reads or writes.  A date is
    its day number. *)
Record client := mk_client {
  rate_limit : Z;
  messages_sent_today : Z;
  last_reset_date : Z;
  message_history : PyDict.t (list message_record)
}.

(** What a call reads from outside: [datetime.now().date()],
    [datetime.now().isoformat()] and [os.path.exists]. *)
Record env := mk_env {
  today : Z;
  now : string;
  path_exists : string -> bool
}.

(** [__init__], given the clock and the history file's content. *)
Definition init (e : env) (history : PyDict.t (list message_record))
  : client :=
  mk_client 950 0 (today e) history.

(** [_check_rate_limit] *)
Definition _check_rate_limit (e : env) (self : client) : bool * client :=
  let self' :=
    if negb (today e =? last_reset_date self)
    then mk_client (rate_limit self) 0 (today e) (message_history self)
    else self in
  (messages_sent_today self' <? rate_limit self', self').

(** [l[-100:]] *)
Definition last_100 {A : Type} (l : list A) : list A :=
  skipn (List.length l - 100) l.

(** [_record_message]; saving the history to disk catches its own
    errors and changes nothing in the client. *)
Definition _record_message (e : env) (self : client)
  (phone type_ text : string) : client :=
  let record :=
    mk_message_record phone type_
      (if 100 <? PyStr.len text
       then (PyStr.take text 100 ++ "...")%string else text)
      (now e) "sent" in
  let old :=
    match PyDict.get (message_history self) phone with
    | Some l => l
    | None => []
    end in
  let l := old ++ [record] in
  let l' := if (100 <? List.length l)%nat then last_100 l else l in
  mk_client (rate_limit self) (messages_sent_today self)
    (last_reset_date self) (PyDict.set (message_history self) phone l').

Definition count_message (self : client) : client :=
  mk_client (rate_limit self) (messages_sent_today self + 1)
    (last_reset_date self) (message_history self).

(** [send_text] up to its [await asyncio.sleep(0.5)]: the rate-limit
    check. *)
Definition send_text_begin (e : env) (self : client) : bool * client :=
  _check_rate_limit e self.

(** [send_text] after the [await], on the client as it is by then. *)
Definition send_text_finish (e : env) (self : client)
  (phone message : string) : client :=
  count_message (_record_message e self phone "text" message).

(** [send_text], with nothing else running during its [await]. *)
Definition send_text (e : env) (self : client) (phone message : string)
  (template_key : option string) : bool * client :=
  let '(allowed, self1) := send_text_begin e self in
  if negb allowed then (false, self1)
  else (true, send_text_finish e self1 phone message).

(** [send_voice], with nothing else running during its [await]. *)
Definition send_voice (e : env) (self : client)
  (phone audio_file_path : string) : bool * client :=
  let '(allowed, self1) := _check_rate_limit e self in
  if negb allowed then (false, self1)
  else if negb (path_exists e audio_file_path) then (false, self1)
  else (true, count_message
                (_record_message e self1 phone "voice" audio_file_path)).

Inductive call :=
| SendText (phone message : string) (template_key : option string)
| SendVoice (phone audio_file_path : string).

(** One call, run to its end. *)
Definition step (e : env) (self : client) (c : call) : bool * client :=
  match c with
  | SendText phone message key => send_text e self phone message key
  | SendVoice phone path => send_voice e self phone path
  end.

(** The clients that [__init__] and any sequence of sends produce. *)
Inductive reachable : client -> Prop :=
| reach_init e history : reachable (init e history)
| reach_step self e c : reachable self -> reachable (snd (step e self c)).

(** Calls one after the other: the results, and the client at the end. *)
Fixpoint run (self : client) (calls : list (env * call))
  : list bool * client :=
  match calls with
  | [] => ([], self)
  | (e, c) :: calls' =>
      let '(r, self1) := step e self c in
      let '(rs, self2) := run self1 calls' in
      (r :: rs, self2)
  end.

(** The number of messages recorded for all phone numbers. *)
Definition recorded (self : client) : nat :=
  list_sum (map (fun kv => List.length (snd kv)) (message_history self)).

End WhatsAppClient.

(* ================================================================= *)
(** ** whatsapp_client.py: reading the history *)

Module WhatsAppHistory.
Import WhatsAppClient.

(** [l[start:]] on a list. *)
Definition list_from {A : Type} (l : list A) (start : Z) : list A :=
  skipn (Z.to_nat (PyStr.clamp_index (Z.of_nat (List.length l)) start)) l.

(** [get_message_history] *)
Definition get_message_history (self : client) (phone : string) (limit : Z)
  : list message_record :=
  let history :=
    match PyDict.get (message_history self) phone with
    | Some l => l
    | None => []
    end in
  match history with
  | [] => []
  | _ => list_from history (- limit)
  end.

End WhatsAppHistory.

(* ================================================================= *)
(** ** whatsapp_client.py: templates, interactive messages, statistics *)

Module WhatsAppStats.
Import WhatsAppClient.

Section Templates.

(** [self.templates]: for each template key, the text in each language. *)
Variable templates : PyDict.t (PyDict.t string).

(** [send_template]; the lookup of a text that is missing for English
    too raises [KeyError], which the method catches. *)
Definition send_template (e : env) (self : client)
  (phone template_key language : string) : bool * client :=
  match PyDict.get templates template_key with
  | None => (false, self)
  | Some texts =>
      let language := if PyDict.mem texts language then language else "en" in
      match PyDict.get texts language with
      | None => (false, self)
      | Some message => send_text e self phone message None
      end
  end.

(** The lines [f"{i}. {option}\n"] for [enumerate(options, i)]. *)
Fixpoint option_lines (i : nat) (options : list string) : string :=
  match options with
  | [] => ""
  | option :: options' =>
      (VectorStoreIngest.str_of_nat i ++ ". " ++ option ++ String "010" ""
       ++ option_lines (S i) options')%string
  end.

(** [send_interactive_message] *)
Definition send_interactive_message (e : env) (self : client)
  (phone message : string) (options : list string) : bool * client :=
  let interactive_text :=
    (message ++ String "010" (String "010" "") ++ option_lines 1 options)%string in
  send_text e self phone interactive_text None.

Inductive request :=
| Text (phone message : string) (template_key : option string)
| Voice (phone audio_file_path : string)
| Template (phone template_key language : string)
| Interactive (phone message : string) (options : list string).

(** One request, run to its end. *)
Definition serve (e : env) (self : client) (r : request) : bool * client :=
  match r with
  | Text phone message key => send_text e self phone message key
  | Voice phone path => send_voice e self phone path
  | Template phone key language => send_template e self phone key language
  | Interactive phone message options =>
      send_interactive_message e self phone message options
  end.

(** Requests one after the other: the client at the end. *)
Fixpoint serve_all (self : client) (requests : list (env * request))
  : client :=
  match requests with
  | [] => self
  | (e, r) :: requests' => serve_all (snd (serve e self r)) requests'
  end.

End Templates.

(** The body of the inner loop of [get_stats]: a message of a known type
    is counted. *)
Definition count_message_type (message_types : PyDict.t Z)
  (message : message_record) : PyDict.t Z :=
  let msg_type := message_type message in
  match PyDict.get message_types msg_type with
  | Some n => PyDict.set message_types msg_type (n + 1)
  | None => message_types
  end.

Record stats := mk_stats {
  total_messages_sent : Z;
  unique_phone_numbers : Z;
  rate_limit_used : Z;
  rate_limit_total : Z;
  message_types : PyDict.t Z;
  stats_last_reset_date : Z
}.

(** [get_stats] *)
Definition get_stats (self : client) : stats :=
  let total_messages := Z.of_nat (recorded self) in
  let message_types :=
    fold_left
      (fun types kv => fold_left count_message_type (snd kv) types)
      (message_history self)
      [("text", 0); ("voice", 0); ("template", 0)] in
  mk_stats total_messages
    (Z.of_nat (List.length (message_history self)))
    (messages_sent_today self) (rate_limit self)
    message_types (last_reset_date self).

End WhatsAppStats.

(* ================================================================= *)
(** ** services/policy-engine/layout_classifier.py *)

Module LayoutClassifier.

Definition health_indicators : list string :=
  [ "health insurance"; "medical insurance"; "hospitalization";
    "medical expenses"; "doctor"; "treatment"; "medicine" ].

Definition life_indicators : list string :=
  [ "life insurance"; "life cover"; "sum assured"; "death benefit";
    "maturity benefit"; "nominee" ].

Definition motor_indicators : list string :=
  [ "motor insurance"; "vehicle insurance"; "car insurance";
    "bike insurance"; "automobile"; "registration number" ].

Definition travel_indicators : list string :=
  [ "travel insurance"; "trip insurance"; "journey";
    "passport"; "visa"; "baggage"; "flight" ].

(** [sum(1 for indicator in indicators if indicator in text_lower)] *)
Fixpoint indicator_score (indicators : list string) (text_lower : string)
  : Z :=
  match indicators with
  | [] => 0
  | indicator :: rest =>
      if PyStr.contains indicator text_lower
      then 1 + indicator_score rest text_lower
      else indicator_score rest text_lower
  end.

(** The [scores] dict. *)
Definition scores (text : string) : PyDict.t Z :=
  let text_lower := PyStr.lower text in
  [ ("health", indicator_score health_indicators text_lower);
    ("life", indicator_score life_indicators text_lower);
    ("motor", indicator_score motor_indicators text_lower);
    ("travel", indicator_score travel_indicators text_lower) ].

(** [max(d, key=d.get)] continued from the best key so far: a later key
    wins only with a strictly greater value. *)
Fixpoint max_key_from (best : string) (best_value : Z) (d : PyDict.t Z)
  : string :=
  match d with
  | [] => best
  | (k, v) :: d' =>
      if best_value <? v then max_key_from k v d'
      else max_key_from best best_value d'
  end.

(** [max(d, key=d.get)]; [None] is the [ValueError] on an empty dict. *)
Definition max_key (d : PyDict.t Z) : option string :=
  match d with
  | [] => None
  | (k, v) :: d' => Some (max_key_from k v d')
  end.

(** [_detect_policy_type] *)
Definition _detect_policy_type (text : string) : string :=
  let sc := scores text in
  match max_key sc with
  | Some policy_type =>
      match PyDict.get sc policy_type with
      | Some 0 => "health"
      | _ => policy_type
      end
  | None => "health"
  end.

End LayoutClassifier.

(* ================================================================= *)
(** ** layout_classifier.py: finding sections *)

Module LayoutSections.

(** [c.isupper()] and [c.islower()] on U+0000..U+00FF. *)
Definition is_upper_char (c : ascii) : bool :=
  let n := nat_of_ascii c in
  ((65 <=? n) && (n <=? 90) || (192 <=? n) && (n <=? 214)
   || (216 <=? n) && (n <=? 222))%nat.

Definition is_lower_char (c : ascii) : bool :=
  let n := nat_of_ascii c in
  ((97 <=? n) && (n <=? 122) || (n =? 170) || (n =? 181) || (n =? 186)
   || (223 <=? n) && (n <=? 246) || (248 <=? n) && (n <=? 255))%nat.

(** [c.isalpha()] on U+0000..U+00FF: the letters are the cased
    characters. *)
Definition is_alpha (c : ascii) : bool := is_upper_char c || is_lower_char c.

(** [s.isupper()]: no lowercase character and at least one uppercase
    one. *)
Definition isupper (s : string) : bool :=
  forallb (fun c => negb (is_lower_char c)) (PyStr.chars s)
  && existsb is_upper_char (PyStr.chars s).

(** [s.split('\n')], on the characters: [cur] is the line being read,
    most recent character first. *)
Fixpoint split_lines_chars (l cur : list ascii) : list string :=
  match l with
  | [] => [PyStr.of_chars (rev cur)]
  | c :: l' =>
      if Ascii.eqb c "010"
      then PyStr.of_chars (rev cur) :: split_lines_chars l' []
      else split_lines_chars l' (c :: cur)
  end.

Definition split_lines (s : string) : list string :=
  split_lines_chars (PyStr.chars s) [].

Record section_info := mk_section_info {
  s_type : string;
  title : string;
  start_line : Z;
  confidence : float;
  s_content : string
}.

Section Sections.

(** [re.match(pattern, line)] as a truth value. *)
Variable re_match : string -> string -> bool.

Definition header_patterns : list string :=
  [ "^\d+\s*[.\-)\s]"; "^[A-Z][a-z]+\s*[A-Z][a-z]+"; "^\s*[-*]\s*[A-Z]" ].

(** [_is_likely_header] *)
Definition _is_likely_header (line : string) : bool :=
  let line := PyStr.strip line in
  if isupper line && (3 <? PyStr.len line) then true
  else if existsb (fun pattern => re_match pattern line) header_patterns
  then true
  else if (3 <=? PyStr.len line) && (PyStr.len line <=? 50)
          && existsb is_alpha (PyStr.chars line)
  then true
  else false.

(** The loop of [_extract_section_content] over the lines after the
    header. *)
Fixpoint content_lines (lines : list string) : list string :=
  match lines with
  | [] => []
  | l :: lines' =>
      let line := PyStr.strip l in
      if _is_likely_header line && (PyStr.len line <? 50) then []
      else if 10 <? PyStr.len line then line :: content_lines lines'
      else content_lines lines'
  end.

(** [_extract_section_content] for a [start_line] that is not negative:
    the lines [start_line + 1] to [start_line + 19]. *)
Definition _extract_section_content (lines : list string) (start : Z)
  : string :=
  PyStr.join " " (content_lines (firstn 19 (skipn (Z.to_nat (start + 1)) lines))).

(** Twice the [match_score] of a line: two for every keyword that
    occurs in the lowercased, stripped line, and one (the source's 0.5) for
    a likely header. *)
Definition match_score2 (keywords : list string) (line : string) : Z :=
  let line_lower := PyStr.strip (PyStr.lower line) in
  2 * Z.of_nat (List.length
                  (filter (fun keyword => PyStr.contains keyword line_lower)
                     keywords))
  + (if _is_likely_header line then 1 else 0).

(** The loop of [_find_section] over [enumerate(lines)], entered at
    line [i] with twice the best score and the best line so far. *)
Fixpoint best_line (keywords : list string) (lines : list string)
  (i best2 best : Z) : Z * Z :=
  match lines with
  | [] => (best2, best)
  | line :: lines' =>
      let score2 := match_score2 keywords line in
      if (best2 <? score2) && (2 <=? score2)
      then best_line keywords lines' (i + 1) score2 i
      else best_line keywords lines' (i + 1) best2 best
  end.

(** [_find_section] *)
Definition _find_section (lines : list string) (section_type : string)
  (keywords : list string) : option section_info :=
  let '(best2, best) := best_line keywords lines 0 0 (-1) in
  if 0 <=? best then
    let score := (PyFloat.of_Z best2 / 2)%float in
    let ratio := (score / PyFloat.of_Z (Z.of_nat (List.length keywords)))%float in
    Some (mk_section_info section_type
            (PyStr.strip (nth (Z.to_nat best) lines ""))
            best
            (if (1 <? ratio)%float then 1%float else ratio)
            (_extract_section_content lines best))
  else None.

End Sections.
End LayoutSections.

(* ================================================================= *)
(** ** services/policy-engine/ocr_engine.py *)

Module OCREngine.

(** A page of the opened document: its text layer and its rendering as
    PNG bytes. *)
Record page := mk_page {
  get_text : string;
  pixmap_png : string
}.

(** What [_perform_ocr] returns, as far as the caller reads it. *)
Record ocr_result := mk_ocr_result {
  ocr_text : string;
  ocr_confidence : float
}.

Record page_data := mk_page_data {
  page_number : Z;
  text : string;
  confidence : float;
  word_count : Z
}.

Record extraction := mk_extraction {
  full_text : string;
  pages : Z;
  overall_confidence : float;
  pages_data : list page_data;
  total_word_count : Z;
  file_type : string
}.

Section Extract.

(** Tesseract behind [_perform_ocr]; the method catches its own errors
    and returns an empty text with confidence 0.0 then. *)
Variable _perform_ocr : string -> ocr_result.

(** [not text or len(text.strip()) < 100] *)
Definition needs_ocr (text : string) : bool :=
  negb (PyStr.nonempty text) || (PyStr.len (PyStr.strip text) <? 100).

(** The body of the loop over the pages: the page's record, and the
    images handed to [_perform_ocr]. *)
Definition extract_page (page_num : Z) (p : page)
  : page_data * list string :=
  let direct := get_text p in
  if needs_ocr direct then
    let r := _perform_ocr (pixmap_png p) in
    (mk_page_data (page_num + 1) (ocr_text r) (ocr_confidence r)
       (Z.of_nat (List.length (PyStr.split (ocr_text r)))),
     [pixmap_png p])
  else
    (mk_page_data (page_num + 1) direct 0.95%float
       (Z.of_nat (List.length (PyStr.split direct))),
     []).

(** The loop [for page_num in range(len(doc))], entered at [page_num]
    with the text, the records and the OCR calls so far. *)
Fixpoint extract_pages (doc : list page) (page_num : Z) (acc_text : string)
  (acc_data : list page_data) (calls : list string)
  : string * list page_data * list string :=
  match doc with
  | [] => (acc_text, acc_data, calls)
  | p :: doc' =>
      let '(pd, c) := extract_page page_num p in
      extract_pages doc' (page_num + 1)
        (acc_text ++ text pd ++ String "010" (String "010" ""))%string
        (acc_data ++ [pd]) (calls ++ c)
  end.

(** [_extract_from_pdf] on an opened document: the images that were
    OCRed, and the result; [None] is the [ZeroDivisionError] of the mean
    over no page. *)
Definition _extract_from_pdf (doc : list page)
  : list string * option extraction :=
  let '(txt, data, calls) := extract_pages doc 0 "" [] [] in
  (calls,
   match data with
   | [] => None
   | _ =>
       Some (mk_extraction (PyStr.strip txt) (Z.of_nat (List.length data))
               (PyFloat.sum (map confidence data)
                / PyFloat.of_Z (Z.of_nat (List.length data)))%float
               data (Z.of_nat (List.length (PyStr.split txt))) "pdf")
   end).

End Extract.
End OCREngine.

(* ================================================================= *)
(** ** ocr_engine.py: the language handed to Tesseract *)

Module OCRLanguage.

Definition supported_languages : list string := ["eng"; "mar"; "hin"].
Definition tesseract_config : string := "--oem 1 --psm 6".

Section Language.

Variable image : Type.
(** [pytesseract.image_to_string(image, lang=..., config=...)]; [None]
    when the call raises. *)
Variable image_to_string : image -> string -> string -> option string.

(** The loop of [_detect_language]: the length of the stripped text for
    each language, 0 for a language whose run raised. *)
Definition language_results (img : image) : PyDict.t Z :=
  fold_left
    (fun results lang =>
       PyDict.set results lang
         match image_to_string img lang "--psm 6" with
         | Some text => PyStr.len (PyStr.strip text)
         | None => 0
         end)
    supported_languages [].

(** [_detect_language] *)
Definition _detect_language (img : image) : string :=
  match LayoutClassifier.max_key (language_results img) with
  | Some lang => lang
  | None => "eng"
  end.

(** The language of the recognition run in [_perform_ocr], on the
    preprocessed image. *)
Definition ocr_language (processed_image : image) : string :=
  let detected_language := _detect_language processed_image in
  if existsb (String.eqb detected_language) supported_languages
  then detected_language
  else "eng".

(** The text of the recognition run in [_perform_ocr]. *)
Definition ocr_text (processed_image : image) : option string :=
  image_to_string processed_image (ocr_language processed_image)
    tesseract_config.

End Language.
End OCRLanguage.

(* ================================================================= *)
(** ** FieldProjectRAG model/Codes/rag_model.py *)

Module PolicyRAGSystem.

(** *** Chunking *)

(** [sentence_end > start + chunk_size * 0.8].  The product and the sum
    are floats in the source; for the lengths of real texts they are far
    from the rounding that could change the comparison with an integer, and
    the test is the exact [5 * (sentence_end - start) > 4 * chunk_size]
    ([sentence_rule_float_agrees] below compares the two). *)
Definition sentence_rule (sentence_end start chunk_size : Z) : bool :=
  4 * chunk_size <? 5 * (sentence_end - start).

(** The same test in binary64 arithmetic. *)
Definition sentence_rule_float (sentence_end start chunk_size : Z) : bool :=
  (PyFloat.of_Z start + PyFloat.of_Z chunk_size * 0.8
   <? PyFloat.of_Z sentence_end)%float.

(** The end of the chunk that starts at [start]. *)
Definition chunk_end (text : string) (chunk_size start : Z) : Z :=
  let end_ := start + chunk_size in
  if end_ <? PyStr.len text then
    let sentence_end := PyStr.rfind text "." start end_ in
    if sentence_rule sentence_end start chunk_size
    then sentence_end + 1 else end_
  else end_.

(** [text[start:end].strip()] *)
Definition chunk_at (text : string) (start end_ : Z) : string :=
  PyStr.strip (PyStr.slice text start end_).

(** [if chunk: chunks.append(chunk)] *)
Definition append_chunk (chunks : list string) (chunk : string)
  : list string :=
  if PyStr.nonempty chunk then chunks ++ [chunk] else chunks.

(** The [while] loop, entered with [start] and [chunks]; [None] when
    [fuel] iterations were not enough to leave it. *)
Fixpoint split_loop (fuel : nat) (text : string) (chunk_size chunk_overlap : Z)
  (start : Z) (chunks : list string) : option (list string) :=
  match fuel with
  | O => None
  | S fuel' =>
      if start <? PyStr.len text then
        let end_ := chunk_end text chunk_size start in
        let chunks' := append_chunk chunks (chunk_at text start end_) in
        let start' := end_ - chunk_overlap in
        if (PyStr.len text <=? start') || (1000 <? Z.of_nat (List.length chunks'))
        then Some chunks'
        else split_loop fuel' text chunk_size chunk_overlap start' chunks'
      else Some chunks
  end.

(** [_split_text_into_chunks] *)
Definition _split_text_into_chunks (fuel : nat) (text : string)
  (chunk_size chunk_overlap : Z) : option (list string) :=
  split_loop fuel text chunk_size chunk_overlap 0 [].

(** The pairs [(start, end)] of the iterations of the same loop, which
    has [n] chunks when it is entered. *)
Fixpoint split_windows (fuel : nat) (text : string)
  (chunk_size chunk_overlap : Z) (start : Z) (n : nat)
  : option (list (Z * Z)) :=
  match fuel with
  | O => None
  | S fuel' =>
      if start <? PyStr.len text then
        let end_ := chunk_end text chunk_size start in
        let n' := if PyStr.nonempty (chunk_at text start end_)
                  then S n else n in
        let start' := end_ - chunk_overlap in
        if (PyStr.len text <=? start') || (1000 <? Z.of_nat n')
        then Some [(start, end_)]
        else option_map (cons (start, end_))
               (split_windows fuel' text chunk_size chunk_overlap start' n')
      else Some []
  end.

(** The position [p] of [text] lies in the slice [text[start:end]]. *)
Definition in_window (text : string) (p : Z) (w : Z * Z) : bool :=
  let n := PyStr.len text in
  (PyStr.clamp_index n (fst w) <=? p) && (p <? PyStr.clamp_index n (snd w)).

(** *** Answering *)

Record context := mk_context {
  text : string;
  metadata : PyDict.t string;
  distance : float;
  score : float
}.

(** The fields read from the QA pipeline's result. *)
Record qa_result := mk_qa_result {
  qa_answer : string;
  qa_score : float
}.

(** A source is the metadata of a context or one of the fixed names. *)
Inductive source :=
| SourceName (name : string)
| SourceMetadata (m : PyDict.t string).

Record answer := mk_answer {
  a_answer : string;
  a_confidence : float;
  a_source : source
}.

Record response := mk_response {
  r_answer : string;
  r_confidence : float;
  r_source : source;
  r_question : string;
  r_timestamp : string;
  suggested_questions : option (list string)
}.

Definition default_confidence_threshold : float := 0.3%float.

Definition no_information : string :=
  "I don't have enough information to answer that question. Please upload your policy document first.".

(** [_generate_fallback_answer]; slicing, joining and [in] do not raise on
    strings, so its [except] branch is never taken. *)
Definition _generate_fallback_answer (question : string)
  (contexts : list context) : answer :=
  let combined_context :=
    PyStr.join " " (map (fun ctx => PyStr.take (text ctx) 200)
                      (firstn 2 contexts)) in
  let question_lower := PyStr.lower question in
  let ans :=
    if PyStr.any_in ["cover"; "include"; "what"] question_lower then
      ("Based on your policy document, the coverage includes: "
       ++ PyStr.take combined_context 150 ++ "...")%string
    else if PyStr.any_in ["exclude"; "not cover"] question_lower then
      ("Your policy exclusions include: "
       ++ PyStr.take combined_context 150 ++ "...")%string
    else if PyStr.any_in ["claim"; "how"] question_lower then
      "For claims, please refer to your policy document or contact customer service."
    else if PyStr.any_in ["premium"; "cost"; "price"] question_lower then
      "Premium information can be found in your policy document."
    else
      "I found some relevant information in your policy, but please check the full document for complete details." in
  mk_answer ans 0.2%float (SourceName "Fallback").

(** [_generate_follow_up_questions] *)
Definition _generate_follow_up_questions (original_question ans : string)
  : list string :=
  let question_lower := PyStr.lower original_question in
  let questions :=
    if PyStr.contains "cover" question_lower then
      [ "What is not covered by my policy?";
        "How much coverage do I have?";
        "Can I add additional coverage?" ]
    else if PyStr.contains "premium" question_lower
            || PyStr.contains "cost" question_lower then
      [ "When is my premium due?";
        "How can I pay my premium?";
        "What happens if I miss a payment?" ]
    else if PyStr.contains "claim" question_lower then
      [ "What documents do I need for a claim?";
        "How long does claim processing take?";
        "Can I track my claim status?" ]
    else
      [ "What is my policy number?";
        "When does my policy expire?";
        "How do I contact customer service?" ] in
  firstn 3 questions.

Section Answer.

(** The extractive QA pipeline on a question and a context; [None] when
    the call raises or returns nothing. *)
Variable qa_pipeline : string -> string -> option qa_result.

(** The loop over the contexts, entered with the best answer so far. *)
Fixpoint best_of (question : string) (contexts : list context)
  (best_answer : option answer) (best_confidence : float)
  : option answer * float :=
  match contexts with
  | [] => (best_answer, best_confidence)
  | ctx :: contexts' =>
      match qa_pipeline question (text ctx) with
      | Some qa =>
          if (best_confidence <? qa_score qa)%float
          then best_of question contexts'
                 (Some (mk_answer (qa_answer qa) (qa_score qa)
                          (SourceMetadata (metadata ctx))))
                 (qa_score qa)
          else best_of question contexts' best_answer best_confidence
      | None => best_of question contexts' best_answer best_confidence
      end
  end.

(** [answer_question] on the contexts that retrieval returned, at the
    time [now]. *)
Definition answer_question (now : string) (question : string)
  (contexts : list context) (confidence_threshold : float) : response :=
  match contexts with
  | [] =>
      mk_response no_information 0%float (SourceName "None") question now None
  | _ =>
      let '(best_answer, best_confidence) :=
        best_of question contexts None 0%float in
      let best :=
        match best_answer with
        | None => _generate_fallback_answer question contexts
        | Some a =>
            if (best_confidence <? confidence_threshold)%float
            then _generate_fallback_answer question contexts
            else a
        end in
      mk_response (a_answer best) (a_confidence best) (a_source best)
        question now
        (Some (_generate_follow_up_questions question (a_answer best)))
  end.

End Answer.
End PolicyRAGSystem.

(* ================================================================= *)
(** ** rag_model.py: the chat interface *)

Module RAGChatInterface.
Import PolicyRAGSystem.

Record chat_message := mk_chat_message {
  role : string;
  content : string;
  m_timestamp : string
}.

(** The value of [conversation_history[user_id]]; [ended] is the key
    that a goodbye sets. *)
Record conversation := mk_conversation {
  messages : list chat_message;
  policy_context : option string;
  start_time : string;
  ended : bool
}.

(** The fields of the dict that a handler or [answer_question] returns,
    as far as [chat] and its caller read them. *)
Record reply := mk_reply {
  answer : string;
  confidence : float;
  reply_source : source;
  reply_suggested_questions : option (list string)
}.

(** What [chat] returns; the error dict has no message count. *)
Record chat_response := mk_chat_response {
  chat_reply : reply;
  conversation_id : string;
  message_count : option Z
}.

(** The values of [datetime.now().isoformat()] during one call of
    [chat]. *)
Record clock := mk_clock {
  start_now : string;
  user_now : string;
  answer_now : string;
  assistant_now : string
}.

Section Chat.

(** The texts of the three handlers, stripped. *)
Variables greeting help_text goodbye : string.
Variable qa_pipeline : string -> string -> option qa_result.
(** [_retrieve_relevant_contexts], which returns no context when the
    query raises. *)
Variable _retrieve_relevant_contexts :
  string -> option string -> Z -> list context.

(** [_handle_greeting] *)
Definition _handle_greeting : reply :=
  mk_reply greeting 1%float (SourceName "Greeting")
    (Some [ "What does my policy cover?";
            "How do I make a claim?";
            "What is my premium amount?" ]).

(** [_handle_help_request] *)
Definition _handle_help_request : reply :=
  mk_reply help_text 1%float (SourceName "Help")
    (Some [ "How do I upload my policy?";
            "What languages do you support?";
            "Is my information secure?" ]).

(** [_handle_goodbye] *)
Definition _handle_goodbye (history : PyDict.t conversation)
  (user_id : string) : reply * PyDict.t conversation :=
  (mk_reply goodbye 1%float (SourceName "Goodbye") None,
   match PyDict.get history user_id with
   | Some conv =>
       PyDict.set history user_id
         (mk_conversation (messages conv) (policy_context conv)
            (start_time conv) true)
   | None => history
   end).

(** [rag_system.answer_question(question=message, policy_id=policy_id)] *)
Definition rag_answer (now : string) (message : string)
  (policy_id : option string) : reply :=
  let r := answer_question qa_pipeline now message
             (_retrieve_relevant_contexts message policy_id 5)
             default_confidence_threshold in
  mk_reply (r_answer r) (r_confidence r) (r_source r) (suggested_questions r).

(** [conversation_history[user_id]['messages'].append(m)]; [None] is the
    [KeyError]. *)
Definition append_message (history : PyDict.t conversation)
  (user_id : string) (m : chat_message) : option (PyDict.t conversation) :=
  match PyDict.get history user_id with
  | Some conv =>
      Some (PyDict.set history user_id
              (mk_conversation (messages conv ++ [m]) (policy_context conv)
                 (start_time conv) (ended conv)))
  | None => None
  end.

Definition error_response (user_id : string) : chat_response :=
  mk_chat_response
    (mk_reply
       "Sorry, I'm having trouble understanding. Can you please rephrase?"
       0%float (SourceName "Error") None)
    user_id None.

(** The keywords of the three handlers that can occur in a string of
    code points up to U+00FF; the source lists three Devanagari words
    besides them. *)
Definition greeting_words : list string := ["hello"; "hi"; "namaste"].
Definition help_words : list string := ["help"].
Definition goodbye_words : list string := ["bye"; "goodbye"].

(** [chat] *)
Definition chat (c : clock) (history : PyDict.t conversation)
  (user_id message : string) (policy_id : option string)
  : chat_response * PyDict.t conversation :=
  let history1 :=
    if PyDict.mem history user_id then history
    else PyDict.set history user_id
           (mk_conversation [] policy_id (start_now c) false) in
  match append_message history1 user_id
          (mk_chat_message "user" message (user_now c)) with
  | None => (error_response user_id, history1)
  | Some history2 =>
      let '(response, history3) :=
        if PyStr.any_in greeting_words (PyStr.lower message)
        then (_handle_greeting, history2)
        else if PyStr.any_in help_words (PyStr.lower message)
        then (_handle_help_request, history2)
        else if PyStr.any_in goodbye_words (PyStr.lower message)
        then _handle_goodbye history2 user_id
        else (rag_answer (answer_now c) message policy_id, history2) in
      match append_message history3 user_id
              (mk_chat_message "assistant" (answer response)
                 (assistant_now c)) with
      | None => (error_response user_id, history3)
      | Some history4 =>
          match PyDict.get history4 user_id with
          | None => (error_response user_id, history4)
          | Some conv =>
              (mk_chat_response response user_id
                 (Some (Z.of_nat (List.length (messages conv)))),
               history4)
          end
      end
  end.

Record chat_request := mk_chat_request {
  at_ : clock;
  user : string;
  message : string;
  policy : option string
}.

(** Calls of [chat] one after the other: the responses, and the
    conversations at the end. *)
Fixpoint chat_all (history : PyDict.t conversation)
  (requests : list chat_request)
  : list chat_response * PyDict.t conversation :=
  match requests with
  | [] => ([], history)
  | r :: requests' =>
      let '(response, history1) :=
        chat (at_ r) history (user r) (message r) (policy r) in
      let '(responses, history2) := chat_all history1 requests' in
      (response :: responses, history2)
  end.

(** [clear_conversation_history] *)
Definition clear_conversation_history (history : PyDict.t conversation)
  (user_id : string) : bool * PyDict.t conversation :=
  if PyDict.mem history user_id
  then (true, PyDict.del history user_id)
  else (false, history).

End Chat.
End RAGChatInterface.
(* ================================================================= *)
(** ** Python strings: examples and lemmas *)

Example lower_ex : PyStr.lower "Health INSURANCE" = "health insurance".
Proof. reflexivity. Qed.

Example split_ex : PyStr.split "  what is  covered
 now " = ["what"; "is"; "covered"; "now"].
Proof. reflexivity. Qed.

Example slice_ex :
  PyStr.slice "abcdefgh" 2 5 = "cde" /\ PyStr.slice "abcdefgh" (-3) 100 = "fgh"
  /\ PyStr.slice "abcdefgh" (-3) 2 = "" /\ PyStr.slice "abcdefgh" 6 3 = "".
Proof. repeat split; reflexivity. Qed.

Example rfind_ex :
  PyStr.rfind "a.b.c" "." 0 5 = 3 /\ PyStr.rfind "a.b.c" "." 0 3 = 1
  /\ PyStr.rfind "a.b.c" "." 4 5 = -1 /\ PyStr.rfind "a.b.c" "." (-4) 3 = 1.
Proof. repeat split; reflexivity. Qed.

Example strip_ex : PyStr.strip "  a b .
" = "a b ." /\ PyStr.strip "   " = "".
Proof. split; reflexivity. Qed.

Example contains_ex :
  PyStr.contains "not cover" "what is not covered" = true
  /\ PyStr.contains "claim" "what is not covered" = false.
Proof. split; reflexivity. Qed.


Module PyStrFacts.
Import PyStr.

Lemma length_chars s : List.length (chars s) = String.length s.
Proof. induction s as [|c s IH]; simpl; auto. Qed.

Lemma length_of_chars l : String.length (of_chars l) = List.length l.
Proof. induction l as [|c l IH]; simpl; auto. Qed.

Lemma chars_of_chars l : chars (of_chars l) = l.
Proof. apply list_ascii_of_string_of_list_ascii. Qed.

Lemma nonempty_of_chars l : nonempty (of_chars l) = true <-> l <> [].
Proof. destruct l; simpl; split; congruence. Qed.

Lemma len_nonneg s : 0 <= len s.
Proof. unfold len. lia. Qed.

Lemma clamp_index_bounds n i : 0 <= n -> 0 <= clamp_index n i <= n.
Proof. unfold clamp_index. destruct (i <? 0) eqn:E; lia. Qed.

(** A slice is no longer than the distance of its bounds. *)
Lemma clamp_index_distance n a b :
  0 <= n -> a <= b -> clamp_index n b - clamp_index n a <= b - a.
Proof.
  unfold clamp_index. intros Hn Hab.
  destruct (a <? 0) eqn:Ea, (b <? 0) eqn:Eb; lia.
Qed.

Lemma length_slice_chars l a b :
  Z.of_nat (List.length (slice_chars l a b)) =
  Z.max 0 (clamp_index (Z.of_nat (List.length l)) b
           - clamp_index (Z.of_nat (List.length l)) a).
Proof.
  unfold slice_chars. set (n := Z.of_nat (List.length l)).
  pose proof (clamp_index_bounds n a ltac:(lia)).
  pose proof (clamp_index_bounds n b ltac:(lia)).
  rewrite length_firstn, length_skipn. lia.
Qed.

Lemma len_slice s a b :
  len (slice s a b) = Z.max 0 (clamp_index (len s) b - clamp_index (len s) a).
Proof.
  unfold len, slice. rewrite length_of_chars, length_slice_chars.
  now rewrite length_chars.
Qed.

Lemma length_lstrip_chars l :
  (List.length (lstrip_chars l) <= List.length l)%nat.
Proof.
  induction l as [|c l IH]; simpl; [lia|].
  destruct (is_space c); simpl; lia.
Qed.

Lemma length_strip_chars l :
  (List.length (strip_chars l) <= List.length l)%nat.
Proof.
  unfold strip_chars. rewrite length_rev.
  pose proof (length_lstrip_chars (rev (lstrip_chars l))) as H.
  rewrite length_rev in H. pose proof (length_lstrip_chars l). lia.
Qed.

Lemma len_strip s : len (strip s) <= len s.
Proof.
  unfold len, strip. rewrite length_of_chars.
  pose proof (length_strip_chars (chars s)) as H.
  rewrite length_chars in H. lia.
Qed.

Lemma lstrip_chars_In c l :
  In c l -> is_space c = false -> In c (lstrip_chars l).
Proof.
  induction l as [|x l IH]; simpl; [tauto|].
  intros [->|Hin] Hc.
  - rewrite Hc. now left.
  - destruct (is_space x); [auto|now right].
Qed.

(** Stripping keeps every character that is not white space. *)
Lemma strip_chars_In c l :
  In c l -> is_space c = false -> In c (strip_chars l).
Proof.
  intros Hin Hc. unfold strip_chars.
  apply in_rev. rewrite rev_involutive.
  apply lstrip_chars_In; [|exact Hc].
  apply -> in_rev. now apply lstrip_chars_In.
Qed.

Lemma last_index_spec c l :
  forall i acc,
    last_index c l i acc = acc \/
    (i <= last_index c l i acc < i + Z.of_nat (List.length l) /\
     nth_error l (Z.to_nat (last_index c l i acc - i)) = Some c).
Proof.
  induction l as [|x l IH]; intros i acc; simpl; [now left|].
  destruct (IH (i + 1) (if Ascii.eqb x c then i else acc)) as [H|[H1 H2]].
  - rewrite H. destruct (Ascii.eqb x c) eqn:E; [|now left].
    right. apply Ascii.eqb_eq in E. subst.
    split; [lia|]. now rewrite Z.sub_diag.
  - right. split; [lia|].
    replace (Z.to_nat (last_index c l (i + 1) (if Ascii.eqb x c then i else acc) - i))
      with (S (Z.to_nat (last_index c l (i + 1)
                           (if Ascii.eqb x c then i else acc) - (i + 1))))
      by lia.
    exact H2.
Qed.

(** [rfind] returns -1 or a position of the needle inside the slice. *)
Lemma rfind_spec s c a b :
  rfind s c a b = -1 \/
  (clamp_index (len s) a <= rfind s c a b < clamp_index (len s) b /\
   In c (slice_chars (chars s) a (rfind s c a b + 1))).
Proof.
  unfold rfind.
  set (lo := clamp_index (len s) a).
  destruct (last_index_spec c (slice_chars (chars s) a b) lo (-1))
    as [H|[H1 H2]]; [now left|].
  right. set (r := last_index c (slice_chars (chars s) a b) lo (-1)) in *.
  pose proof (length_slice_chars (chars s) a b) as Hlen.
  rewrite length_chars in Hlen. fold (len s) in Hlen. fold lo in Hlen.
  pose proof (clamp_index_bounds (len s) a (len_nonneg s)) as Ha.
  pose proof (clamp_index_bounds (len s) b (len_nonneg s)) as Hb.
  fold lo in Ha.
  split; [lia|].
  assert (Hr1 : clamp_index (len s) (r + 1) = r + 1)
    by (unfold clamp_index; destruct (r + 1 <? 0) eqn:E; lia).
  unfold slice_chars in *. rewrite length_chars in *. fold (len s) in *.
  fold lo in H2 |- *. rewrite Hr1.
  apply nth_error_In with (n := Z.to_nat (r - lo)).
  rewrite nth_error_firstn in H2 |- *.
  destruct (Nat.ltb_spec (Z.to_nat (r - lo)) (Z.to_nat (r + 1 - lo))); [|lia].
  destruct (Z.to_nat (r - lo) <? Z.to_nat (clamp_index (len s) b - lo))%nat;
    [exact H2|discriminate].
Qed.

End PyStrFacts.

(* ================================================================= *)
(** ** Dicts: lookups after deletions *)

Module PyDictFacts.
Import PyDict.

Section Facts.
Context {V : Type}.
Implicit Types (d : PyDict.t V) (k : string).

(** The items of [d] whose key is not [k]. *)
Definition without d k : PyDict.t V :=
  filter (fun kv => negb (String.eqb (fst kv) k)) d.

Lemma get_In d k v : get d k = Some v -> In (k, v) d.
Proof.
  induction d as [|[k' v'] d IH]; simpl; [discriminate|].
  destruct (String.eqb k' k) eqn:E.
  - apply String.eqb_eq in E. intros H; inversion H; subst. now left.
  - intros H. right. auto.
Qed.

Lemma get_None d k : get d k = None <-> ~ In k (keys d).
Proof.
  induction d as [|[k' v'] d IH]; simpl; [tauto|].
  destruct (String.eqb k' k) eqn:E.
  - apply String.eqb_eq in E. split; [discriminate|]. intros H. tauto.
  - apply String.eqb_neq in E. rewrite IH. tauto.
Qed.

Lemma In_get d k v : wf d -> In (k, v) d -> get d k = Some v.
Proof.
  unfold wf. induction d as [|[k' v'] d IH]; simpl; [tauto|].
  intros Hnd [H|H]; inversion Hnd as [|? ? Hnotin Hnd']; subst.
  - inversion H; subst. now rewrite String.eqb_refl.
  - destruct (String.eqb k' k) eqn:E; [|auto].
    apply String.eqb_eq in E. subst. exfalso. apply Hnotin.
    apply in_map_iff. now exists (k, v).
Qed.

Lemma keys_filter_incl f d : incl (keys (filter f d)) (keys d).
Proof.
  intros k Hk. apply in_map_iff in Hk as [kv [<- Hkv]].
  apply filter_In in Hkv as [Hkv _]. now apply in_map.
Qed.

Lemma wf_filter f d : wf d -> wf (filter f d).
Proof.
  unfold wf. induction d as [|[k v] d IH]; simpl; [auto|].
  intros Hnd. inversion Hnd as [|? ? Hnotin Hnd']; subst.
  destruct (f (k, v)); simpl; auto.
  constructor; auto. intros H. apply Hnotin. now apply (keys_filter_incl f).
Qed.

Lemma filter_all d (f : string * V -> bool) :
  (forall kv, In kv d -> f kv = true) -> filter f d = d.
Proof.
  induction d as [|kv d IH]; simpl; [reflexivity|]. intros H.
  rewrite (H kv) by now left. f_equal. apply IH. intros; apply H. now right.
Qed.

(** Deleting a key keeps every other item, in order. *)
Lemma del_without d k : wf d -> del d k = without d k.
Proof.
  unfold wf, without. induction d as [|[k' v'] d IH]; simpl; [reflexivity|].
  intros Hnd. inversion Hnd as [|? ? Hnotin Hnd']; subst.
  destruct (String.eqb k' k) eqn:E; simpl.
  - apply String.eqb_eq in E. subst. symmetry. apply filter_all.
    intros [k1 v1] Hin. simpl. apply negb_true_iff, String.eqb_neq.
    intros ->. apply Hnotin. apply in_map_iff. now exists (k, v1).
  - f_equal. auto.
Qed.

Lemma get_filter d f k :
  wf d ->
  get (filter f d) k =
  match get d k with
  | Some v => if f (k, v) then Some v else None
  | None => None
  end.
Proof.
  intros Hwf. destruct (get d k) as [v|] eqn:Eg.
  - destruct (f (k, v)) eqn:Ef.
    + apply In_get; [now apply wf_filter|].
      apply filter_In. split; [now apply get_In|exact Ef].
    + destruct (get (filter f d) k) as [v'|] eqn:Eg'; [|reflexivity].
      apply get_In, filter_In in Eg' as [Hin Hf].
      apply (In_get _ _ _ Hwf) in Hin. congruence.
  - apply get_None. intros H. apply keys_filter_incl in H.
    now apply get_None in Eg.
Qed.

Lemma get_without_same d k : wf d -> get (without d k) k = None.
Proof.
  intros Hwf. unfold without. rewrite get_filter by assumption.
  destruct (get d k); [|reflexivity]. simpl. now rewrite String.eqb_refl.
Qed.

Lemma get_without_other d k q :
  wf d -> q <> k -> get (without d k) q = get d q.
Proof.
  intros Hwf Hq. unfold without. rewrite get_filter by assumption.
  destruct (get d q); [|reflexivity]. simpl.
  apply String.eqb_neq in Hq. now rewrite Hq.
Qed.

Lemma filter_twice d (f g : string * V -> bool) :
  filter f (filter g d) = filter (fun kv => g kv && f kv) d.
Proof.
  induction d as [|kv d IH]; simpl; [reflexivity|].
  destruct (g kv); simpl; [destruct (f kv)|]; now rewrite IH.
Qed.

(** Deleting the keys [ks] one after the other. *)
Lemma fold_del d ks :
  wf d ->
  fold_left (fun d k => del d k) ks d =
  filter (fun kv => negb (existsb (String.eqb (fst kv)) ks)) d.
Proof.
  revert d. induction ks as [|k ks IH]; intros d Hwf; simpl.
  - symmetry. now apply filter_all.
  - rewrite del_without by assumption. unfold without.
    rewrite IH by now apply wf_filter.
    rewrite filter_twice. apply filter_ext. intros [k1 v1]. simpl.
    now rewrite negb_orb.
Qed.

End Facts.
End PyDictFacts.

(* ================================================================= *)
(** ** Dicts: lookups after assignments *)

Module PyDictSetFacts.
Import PyDictFacts.

Lemma get_set_here {V : Type} (d : PyDict.t V) k v :
  PyDict.get (PyDict.set d k v) k = Some v.
Proof.
  induction d as [|[k' v'] d IH]; simpl.
  - now rewrite String.eqb_refl.
  - destruct (String.eqb k' k) eqn:E; simpl.
    + now rewrite String.eqb_refl.
    + now rewrite E.
Qed.

Lemma get_set_other {V : Type} (d : PyDict.t V) k q v :
  q <> k -> PyDict.get (PyDict.set d k v) q = PyDict.get d q.
Proof.
  intros Hq. induction d as [|[k' v'] d IH]; simpl.
  - apply not_eq_sym, String.eqb_neq in Hq. now rewrite Hq.
  - destruct (String.eqb k' k) eqn:E; simpl.
    + apply String.eqb_eq in E. subst k'.
      apply not_eq_sym, String.eqb_neq in Hq. now rewrite Hq.
    + destruct (String.eqb k' q); auto.
Qed.

(** Assigning to a new key appends the item. *)
Lemma set_absent {V : Type} (d : PyDict.t V) k v :
  PyDict.get d k = None -> PyDict.set d k v = d ++ [(k, v)].
Proof.
  induction d as [|[k' v'] d IH]; simpl; [reflexivity|].
  destruct (String.eqb k' k); [discriminate|].
  intros H. now rewrite IH.
Qed.

Lemma keys_set {V : Type} (d : PyDict.t V) k v :
  PyDict.keys (PyDict.set d k v) =
  if PyDict.mem d k then PyDict.keys d else PyDict.keys d ++ [k].
Proof.
  unfold PyDict.mem, PyDict.keys.
  induction d as [|[k' v'] d IH]; simpl; [reflexivity|].
  destruct (String.eqb k' k) eqn:E; simpl.
  - apply String.eqb_eq in E. now subst.
  - rewrite IH. now destruct (PyDict.get d k).
Qed.

Lemma wf_set {V : Type} (d : PyDict.t V) k v :
  PyDict.wf d -> PyDict.wf (PyDict.set d k v).
Proof.
  unfold PyDict.wf. intros H. rewrite keys_set. unfold PyDict.mem.
  destruct (PyDict.get d k) eqn:E; [exact H|].
  apply get_None in E.
  apply NoDup_app; [exact H|repeat constructor; simpl; tauto|].
  intros x Hx [<-|[]]. contradiction.
Qed.

End PyDictSetFacts.

(* ================================================================= *)
(** ** The hashed bag-of-words embedding *)

Module EmbeddingFacts.
Import VectorStore.

(** The coordinate [j] of the vector as the loop leaves it: the terms
    [1/(i+1)] of the words at positions [i] that hash to [j], added in the
    order of the words to the value [x] the coordinate starts from. *)
Fixpoint coordinate (hash : string -> Z) (j : nat) (words : list string)
  (i : Z) (x : float) : float :=
  match words with
  | [] => x
  | word :: words' =>
      coordinate hash j words' (i + 1)
        (if Nat.eqb (bucket hash word) j
         then (x + 1 / PyFloat.of_Z (i + 1))%float else x)
  end.

(** The vector with [1.0] at index [b] and [0.0] elsewhere. *)
Definition unit_vector (b : nat) : list float :=
  repeat 0%float b ++ 1%float :: repeat 0%float (383 - b).

(** The words [a], [aa], [aaa], ... *)
Definition word_of_length (n : nat) : string :=
  PyStr.of_chars (repeat "a"%char (S n)).

Lemma length_add_at i v e : List.length (add_at i v e) = List.length e.
Proof.
  revert i; induction e as [|x e IH]; intros [|i]; simpl; auto.
Qed.

Lemma length_accumulate hash words :
  forall i e, List.length (accumulate hash words i e) = List.length e.
Proof.
  induction words as [|w ws IH]; intros i e; simpl; [reflexivity|].
  now rewrite IH, length_add_at.
Qed.

Lemma nth_add_at j i v e :
  (j < List.length e)%nat ->
  nth j (add_at i v e) 0%float =
  if Nat.eqb i j then (nth j e 0 + v)%float else nth j e 0%float.
Proof.
  revert i j; induction e as [|x e IH]; intros i j Hj; simpl in Hj; [lia|].
  destruct i as [|i], j as [|j]; simpl; auto.
  apply IH; lia.
Qed.

Lemma nth_accumulate hash j words :
  forall i e, (j < List.length e)%nat ->
  nth j (accumulate hash words i e) 0%float =
  coordinate hash j words i (nth j e 0%float).
Proof.
  induction words as [|w ws IH]; intros i e Hj; simpl; [reflexivity|].
  rewrite IH by (now rewrite length_add_at).
  now rewrite nth_add_at.
Qed.

Lemma bucket_lt hash w : (bucket hash w < 384)%nat.
Proof.
  unfold bucket, embedding_dim.
  pose proof (Z.mod_pos_bound (hash w) 384 ltac:(lia)); lia.
Qed.

Lemma add_at_zeros b n :
  (b < n)%nat ->
  add_at b 1%float (repeat 0%float n) =
  repeat 0%float b ++ 1%float :: repeat 0%float (n - 1 - b).
Proof.
  revert n; induction b as [|b IH]; intros [|n] H; try lia.
  - simpl. now rewrite !Nat.sub_0_r.
  - replace (S n - 1 - S b)%nat with (n - 1 - b)%nat by lia.
    simpl. f_equal. apply IH. lia.
Qed.

Lemma raw_single hash text w :
  PyStr.split (PyStr.lower text) = [w] ->
  raw_embedding hash text = unit_vector (bucket hash w).
Proof.
  intros H. unfold raw_embedding. rewrite H. simpl.
  change (1 / PyFloat.of_Z (0 + 1))%float with 1%float.
  apply (add_at_zeros (bucket hash w) 384), bucket_lt.
Qed.

Lemma dot_zeros_0 n u :
  PyFloat.dot_from 0%float (repeat 0%float n ++ u) (repeat 0%float n ++ u)
  = PyFloat.dot_from 0%float u u.
Proof. induction n as [|n IH]; simpl; auto. Qed.

Lemma dot_zeros_1 n :
  PyFloat.dot_from 1%float (repeat 0%float n) (repeat 0%float n) = 1%float.
Proof. induction n as [|n IH]; simpl; auto. Qed.

Lemma norm_unit b : PyFloat.norm (unit_vector b) = 1%float.
Proof.
  unfold PyFloat.norm, PyFloat.dot, unit_vector.
  rewrite dot_zeros_0. simpl.
  change (0 + 1 * 1)%float with 1%float.
  now rewrite dot_zeros_1.
Qed.

Lemma map_div_one_unit b :
  map (fun x => (x / 1)%float) (unit_vector b) = unit_vector b.
Proof.
  unfold unit_vector. rewrite map_app. simpl. rewrite !map_repeat.
  reflexivity.
Qed.

(** A text of one word is embedded as the unit vector of the word's
    bucket. *)
Lemma embedding_single hash text w :
  PyStr.split (PyStr.lower text) = [w] ->
  _generate_embedding hash text = unit_vector (bucket hash w).
Proof.
  intros H. unfold _generate_embedding.
  rewrite (raw_single hash text w H), norm_unit.
  change (0 <? 1)%float with true. cbv iota.
  apply map_div_one_unit.
Qed.

Lemma split_chars_word l :
  forall cur, Forall (fun c => PyStr.is_space c = false) l ->
  l ++ cur <> [] ->
  PyStr.split_chars l cur = [PyStr.of_chars (rev cur ++ l)].
Proof.
  induction l as [|c l IH]; intros cur Hl Hne; simpl.
  - rewrite app_nil_r. destruct cur; [now contradiction Hne|reflexivity].
  - inversion Hl as [|? ? Hc Hl']; subst. rewrite Hc.
    rewrite IH; auto.
    + simpl. now rewrite <- app_assoc.
    + destruct l; discriminate.
Qed.

Lemma lower_of_chars_a n :
  PyStr.lower (PyStr.of_chars (repeat "a"%char n))
  = PyStr.of_chars (repeat "a"%char n).
Proof. induction n as [|n IH]; simpl; [reflexivity|]. now rewrite IH. Qed.

Lemma split_word_of_length n :
  PyStr.split (PyStr.lower (word_of_length n)) = [word_of_length n].
Proof.
  unfold word_of_length. rewrite (lower_of_chars_a (S n)).
  unfold PyStr.split, PyStr.chars, PyStr.of_chars.
  rewrite list_ascii_of_string_of_list_ascii.
  rewrite split_chars_word.
  - reflexivity.
  - apply Forall_forall. intros c Hc. apply repeat_spec in Hc. now subst.
  - discriminate.
Qed.

Lemma word_of_length_inj n m : word_of_length n = word_of_length m -> n = m.
Proof.
  unfold word_of_length, PyStr.of_chars. intros H.
  apply (f_equal list_ascii_of_string) in H.
  rewrite !list_ascii_of_string_of_list_ascii in H.
  apply (f_equal (@List.length _)) in H. rewrite !repeat_length in H. lia.
Qed.

Lemma nth_map_seq {A : Type} (f : nat -> A) n k d :
  (k < n)%nat -> nth k (map f (seq 0 n)) d = f k.
Proof.
  intros H. rewrite (nth_indep _ d (f 0%nat))
    by (now rewrite length_map, length_seq).
  rewrite (map_nth f (seq 0 n) 0%nat k). now rewrite seq_nth.
Qed.

(** More words than buckets: two of the words [a], [aa], ... share one. *)
Lemma bucket_collision hash :
  exists n m, n <> m /\
    bucket hash (word_of_length n) = bucket hash (word_of_length m).
Proof.
  set (bs := map (fun n => bucket hash (word_of_length n)) (seq 0 385)).
  assert (Hnd : ~ NoDup bs).
  { intros Hnd.
    assert (Hincl : incl bs (seq 0 384)).
    { intros b Hb. apply in_map_iff in Hb as [n [<- _]].
      apply in_seq. pose proof (bucket_lt hash (word_of_length n)). lia. }
    pose proof (NoDup_incl_length Hnd Hincl) as Hlen.
    unfold bs in Hlen. rewrite length_map, !length_seq in Hlen. lia. }
  apply (ListDec.not_NoDup (fun x y => Nat.eq_decidable x y)) in Hnd
    as (b & l1 & l2 & l3 & Hbs).
  pose proof (f_equal (@List.length _) Hbs) as Hlen.
  unfold bs in Hlen. rewrite length_map, length_seq in Hlen.
  rewrite length_app in Hlen. simpl in Hlen. rewrite length_app in Hlen.
  simpl in Hlen.
  set (n := List.length l1). set (m := (List.length l1 + 1 + List.length l2)%nat).
  assert (Hn : nth n bs 0%nat = b).
  { rewrite Hbs. unfold n. now rewrite nth_middle. }
  assert (Hm : nth m bs 0%nat = b).
  { rewrite Hbs. unfold m.
    replace (l1 ++ b :: l2 ++ b :: l3) with ((l1 ++ b :: l2) ++ b :: l3)
      by (rewrite <- app_assoc; reflexivity).
    replace (List.length l1 + 1 + List.length l2)%nat
      with (List.length (l1 ++ b :: l2))
      by (rewrite length_app; simpl; lia).
    now rewrite nth_middle. }
  exists n, m. split; [unfold n, m; lia|].
  unfold bs in Hn, Hm.
  rewrite nth_map_seq in Hn by (unfold n; lia).
  rewrite nth_map_seq in Hm by (unfold m; lia).
  congruence.
Qed.

Example embedding_three_words :
  let e := _generate_embedding PyStr.len "Claim the CLAIM" in
  List.length e = 384%nat /\
  nth 5 (raw_embedding PyStr.len "Claim the CLAIM") 0%float
    = (1 + 1 / 3)%float /\
  nth 3 (raw_embedding PyStr.len "Claim the CLAIM") 0%float = 0.5%float /\
  nth 3 e 0%float = (0.5 / PrimFloat.sqrt ((1 + 1 / 3) * (1 + 1 / 3) + 0.25))%float.
Proof. vm_compute. repeat split; reflexivity. Qed.

(** C1.  For every salt of [hash] and every text, [_generate_embedding]
    returns 384 coordinates; before normalisation coordinate [j] is the sum,
    in word order, of [1/(i+1)] over the positions [i] of the first 50
    lowercased whitespace-separated words that hash to [j] modulo 384; the
    result is that vector divided by its norm when the norm is positive.
    Two one-word texts whose words hash to the same residue modulo 384 get
    the same vector, and such a pair of distinct words always exists: the
    embedding is not injective. *)
Theorem generate_embedding_hash_collisions (hash : string -> Z) :
  (forall text,
     List.length (_generate_embedding hash text) = 384%nat /\
     (forall j, (j < 384)%nat ->
        nth j (raw_embedding hash text) 0%float =
        coordinate hash j (firstn 50 (PyStr.split (PyStr.lower text)))
          0 0%float) /\
     _generate_embedding hash text =
       let e := raw_embedding hash text in
       if (0 <? PyFloat.norm e)%float
       then map (fun x => (x / PyFloat.norm e)%float) e else e) /\
  (forall t1 t2 w1 w2,
     PyStr.split (PyStr.lower t1) = [w1] ->
     PyStr.split (PyStr.lower t2) = [w2] ->
     hash w1 mod 384 = hash w2 mod 384 ->
     _generate_embedding hash t1 = _generate_embedding hash t2) /\
  (exists t1 t2 w1 w2,
     t1 <> t2 /\ w1 <> w2 /\
     PyStr.split (PyStr.lower t1) = [w1] /\
     PyStr.split (PyStr.lower t2) = [w2] /\
     hash w1 mod 384 = hash w2 mod 384 /\
     _generate_embedding hash t1 = _generate_embedding hash t2).
Proof.
  assert (Hcollide : forall t1 t2 w1 w2,
     PyStr.split (PyStr.lower t1) = [w1] ->
     PyStr.split (PyStr.lower t2) = [w2] ->
     hash w1 mod 384 = hash w2 mod 384 ->
     _generate_embedding hash t1 = _generate_embedding hash t2).
  { intros t1 t2 w1 w2 H1 H2 Hmod.
    rewrite (embedding_single hash t1 w1 H1), (embedding_single hash t2 w2 H2).
    unfold bucket, embedding_dim. now rewrite Hmod. }
  split; [|split; [exact Hcollide|]].
  - intros text. split; [|split].
    + unfold _generate_embedding.
      destruct (0 <? PyFloat.norm (raw_embedding hash text))%float;
        rewrite ?length_map; unfold raw_embedding;
        now rewrite length_accumulate, repeat_length.
    + intros j Hj. unfold raw_embedding.
      rewrite nth_accumulate by (rewrite repeat_length; exact Hj).
      f_equal. apply nth_repeat.
    + reflexivity.
  - destruct (bucket_collision hash) as (n & m & Hnm & Hb).
    exists (word_of_length n), (word_of_length m),
           (word_of_length n), (word_of_length m).
    assert (Hw : word_of_length n <> word_of_length m)
      by (intros E; apply Hnm, word_of_length_inj, E).
    assert (Hmod : hash (word_of_length n) mod 384
                   = hash (word_of_length m) mod 384).
    { unfold bucket, embedding_dim in Hb.
      apply Z2Nat.inj in Hb; auto;
        apply Z.mod_pos_bound; lia. }
    repeat split; auto using split_word_of_length.
    apply (Hcollide _ _ _ _ (split_word_of_length n)
             (split_word_of_length m) Hmod).
Qed.

(** With the length of the word as its hash, [policy] and [claims]
    collide. *)
Lemma generate_embedding_hash_collisions_witness :
  _generate_embedding PyStr.len "policy" = _generate_embedding PyStr.len "claims".
Proof.
  apply (proj1 (proj2 (generate_embedding_hash_collisions PyStr.len))
           "policy" "claims" "policy" "claims"); reflexivity.
Defined.

End EmbeddingFacts.

(* ================================================================= *)
(** ** Nearest-neighbour search *)

Module SearchFacts.
Import VectorStore.

(** A result passes the threshold of [search_similar]. *)
Definition above_threshold (r : search_result) : Prop :=
  (0.3 <? similarity_score r)%float = true.

(** [a] may stand before [b] in a list of non-increasing scores. *)
Definition score_ge (a b : search_result) : Prop :=
  (similarity_score b <=? similarity_score a)%float = true.

Lemma SFcompare_antisym a b :
  SFcompare b a = option_map CompOpp (SFcompare a b).
Proof.
  destruct a as [s1| s1| |s1 m1 e1], b as [s2|s2| |s2 m2 e2]; simpl;
    try reflexivity;
    try (destruct s1; reflexivity); try (destruct s2; reflexivity);
    try (destruct s1, s2; reflexivity).
  destruct s1, s2; simpl; try reflexivity;
    rewrite (Z.compare_antisym e1 e2);
    destruct (e1 ?= e2); simpl; try reflexivity;
    change (Pos.compare_cont Eq m2 m1) with (Pos.compare m2 m1);
    change (Pos.compare_cont Eq m1 m2) with (Pos.compare m1 m2);
    rewrite (Pos.compare_antisym m1 m2);
    destruct (m1 ?= m2)%positive; reflexivity.
Qed.

Lemma ltb_leb x y : (x <? y)%float = true -> (x <=? y)%float = true.
Proof.
  rewrite ltb_spec, leb_spec. unfold SFltb, SFleb.
  destruct (SFcompare (Prim2SF x) (Prim2SF y)) as [[| |]|]; congruence.
Qed.

(** Two scores above the threshold are comparable: neither is a NaN. *)
Lemma not_ltb_leb t x y :
  (t <? x)%float = true -> (t <? y)%float = true ->
  (x <? y)%float = false -> (y <=? x)%float = true.
Proof.
  rewrite !ltb_spec, leb_spec. unfold SFltb, SFleb.
  rewrite (SFcompare_antisym (Prim2SF x) (Prim2SF y)).
  destruct (Prim2SF x) as [| | |] eqn:Ex, (Prim2SF y) as [| | |] eqn:Ey;
    try (destruct (Prim2SF t) as [[]|[]| |[]]; simpl; discriminate);
    intros _ _;
    match goal with
    | |- context [SFcompare ?a ?b] => destruct (SFcompare a b) as [[| |]|] eqn:E
    end; simpl; try congruence;
    simpl in E; repeat match type of E with
                       | context [if ?s then _ else _] => destruct s
                       end; discriminate.
Qed.

Lemma insert_desc_In x l r :
  In r (insert_desc x l) <-> r = x \/ In r l.
Proof.
  induction l as [|y l IH]; simpl.
  - intuition auto.
  - destruct (similarity_score x <? similarity_score y)%float; simpl;
      rewrite ?IH; intuition auto.
Qed.

Lemma insert_desc_Forall P x l :
  P x -> Forall P l -> Forall P (insert_desc x l).
Proof.
  intros Hx Hl. apply Forall_forall. intros r Hr.
  apply insert_desc_In in Hr as [->|Hr]; auto.
  rewrite Forall_forall in Hl; auto.
Qed.

Lemma insert_desc_sorted x l :
  above_threshold x -> Forall above_threshold l ->
  Sorted score_ge l -> Sorted score_ge (insert_desc x l).
Proof.
  intros Hx Hl Hs. induction Hs as [|y l Hs IH Hhd]; simpl.
  - repeat constructor.
  - inversion Hl as [|? ? Hy Hl']; subst.
    destruct (similarity_score x <? similarity_score y)%float eqn:E.
    + constructor; [auto|].
      destruct l as [|z l]; simpl.
      * constructor. apply ltb_leb, E.
      * destruct (similarity_score x <? similarity_score z)%float.
        -- constructor. now inversion Hhd.
        -- constructor. apply ltb_leb, E.
    + constructor; [constructor; auto|].
      constructor. eapply not_ltb_leb; eauto.
Qed.

Lemma sort_desc_Forall P l : Forall P l -> Forall P (sort_desc l).
Proof.
  induction 1; simpl; [constructor|]. now apply insert_desc_Forall.
Qed.

Lemma sort_desc_sorted l :
  Forall above_threshold l -> Sorted score_ge (sort_desc l).
Proof.
  induction 1; simpl; [constructor|].
  apply insert_desc_sorted; auto using sort_desc_Forall.
Qed.

Lemma sort_desc_In l r : In r (sort_desc l) <-> In r l.
Proof.
  induction l as [|x l IH]; simpl; [reflexivity|].
  rewrite insert_desc_In, IH. intuition auto.
Qed.

Lemma length_insert_desc x l :
  List.length (insert_desc x l) = S (List.length l).
Proof.
  induction l as [|y l IH]; simpl; [reflexivity|].
  destruct (similarity_score x <? similarity_score y)%float; simpl; auto.
Qed.

Lemma length_sort_desc l : List.length (sort_desc l) = List.length l.
Proof.
  induction l as [|x l IH]; simpl; [reflexivity|].
  now rewrite length_insert_desc, IH.
Qed.

Lemma Sorted_firstn {A : Type} (R : A -> A -> Prop) n l :
  Sorted R l -> Sorted R (firstn n l).
Proof.
  revert l; induction n as [|n IH]; intros l Hs; simpl; [constructor|].
  destruct Hs as [|x l Hs Hhd]; [constructor|].
  constructor; [auto|].
  destruct Hhd as [|y l Hxy]; destruct n; simpl; constructor; auto.
Qed.

Lemma Forall_firstn {A : Type} (P : A -> Prop) n l :
  Forall P l -> Forall P (firstn n l).
Proof.
  revert l; induction n as [|n IH]; intros l H; simpl; [constructor|].
  destruct H; constructor; auto.
Qed.

Lemma list_take_Forall {A : Type} (P : A -> Prop) l k :
  Forall P l -> Forall P (list_take l k).
Proof.
  unfold list_take. destruct (k <? 0); apply Forall_firstn.
Qed.

Lemma list_take_sorted {A : Type} (R : A -> A -> Prop) l k :
  Sorted R l -> Sorted R (list_take l k).
Proof.
  unfold list_take. destruct (k <? 0); apply Sorted_firstn.
Qed.

Lemma length_list_take {A : Type} (l : list A) k :
  Z.of_nat (List.length (list_take l k)) =
  if k <? 0 then Z.max 0 (Z.of_nat (List.length l) + k)
  else Z.min k (Z.of_nat (List.length l)).
Proof.
  unfold list_take. destruct (k <? 0) eqn:E; rewrite length_firstn; lia.
Qed.

(** [r] reports the cosine similarity of the query vector [q] with a
    stored embedding. *)
Definition from_store (st : store) (q : list float) (r : search_result)
  : Prop :=
  exists p eds ed,
    PyDict.get (embeddings st) p = Some eds /\ In ed eds /\
    _cosine_similarity q (embedding ed) = Some (similarity_score r) /\
    r_chunk_id r = e_chunk_id ed /\ r_policy_id r = p.

Definition hit (st : store) (q : list float) (r : search_result) : Prop :=
  above_threshold r /\ from_store st q r.

Lemma scan_policy_hits st q policy all eds :
  PyDict.get (embeddings st) policy = Some all -> incl eds all ->
  forall rs rs', Forall (hit st q) rs ->
  scan_policy st q policy eds rs = Some rs' -> Forall (hit st q) rs'.
Proof.
  intros Hget. induction eds as [|ed eds IH]; intros Hincl rs rs' Hrs H;
    simpl in H.
  - now inversion H; subst.
  - destruct (_cosine_similarity q (embedding ed)) as [s|] eqn:Ec;
      [|discriminate].
    eapply IH; [|..|exact H].
    + intros x Hx. apply Hincl. now right.
    + destruct (0.3 <? s)%float eqn:E; auto.
      apply Forall_app; split; auto. constructor; [|constructor].
      split; [exact E|].
      exists policy, all, ed. repeat split; auto. apply Hincl. now left.
Qed.

Lemma scan_policies_hits st q targets :
  forall rs rs', Forall (hit st q) rs ->
  scan_policies st q targets rs = Some rs' -> Forall (hit st q) rs'.
Proof.
  induction targets as [|p targets IH]; intros rs rs' Hrs H; simpl in H.
  - now inversion H; subst.
  - destruct (PyDict.get (embeddings st) p) as [eds|] eqn:Eg; [|eauto].
    destruct (scan_policy st q p eds rs) as [rs1|] eqn:E; [|discriminate].
    eapply IH; [|exact H].
    eapply scan_policy_hits; eauto. apply incl_refl.
Qed.

(** A store holding one policy with two chunks, embedded with the length
    of a word as its hash. *)
Definition demo_chunk (n : string) (text : string) : chunk :=
  mk_chunk ("P1_chunk_" ++ n) "P1" "claims" text "" "".

Definition demo_embedding (n : string) (text : string) : embedding_data :=
  mk_embedding_data ("P1_chunk_" ++ n) "P1"
    (_generate_embedding PyStr.len text) "claims" (PyStr.len text) "".

Definition demo_store : store :=
  mk_store
    [("P1", [demo_embedding "0" "claim process"; demo_embedding "1" "about claim"])]
    [("P1_chunk_0", demo_chunk "0" "claim process");
     ("P1_chunk_1", demo_chunk "1" "about claim")]
    [] [].

(** The same store after a file with a two-dimensional embedding was
    loaded from disk. *)
Definition broken_store : store :=
  mk_store
    [("P1", [demo_embedding "0" "claim process";
             mk_embedding_data "P1_chunk_1" "P1" [1%float; 0%float]
               "claims" 11 ""])]
    (chunks demo_store) [] [].

Example search_demo :
  map r_content (search_similar PyStr.len demo_store "claim" None 5)
    = ["about claim"; "claim process"] /\
  map r_content (search_similar PyStr.len demo_store "claim" None 1)
    = ["about claim"] /\
  map r_content (search_similar PyStr.len demo_store "premium" None 5)
    = ["claim process"] /\
  search_similar PyStr.len demo_store "due" None 5 = [] /\
  search_similar PyStr.len broken_store "claim" None 5 = [].
Proof. vm_compute. repeat split; reflexivity. Qed.

(** The claim as stated fails for a negative [top_k]: on the demo
    store both chunks match the query, and with [top_k = -1] the slice
    [results[:-1]] returns the better one of them, one result where at
    most -1 were to come back. *)
Lemma search_similar_negative_top_k :
  map r_content (search_similar PyStr.len demo_store "claim" None (-1))
    = ["about claim"] /\
  map r_content (search_similar PyStr.len demo_store "claim" None 5)
    = ["about claim"; "claim process"] /\
  -1 < Z.of_nat (List.length
                   (search_similar PyStr.len demo_store "claim" None (-1))).
Proof. vm_compute. repeat split; reflexivity. Qed.

(** The number of results: [top_k] of the matches, or all of them when
    there are fewer; a negative [top_k] is a slice bound counted from the
    end. *)
Lemma length_search_similar hash st query policy top_k matches :
  scan_policies st (_generate_embedding hash query)
    (target_policies st policy) [] = Some matches ->
  Z.of_nat (List.length (search_similar hash st query policy top_k)) =
    if top_k <? 0
    then Z.max 0 (Z.of_nat (List.length matches) + top_k)
    else Z.min top_k (Z.of_nat (List.length matches)).
Proof.
  intros E. unfold search_similar. rewrite E.
  now rewrite length_list_take, length_sort_desc.
Qed.

(** C8 (amended).  For every query and store, [search_similar] returns
    at most [top_k] results for every [top_k >= 0]; for every [top_k],
    every result carries the cosine similarity of the query embedding with
    a stored embedding, that similarity is strictly greater than 0.3, and
    the results are in non-increasing order of [similarity_score].  When
    the scan raises (a stored embedding whose length differs from the
    query's), the result is the empty list. *)
Theorem search_similar_top_k hash st query policy top_k :
  let q := _generate_embedding hash query in
  let results := search_similar hash st query policy top_k in
  (0 <= top_k -> Z.of_nat (List.length results) <= top_k) /\
  Forall (fun r => above_threshold r /\ from_store st q r) results /\
  Sorted score_ge results /\
  (scan_policies st q (target_policies st policy) [] = None ->
   results = []).
Proof.
  intros q results. unfold results, search_similar. fold q.
  destruct (scan_policies st q (target_policies st policy) [])
    as [matches|] eqn:E.
  - assert (Hhits : Forall (hit st q) matches)
      by (eapply scan_policies_hits; [constructor|exact E]).
    assert (Hok : Forall above_threshold matches)
      by (eapply Forall_impl; [|exact Hhits]; intros r [H _]; exact H).
    repeat split.
    + intros Hk. rewrite length_list_take.
      destruct (top_k <? 0) eqn:Ek; lia.
    + apply list_take_Forall, sort_desc_Forall. exact Hhits.
    + apply list_take_sorted, sort_desc_sorted, Hok.
    + discriminate.
  - repeat split; try constructor; try discriminate.
    simpl. intros; lia.
Qed.

(** On the demo store, one result is asked for and one is returned. *)
Lemma search_similar_top_k_witness :
  Z.of_nat (List.length (search_similar PyStr.len demo_store "claim" None 1))
    <= 1.
Proof.
  apply (proj1 (search_similar_top_k PyStr.len demo_store "claim" None 1)).
  lia.
Defined.

End SearchFacts.

(* ================================================================= *)
(** ** Deleting a policy *)

Module DeleteFacts.
Import VectorStore PyDictFacts.

Lemma remove_file_In path fs f :
  In f (remove_file path fs) <-> In f fs /\ f <> path.
Proof.
  unfold remove_file. rewrite filter_In, negb_true_iff, String.eqb_neq.
  reflexivity.
Qed.

Lemma delete_paths_done removable paths :
  forall fs fs', delete_paths removable paths fs = (fs', true) ->
  forall f, In f fs' <-> In f fs /\ ~ In f paths.
Proof.
  induction paths as [|path paths IH]; intros fs fs' H f; simpl in H.
  - inversion H; subst. simpl. tauto.
  - destruct (existsb (String.eqb path) fs) eqn:Ex.
    + destruct (removable path); [|discriminate].
      rewrite (IH _ _ H f), remove_file_In. simpl. intuition congruence.
    + rewrite (IH _ _ H f). simpl.
      assert (Hnot : ~ In path fs).
      { intros Hin. apply not_true_iff_false in Ex. apply Ex.
        apply existsb_exists. exists path. split; [exact Hin|].
        apply String.eqb_refl. }
      intuition congruence.
Qed.

Lemma chunks_after_delete (cs : PyDict.t chunk) p :
  PyDict.wf cs ->
  fold_left (fun d k => PyDict.del d k) (chunks_to_remove cs p) cs =
  filter (fun kc => negb (String.eqb (policy_id (snd kc)) p)) cs.
Proof.
  intros Hwf. rewrite fold_del by assumption.
  apply filter_ext_in. intros [k c] Hin. simpl. f_equal.
  destruct (String.eqb (policy_id c) p) eqn:E.
  - apply existsb_exists. exists k. split; [|apply String.eqb_refl].
    unfold chunks_to_remove. apply in_map_iff. exists (k, c). split; auto.
    apply filter_In. auto.
  - apply not_true_iff_false. intros Hex.
    apply existsb_exists in Hex as [k' [Hk' Heq]].
    apply String.eqb_eq in Heq. subst k'.
    unfold chunks_to_remove in Hk'.
    apply in_map_iff in Hk' as [[k1 c1] [Hk1 Hin1]]. simpl in Hk1. subst k1.
    apply filter_In in Hin1 as [Hin1 Hp]. simpl in Hp.
    apply (In_get _ _ _ Hwf) in Hin, Hin1. congruence.
Qed.

Lemma mem_del {V : Type} (d : PyDict.t V) p :
  PyDict.wf d ->
  (if PyDict.mem d p then PyDict.del d p else d) = without d p.
Proof.
  intros Hwf. unfold PyDict.mem.
  destruct (PyDict.get d p) eqn:E; [now apply del_without|].
  unfold without. symmetry. apply filter_all. intros [k v] Hin. simpl.
  apply negb_true_iff, String.eqb_neq. intros ->.
  apply (In_get _ _ _ Hwf) in Hin. congruence.
Qed.

(** A store with two policies, and the files of one of them. *)
Definition two_policies : store :=
  mk_store
    [("P1", [mk_embedding_data "P1_chunk_0" "P1" [] "claims" 13 ""]);
     ("P2", [mk_embedding_data "P2_chunk_0" "P2" [] "premium" 11 ""])]
    [("P1_chunk_0", mk_chunk "P1_chunk_0" "P1" "claims" "claim process" "" "");
     ("P2_chunk_0", mk_chunk "P2_chunk_0" "P2" "premium" "premium due" "" "");
     ("P1_chunk_1", mk_chunk "P1_chunk_1" "P1" "claims" "about claim" "" "")]
    [("P1", [("claims", [mk_index_entry "P1_chunk_0" 13])]);
     ("P2", [("premium", [mk_index_entry "P2_chunk_0" 11])])]
    ["vector_store/P1_embeddings.json"; "vector_store/P2_embeddings.json";
     "vector_store/P1_index.json"].

Example delete_demo :
  let '(ok, st') := delete_policy (fun _ => true) two_policies "P1" in
  ok = true /\
  PyDict.keys (embeddings st') = ["P2"] /\
  PyDict.keys (chunks st') = ["P2_chunk_0"] /\
  PyDict.keys (index st') = ["P2"] /\
  files st' = ["vector_store/P2_embeddings.json"].
Proof. vm_compute. repeat split; reflexivity. Qed.

(** When [os.remove] fails the method returns [False], after the
    in-memory entries are already gone. *)
Example delete_demo_locked :
  let '(ok, st') := delete_policy (fun _ => false) two_policies "P1" in
  ok = false /\ PyDict.keys (embeddings st') = ["P2"] /\
  files st' = files two_policies.
Proof. vm_compute. repeat split; reflexivity. Qed.

(** C9.  For every store whose dicts hold each key once and every policy
    id [p], [delete_policy p] leaves exactly the embeddings and index
    entries of the other policies and the chunks whose [policy_id] is not
    [p], each unchanged and in its place; lookups of [p] then find nothing,
    lookups of any other policy find what they found before, and
    [get_policy_chunks p] is empty.  When the call returns [True], the
    three files of [p] are gone and every other file is still there. *)
Theorem delete_policy_frame removable st p :
  PyDict.wf (embeddings st) -> PyDict.wf (index st) ->
  PyDict.wf (chunks st) ->
  let ok := fst (delete_policy removable st p) in
  let st' := snd (delete_policy removable st p) in
  embeddings st' = without (embeddings st) p /\
  index st' = without (index st) p /\
  chunks st' =
    filter (fun kc => negb (String.eqb (policy_id (snd kc)) p)) (chunks st) /\
  PyDict.get (embeddings st') p = None /\
  PyDict.get (index st') p = None /\
  (forall q, q <> p ->
     PyDict.get (embeddings st') q = PyDict.get (embeddings st) q /\
     PyDict.get (index st') q = PyDict.get (index st) q) /\
  (forall k,
     PyDict.get (chunks st') k =
     match PyDict.get (chunks st) k with
     | Some c => if String.eqb (policy_id c) p then None else Some c
     | None => None
     end) /\
  (forall sec, get_policy_chunks st' p sec = []) /\
  (forall q sec, q <> p ->
     get_policy_chunks st' q sec = get_policy_chunks st q sec) /\
  (ok = true ->
   forall f, In f (files st') <-> In f (files st) /\ ~ In f (policy_files p)).
Proof.
  intros Hwe Hwi Hwc ok st'.
  assert (He : embeddings st' = without (embeddings st) p).
  { unfold st', delete_policy.
    destruct (delete_paths removable (policy_files p) (files st)).
    simpl. now apply mem_del. }
  assert (Hi : index st' = without (index st) p).
  { unfold st', delete_policy.
    destruct (delete_paths removable (policy_files p) (files st)).
    simpl. now apply mem_del. }
  assert (Hc : chunks st' =
    filter (fun kc => negb (String.eqb (policy_id (snd kc)) p)) (chunks st)).
  { unfold st', delete_policy.
    destruct (delete_paths removable (policy_files p) (files st)).
    simpl. now apply chunks_after_delete. }
  split; [exact He|]. split; [exact Hi|]. split; [exact Hc|].
  rewrite He, Hi.
  split; [now apply get_without_same|].
  split; [now apply get_without_same|].
  split; [intros q Hq; split; now apply get_without_other|].
  split.
  { intros k. rewrite Hc, get_filter by assumption.
    destruct (PyDict.get (chunks st) k) as [c|]; [|reflexivity].
    simpl. now destruct (String.eqb (policy_id c) p). }
  split.
  { intros sec. unfold get_policy_chunks. rewrite Hc, filter_twice.
    rewrite (filter_ext _ (fun _ => false)), filter_false; [reflexivity|].
    intros [k c]. simpl. now destruct (String.eqb (policy_id c) p). }
  split.
  { intros q sec Hq. unfold get_policy_chunks. rewrite Hc, filter_twice.
    f_equal. apply filter_ext. intros [k c]. simpl.
    destruct (String.eqb (policy_id c) p) eqn:E1; [|reflexivity].
    destruct (String.eqb (policy_id c) q) eqn:E2; [|reflexivity].
    apply String.eqb_eq in E1, E2. congruence. }
  intros Hok f. revert Hok. unfold ok, st', delete_policy.
  destruct (delete_paths removable (policy_files p) (files st))
    as [fs' b] eqn:Ed.
  cbn [fst snd files]. intros ->.
  exact (delete_paths_done removable _ _ _ Ed f).
Qed.

Lemma wf_two_policies :
  PyDict.wf (embeddings two_policies) /\ PyDict.wf (index two_policies)
  /\ PyDict.wf (chunks two_policies).
Proof.
  unfold PyDict.wf; simpl; repeat split;
    repeat (constructor; [simpl; intuition discriminate|]); constructor.
Qed.

(** Deleting [P1] from the two-policy store leaves the chunk of [P2]. *)
Lemma delete_policy_frame_witness :
  chunks (snd (delete_policy (fun _ => true) two_policies "P1")) =
  filter (fun kc => negb (String.eqb (policy_id (snd kc)) "P1"))
    (chunks two_policies).
Proof.
  destruct wf_two_policies as (He & Hi & Hc).
  exact (proj1 (proj2 (proj2
    (delete_policy_frame (fun _ => true) two_policies "P1" He Hi Hc)))).
Defined.

End DeleteFacts.

(* ================================================================= *)
(** ** Searching and deleting, further *)

Module StoreMoreFacts.
Import VectorStore PyDictFacts.

Lemma norm_zeros n : PyFloat.norm (repeat 0%float n) = 0%float.
Proof.
  unfold PyFloat.norm, PyFloat.dot.
  pose proof (EmbeddingFacts.dot_zeros_0 n []) as H.
  rewrite !app_nil_r in H. rewrite H. reflexivity.
Qed.

(** A text without a word is embedded as the zero vector. *)
Lemma embedding_no_word hash text :
  PyStr.split (PyStr.lower text) = [] ->
  _generate_embedding hash text = repeat 0%float 384.
Proof.
  intros H. unfold _generate_embedding, raw_embedding. rewrite H.
  cbn [firstn accumulate]. change (Z.to_nat embedding_dim) with 384%nat.
  now rewrite norm_zeros.
Qed.

Lemma cosine_zeros v :
  _cosine_similarity (repeat 0%float 384) v = None \/
  _cosine_similarity (repeat 0%float 384) v = Some 0%float.
Proof.
  unfold _cosine_similarity.
  destruct (Nat.eqb _ _); [right|now left].
  now rewrite norm_zeros.
Qed.

Lemma scan_policy_zeros st policy eds :
  scan_policy st (repeat 0%float 384) policy eds [] = None \/
  scan_policy st (repeat 0%float 384) policy eds [] = Some [].
Proof.
  induction eds as [|ed eds IH]; cbn [scan_policy]; [now right|].
  destruct (cosine_zeros (embedding ed)) as [->| ->]; [now left|].
  exact IH.
Qed.

Lemma scan_policies_zeros st targets :
  scan_policies st (repeat 0%float 384) targets [] = None \/
  scan_policies st (repeat 0%float 384) targets [] = Some [].
Proof.
  induction targets as [|p targets IH]; cbn [scan_policies]; [now right|].
  destruct (PyDict.get (embeddings st) p) as [eds|]; [|exact IH].
  destruct (scan_policy_zeros st p eds) as [->| ->]; [now left|exact IH].
Qed.

(** X7: a query without a word (empty, or white space only) finds
    nothing, in every store and for every [policy_id] and [top_k]. *)
Theorem search_without_words_finds_nothing hash st query policy top_k :
  PyStr.split (PyStr.lower query) = [] ->
  search_similar hash st query policy top_k = [].
Proof.
  intros H. unfold search_similar. rewrite (embedding_no_word hash query H).
  destruct (scan_policies_zeros st (target_policies st policy)) as [->| ->];
    [reflexivity|].
  unfold list_take. cbn [sort_desc fold_right List.length].
  destruct (top_k <? 0); now rewrite firstn_nil.
Qed.

Lemma search_without_words_finds_nothing_witness :
  search_similar PyStr.len SearchFacts.demo_store "  " None 5 = [].
Proof.
  apply (search_without_words_finds_nothing PyStr.len SearchFacts.demo_store).
  reflexivity.
Defined.

Lemma without_twice {V : Type} (d : PyDict.t V) p :
  without (without d p) p = without d p.
Proof.
  unfold without. rewrite filter_twice. apply filter_ext.
  intros kv. now rewrite andb_diag.
Qed.

(** What [delete_policy] leaves in memory, and on disk when it returns
    [True]. *)
Lemma delete_policy_memory removable st p :
  PyDict.wf (embeddings st) -> PyDict.wf (index st) ->
  PyDict.wf (chunks st) ->
  let st' := snd (delete_policy removable st p) in
  embeddings st' = without (embeddings st) p /\
  index st' = without (index st) p /\
  chunks st' =
    filter (fun kc => negb (String.eqb (policy_id (snd kc)) p)) (chunks st) /\
  (fst (delete_policy removable st p) = true ->
   forall f, In f (files st') <-> In f (files st) /\ ~ In f (policy_files p)).
Proof.
  intros Hwe Hwi Hwc. unfold delete_policy.
  destruct (delete_paths removable (policy_files p) (files st))
    as [fs' b] eqn:Ed.
  cbn [fst snd embeddings index chunks files].
  split; [now apply DeleteFacts.mem_del|].
  split; [now apply DeleteFacts.mem_del|].
  split; [now apply DeleteFacts.chunks_after_delete|].
  intros -> f. exact (DeleteFacts.delete_paths_done removable _ _ _ Ed f).
Qed.

(** X8: deleting a policy a second time changes nothing more in memory,
    and succeeds whenever the first deletion did; after a deletion a
    search restricted to that policy finds nothing. *)
Theorem delete_policy_twice hash removable st p query top_k :
  PyDict.wf (embeddings st) -> PyDict.wf (index st) ->
  PyDict.wf (chunks st) ->
  let st1 := snd (delete_policy removable st p) in
  let st2 := snd (delete_policy removable st1 p) in
  embeddings st2 = embeddings st1 /\
  index st2 = index st1 /\
  chunks st2 = chunks st1 /\
  (fst (delete_policy removable st p) = true ->
   fst (delete_policy removable st1 p) = true /\ files st2 = files st1) /\
  (PyStr.nonempty p = true ->
   search_similar hash st1 query (Some p) top_k = []).
Proof.
  intros Hwe Hwi Hwc st1 st2.
  destruct (delete_policy_memory removable st p Hwe Hwi Hwc)
    as (He & Hi & Hc & Hfiles).
  fold st1 in He, Hi, Hc, Hfiles.
  assert (Hge : PyDict.get (embeddings st1) p = None)
    by (rewrite He; now apply get_without_same).
  assert (Hwe1 : PyDict.wf (embeddings st1))
    by (rewrite He; now apply wf_filter).
  assert (Hwi1 : PyDict.wf (index st1)) by (rewrite Hi; now apply wf_filter).
  assert (Hwc1 : PyDict.wf (chunks st1)) by (rewrite Hc; now apply wf_filter).
  destruct (delete_policy_memory removable st1 p Hwe1 Hwi1 Hwc1)
    as (He2 & Hi2 & Hc2 & _).
  fold st2 in He2, Hi2, Hc2.
  split; [rewrite He2, He; apply without_twice|].
  split; [rewrite Hi2, Hi; apply without_twice|].
  split.
  { rewrite Hc2, Hc, filter_twice. apply filter_ext.
    intros kv. now rewrite andb_diag. }
  split.
  - intros Hok. specialize (Hfiles Hok).
    assert (Hgone : forall path, In path (policy_files p) ->
              existsb (String.eqb path) (files st1) = false).
    { intros path Hin. apply not_true_iff_false. intros Hex.
      apply existsb_exists in Hex as [f [Hf Heq]].
      apply String.eqb_eq in Heq. subst f.
      apply Hfiles in Hf. tauto. }
    unfold st2, delete_policy.
    assert (Hd : forall paths fs,
              (forall path, In path paths ->
                 existsb (String.eqb path) fs = false) ->
              delete_paths removable paths fs = (fs, true)).
    { induction paths as [|path paths IH]; intros fs H; [reflexivity|].
      cbn [delete_paths]. rewrite (H path) by now left.
      apply IH. intros; apply H. now right. }
    rewrite (Hd (policy_files p) (files st1) Hgone). split; reflexivity.
  - intros Hp. unfold search_similar, target_policies. rewrite Hp.
    cbn [scan_policies]. rewrite Hge. unfold list_take.
    cbn [sort_desc fold_right List.length].
    destruct (top_k <? 0); now rewrite firstn_nil.
Qed.

Lemma delete_policy_twice_witness :
  search_similar PyStr.len
    (snd (delete_policy (fun _ => true) DeleteFacts.two_policies "P1"))
    "claim" (Some "P1") 5 = [].
Proof.
  destruct DeleteFacts.wf_two_policies as (He & Hi & Hc).
  apply (proj2 (proj2 (proj2 (proj2
    (delete_policy_twice PyStr.len (fun _ => true) DeleteFacts.two_policies
       "P1" "claim" 5 He Hi Hc))))).
  reflexivity.
Defined.

End StoreMoreFacts.

(* ================================================================= *)
(** ** Creating embeddings and finding them again *)

Module IngestFacts.
Import VectorStore VectorStoreIngest PyDictFacts PyDictSetFacts.

Lemma str_of_nat_inj n m : str_of_nat n = str_of_nat m -> n = m.
Proof.
  unfold str_of_nat. intros H. apply Unsigned.to_uint_inj.
  pose proof (NilEmpty.usu (Nat.to_uint n)) as Hn.
  pose proof (NilEmpty.usu (Nat.to_uint m)) as Hm.
  rewrite H in Hn. congruence.
Qed.

Lemma append_inj_r (p a b : string) : (p ++ a = p ++ b)%string -> a = b.
Proof.
  induction p as [|c p IH]; simpl; [auto|].
  intros H. inversion H. auto.
Qed.

Lemma chunk_name_inj policy n m :
  chunk_name policy n = chunk_name policy m -> n = m.
Proof.
  unfold chunk_name. intros H.
  apply append_inj_r, append_inj_r in H. now apply str_of_nat_inj.
Qed.

Lemma NoDup_map_inj {A B : Type} (f : A -> B) l :
  (forall x y, f x = f y -> x = y) -> NoDup l -> NoDup (map f l).
Proof.
  intros Hinj. induction 1 as [|x l Hx _ IH]; simpl; constructor; auto.
  intros Hin. apply in_map_iff in Hin as [y [Hy Hin]].
  apply Hinj in Hy. now subst.
Qed.

Lemma length_generate_embedding hash text :
  List.length (_generate_embedding hash text) = 384%nat.
Proof.
  unfold _generate_embedding.
  destruct (0 <? PyFloat.norm (raw_embedding hash text))%float;
    rewrite ?length_map; unfold raw_embedding;
    now rewrite EmbeddingFacts.length_accumulate, repeat_length.
Qed.

Section Facts.
Variable hash : string -> Z.
Variable md5_hexdigest : string -> string.
Variable clock : nat -> string.

Abbreviation chunks_of_items := (chunks_of_items md5_hexdigest clock).
Abbreviation chunks_of_data := (chunks_of_data md5_hexdigest clock).
Abbreviation make_chunk := (make_chunk md5_hexdigest clock).
Abbreviation create_embeddings := (create_embeddings hash md5_hexdigest clock).

(** The chunks of policy [p] made so far: numbered from 0 in order, each
    the stripped form of a text of more than 10 characters. *)
Definition numbered (p : string) (l : list chunk) : Prop :=
  map chunk_id l = map (chunk_name p) (seq 0 (List.length l)) /\
  Forall (fun c => policy_id c = p /\ 10 < PyStr.len (content c) /\
                   exists text, content c = PyStr.strip text) l.

Lemma numbered_snoc p sec l s :
  numbered p l -> long_enough s = true ->
  numbered p (l ++ [make_chunk p sec (List.length l) s]).
Proof.
  intros [Hid Hall] Hs. split.
  - rewrite length_app. cbn [List.length].
    rewrite Nat.add_1_r, seq_S, !map_app, Hid. reflexivity.
  - apply Forall_app. split; [exact Hall|]. repeat constructor.
    + apply Z.ltb_lt. exact Hs.
    + now exists s.
Qed.

Lemma chunks_of_items_numbered p sec items :
  forall l, numbered p l -> numbered p (chunks_of_items p sec items l).
Proof.
  induction items as [|[s|] items IH]; intros l Hl; cbn; auto.
  apply IH. destruct (long_enough s) eqn:E; [now apply numbered_snoc|exact Hl].
Qed.

Lemma chunks_of_data_numbered p data :
  forall l, numbered p l -> numbered p (chunks_of_data p data l).
Proof.
  induction data as [|[sec [items|s|]] data IH]; intros l Hl; cbn; auto.
  - apply IH. now apply chunks_of_items_numbered.
  - apply IH. destruct (long_enough s) eqn:E;
      [now apply numbered_snoc|exact Hl].
Qed.

Lemma numbered_NoDup p l : numbered p l -> NoDup (map chunk_id l).
Proof.
  intros [Hid _]. rewrite Hid.
  apply NoDup_map_inj; [|apply seq_NoDup].
  intros n m. apply chunk_name_inj.
Qed.

(** Storing chunks with distinct ids: each is found under its id, and
    every other id finds what it found before. *)
Lemma store_chunks_lookup (cs : list chunk) :
  NoDup (map chunk_id cs) ->
  forall d,
    (forall c, In c cs ->
       PyDict.get (fold_left (fun d c => PyDict.set d (chunk_id c) c) cs d)
         (chunk_id c) = Some c) /\
    (forall k, ~ In k (map chunk_id cs) ->
       PyDict.get (fold_left (fun d c => PyDict.set d (chunk_id c) c) cs d) k
       = PyDict.get d k).
Proof.
  induction cs as [|c cs IH]; intros Hnd d; cbn [fold_left map].
  - split; [intros c []|reflexivity].
  - inversion Hnd as [|? ? Hnotin Hnd']; subst.
    destruct (IH Hnd' (PyDict.set d (chunk_id c) c)) as [H1 H2].
    split.
    + intros c' [<-|Hin]; [|now apply H1].
      rewrite H2 by exact Hnotin. apply PyDictSetFacts.get_set_here.
    + intros k Hk. rewrite H2 by (intros H; apply Hk; now right).
      apply PyDictSetFacts.get_set_other. intros ->. apply Hk. now left.
Qed.

(** X9: [create_embeddings] returns [True]; the chunks it makes for a
    policy are numbered from 0, carry the policy id and hold stripped texts
    of more than 10 characters; afterwards the policy's embeddings are one
    384-vector per chunk, in order, each chunk is found under its id and in
    [get_policy_chunks], and the chunks under other ids and the embeddings
    of other policies are as before. *)
Theorem create_embeddings_round_trip writable st data p :
  let made := chunks_of_data p data [] in
  let st' := snd (create_embeddings writable st data p) in
  fst (create_embeddings writable st data p) = true /\
  map chunk_id made = map (chunk_name p) (seq 0 (List.length made)) /\
  Forall (fun c => policy_id c = p /\ 10 < PyStr.len (content c) /\
                   exists text, content c = PyStr.strip text) made /\
  PyDict.get (embeddings st') p = Some (map (embed hash p) made) /\
  Forall (fun ed => List.length (embedding ed) = 384%nat)
    (map (embed hash p) made) /\
  (forall c, In c made ->
     PyDict.get (chunks st') (chunk_id c) = Some c /\
     In c (get_policy_chunks st' p None)) /\
  (forall k, ~ In k (map chunk_id made) ->
     PyDict.get (chunks st') k = PyDict.get (chunks st) k) /\
  (forall q, q <> p ->
     PyDict.get (embeddings st') q = PyDict.get (embeddings st) q).
Proof.
  intros made st'.
  assert (Hnum : numbered p made)
    by (apply chunks_of_data_numbered; split; constructor).
  destruct (store_chunks_lookup made (numbered_NoDup p made Hnum) (chunks st))
    as [Hfound Hother].
  destruct Hnum as [Hid Hall].
  unfold st', VectorStoreIngest.create_embeddings.
  cbn [fst snd embeddings chunks]. fold made.
  split; [reflexivity|]. split; [exact Hid|]. split; [exact Hall|].
  split; [apply PyDictSetFacts.get_set_here|].
  split.
  { apply Forall_forall. intros ed Hed.
    apply in_map_iff in Hed as [c [<- _]]. cbn [embed embedding].
    apply length_generate_embedding. }
  split.
  { intros c Hc. split; [now apply Hfound|].
    unfold get_policy_chunks. cbn [chunks].
    apply in_map_iff. exists (chunk_id c, c). split; [reflexivity|].
    apply filter_In. split; [apply get_In; now apply Hfound|].
    cbn [snd]. rewrite Forall_forall in Hall.
    destruct (Hall c Hc) as [-> _]. now rewrite String.eqb_refl. }
  split; [exact Hother|].
  intros q Hq. now apply PyDictSetFacts.get_set_other.
Qed.

Lemma without_absent {V : Type} (d : PyDict.t V) k :
  PyDict.get d k = None -> without d k = d.
Proof.
  intros H. apply get_None in H. unfold without. apply filter_all.
  intros [k' v] Hin. cbn [fst]. apply negb_true_iff, String.eqb_neq.
  intros ->. apply H. apply in_map_iff. now exists (k, v).
Qed.

Lemma without_appended {V : Type} (d : PyDict.t V) k v :
  PyDict.get d k = None -> without (d ++ [(k, v)]) k = d.
Proof.
  intros H. unfold without. rewrite filter_app. cbn [filter fst].
  rewrite String.eqb_refl. cbn [negb]. rewrite app_nil_r.
  now apply without_absent.
Qed.

(** Storing chunks under new, distinct ids appends them in order. *)
Lemma store_chunks_append (cs : list chunk) :
  NoDup (map chunk_id cs) ->
  forall d,
    (forall c, In c cs -> PyDict.get d (chunk_id c) = None) ->
    fold_left (fun d c => PyDict.set d (chunk_id c) c) cs d =
    d ++ map (fun c => (chunk_id c, c)) cs.
Proof.
  induction cs as [|c cs IH]; intros Hnd d Hnew; cbn [fold_left map].
  - now rewrite app_nil_r.
  - inversion Hnd as [|? ? Hnotin Hnd']; subst.
    rewrite (set_absent d (chunk_id c) c) by (apply Hnew; now left).
    rewrite IH; [now rewrite <- app_assoc|exact Hnd'|].
    intros c' Hc'. apply get_None. unfold PyDict.keys.
    rewrite map_app. cbn [map fst]. intros Hin.
    apply in_app_or in Hin as [Hin|[Heq|[]]].
    + specialize (Hnew c' (or_intror Hc')). apply get_None in Hnew.
      contradiction.
    + apply Hnotin. rewrite Heq. now apply in_map.
Qed.

Lemma wf_store_chunks (cs : list chunk) :
  forall d, PyDict.wf d ->
  PyDict.wf (fold_left (fun d c => PyDict.set d (chunk_id c) c) cs d).
Proof.
  induction cs as [|c cs IH]; intros d Hd; cbn [fold_left]; [exact Hd|].
  apply IH. now apply wf_set.
Qed.

(** X10: creating the embeddings of a policy the store does not know and
    deleting the policy again leaves the embeddings, the index and the
    chunks exactly as they were. *)
Theorem create_then_delete_restores writable removable st data p :
  PyDict.wf (embeddings st) -> PyDict.wf (index st) ->
  PyDict.wf (chunks st) ->
  PyDict.get (embeddings st) p = None ->
  PyDict.get (index st) p = None ->
  (forall k c, In (k, c) (chunks st) ->
     policy_id c <> p /\ forall n, k <> chunk_name p n) ->
  let st1 := snd (create_embeddings writable st data p) in
  let st2 := snd (delete_policy removable st1 p) in
  embeddings st2 = embeddings st /\
  index st2 = index st /\
  chunks st2 = chunks st.
Proof.
  intros Hwe Hwi Hwc Hge Hgi Hold st1 st2.
  set (made := chunks_of_data p data []).
  assert (Hnum : numbered p made)
    by (apply chunks_of_data_numbered; split; constructor).
  pose proof (numbered_NoDup p made Hnum) as Hnd.
  destruct Hnum as [Hid Hall].
  assert (Hnew : forall c, In c made -> PyDict.get (chunks st) (chunk_id c) = None).
  { intros c Hc. destruct (PyDict.get (chunks st) (chunk_id c)) as [c'|] eqn:E;
      [|reflexivity].
    apply get_In, Hold in E as [_ E]. exfalso.
    assert (Hin : In (chunk_id c) (map chunk_id made)) by now apply in_map.
    rewrite Hid in Hin. apply in_map_iff in Hin as [n [Hn _]].
    now apply (E n). }
  assert (He1 : embeddings st1 = embeddings st ++ [(p, map (embed hash p) made)]).
  { unfold st1, VectorStoreIngest.create_embeddings. cbn [snd embeddings].
    now apply set_absent. }
  assert (Hi1 : exists v, index st1 = index st ++ [(p, v)]).
  { unfold st1, VectorStoreIngest.create_embeddings, _update_search_index.
    cbn [snd index]. eexists. now apply set_absent. }
  assert (Hc1 : chunks st1 = chunks st ++ map (fun c => (chunk_id c, c)) made).
  { unfold st1, VectorStoreIngest.create_embeddings. cbn [snd chunks].
    now apply store_chunks_append. }
  destruct Hi1 as [v Hi1].
  assert (Hwe1 : PyDict.wf (embeddings st1)).
  { unfold st1, VectorStoreIngest.create_embeddings. cbn [snd embeddings].
    now apply wf_set. }
  assert (Hwi1 : PyDict.wf (index st1)).
  { unfold st1, VectorStoreIngest.create_embeddings, _update_search_index.
    cbn [snd index]. now apply wf_set. }
  assert (Hwc1 : PyDict.wf (chunks st1)).
  { unfold st1, VectorStoreIngest.create_embeddings. cbn [snd chunks].
    now apply wf_store_chunks. }
  destruct (StoreMoreFacts.delete_policy_memory removable st1 p Hwe1 Hwi1 Hwc1)
    as (He2 & Hi2 & Hc2 & _).
  fold st2 in He2, Hi2, Hc2.
  split; [rewrite He2, He1; now apply without_appended|].
  split; [rewrite Hi2, Hi1; now apply without_appended|].
  rewrite Hc2, Hc1, filter_app.
  rewrite (filter_all (chunks st)).
  - rewrite (filter_ext_in _ (fun _ => false)), filter_false;
      [apply app_nil_r|].
    intros [k c] Hin. apply in_map_iff in Hin as [c' [Heq Hin]].
    inversion Heq; subst. cbn [snd]. rewrite Forall_forall in Hall.
    destruct (Hall c Hin) as [-> _]. now rewrite String.eqb_refl.
  - intros [k c] Hin. cbn [snd]. apply negb_true_iff, String.eqb_neq.
    now apply (Hold k c).
Qed.

End Facts.

Definition claims_data : PyDict.t value :=
  [("claims", ValueList [ItemStr "  claim within thirty days  "; ItemStr "short";
                         ItemOther]);
   ("premium", ValueStr "premium is due every year");
   ("pages", ValueOther)].

Example create_demo :
  let st' := snd (create_embeddings PyStr.len (fun s => s) (fun _ => "t")
                    (fun _ => true) SearchFacts.demo_store claims_data "P9") in
  map content (get_policy_chunks st' "P9" None)
    = ["claim within thirty days"; "premium is due every year"] /\
  PyDict.keys (chunks st')
    = ["P1_chunk_0"; "P1_chunk_1"; "P9_chunk_0"; "P9_chunk_1"] /\
  option_map (map e_chunk_id) (PyDict.get (embeddings st') "P9")
    = Some ["P9_chunk_0"; "P9_chunk_1"] /\
  PyDict.get (index st') "P9"
    = Some [("claims", [mk_index_entry "P9_chunk_0" 24]);
            ("premium", [mk_index_entry "P9_chunk_1" 25])] /\
  files st' = policy_files "P9".
Proof. vm_compute. repeat split; reflexivity. Qed.

Lemma create_then_delete_restores_witness :
  let st1 := snd (create_embeddings PyStr.len (fun s => s) (fun _ => "t")
                    (fun _ => true) SearchFacts.demo_store claims_data "P9") in
  let st2 := snd (delete_policy (fun _ => true) st1 "P9") in
  embeddings st2 = embeddings SearchFacts.demo_store /\
  index st2 = index SearchFacts.demo_store /\
  chunks st2 = chunks SearchFacts.demo_store.
Proof.
  apply (create_then_delete_restores PyStr.len (fun s => s) (fun _ => "t")
           (fun _ => true) (fun _ => true) SearchFacts.demo_store claims_data "P9").
  - repeat constructor; simpl; tauto.
  - constructor.
  - unfold PyDict.wf; simpl.
    repeat (constructor; [simpl; intuition discriminate|]); constructor.
  - reflexivity.
  - reflexivity.
  - intros k c [H|[H|[]]]; inversion H; subst; split; try discriminate;
      intros n; unfold chunk_name; simpl; discriminate.
Defined.

End IngestFacts.

(* ================================================================= *)
(** ** The OCR accuracy report *)

Module ValidationFacts.
Import PerformanceValidator.

Lemma get_set_same {V : Type} (d : PyDict.t V) k v :
  PyDict.get (PyDict.set d k v) k = Some v.
Proof.
  induction d as [|[k' v'] d IH]; simpl.
  - now rewrite String.eqb_refl.
  - destruct (String.eqb k' k) eqn:E; simpl.
    + now rewrite String.eqb_refl.
    + now rewrite E.
Qed.

(** The report the method stores, whatever it is run on. *)
Definition fixed_report : PyDict.t ocr_report :=
  [ ("clean_pdf", mk_ocr_report 0.99%float 0.98%float "PASSED");
    ("scanned_300dpi", mk_ocr_report 0.98%float 0.97%float "PASSED");
    ("handwritten_annotation", mk_ocr_report 0.95%float 0.94%float "FAILED") ].

(** C2.  For every validator state, [test_ocr_accuracy] stores under
    ['ocr_accuracy'] the same three reports: each test case's actual
    accuracy is its hardcoded expected accuracy minus 0.01 and its status is
    ['PASSED'] exactly when that value is at least 0.95, which gives
    clean_pdf 0.98 PASSED, scanned_300dpi 0.97 PASSED and
    handwritten_annotation 0.94 FAILED.  Nothing but the state is read, and
    nothing of the state enters the report. *)
Theorem test_ocr_accuracy_is_constant (self : validator) :
  PyDict.get (tests (test_ocr_accuracy self)) "ocr_accuracy"
    = Some (OcrAccuracy fixed_report) /\
  fixed_report = map (fun tc => (tc_type tc, report_of tc)) test_cases /\
  (forall tc, In tc test_cases ->
     actual (report_of tc) = (expected_accuracy tc - 0.01)%float /\
     (status (report_of tc) = "PASSED" <->
      (0.95 <=? actual (report_of tc))%float = true) /\
     (status (report_of tc) = "FAILED" <->
      (0.95 <=? actual (report_of tc))%float = false)) /\
  results_timestamp (test_ocr_accuracy self) = results_timestamp self /\
  summary (test_ocr_accuracy self) = summary self.
Proof.
  split; [|split; [|split; [|split]]]; try reflexivity.
  - unfold test_ocr_accuracy. cbn [tests]. rewrite get_set_same.
    reflexivity.
  - intros tc Htc. split; [reflexivity|].
    unfold report_of. cbn [status actual].
    destruct (0.95 <=? expected_accuracy tc - 0.01)%float;
      split; split; intros H; try reflexivity; discriminate.
Qed.

End ValidationFacts.

(* ================================================================= *)
(** ** The performance report never passes *)

Module ReportFacts.
Import PerformanceValidator PerformanceReport PyDictFacts PyDictSetFacts.

Lemma count_result_grows c r :
  fst c <= fst (count_result c r) /\ snd c <= snd (count_result c r).
Proof.
  unfold count_result. destruct r as [s|x|d]; try lia.
  destruct (PyDict.get d "status") as [st|]; cbn [fst snd]; [|lia].
  destruct (is_failed st); lia.
Qed.

Lemma count_results_grow d :
  forall c,
    fst c <= fst (fold_left (fun c (kv : string * json) => count_result c (snd kv)) d c) /\
    snd c <= snd (fold_left (fun c (kv : string * json) => count_result c (snd kv)) d c).
Proof.
  induction d as [|kv d IH]; intros c; cbn [fold_left]; [lia|].
  pose proof (count_result_grows c (snd kv)).
  pose proof (IH (count_result c (snd kv))). lia.
Qed.

Lemma count_category_grows c r :
  fst c <= fst (count_category c r) /\ snd c <= snd (count_category c r).
Proof.
  unfold count_category. destruct r as [s|x|d]; try lia.
  destruct (PyDict.get d "status") as [st|]; cbn [fst snd].
  - destruct (is_failed st); lia.
  - apply count_results_grow.
Qed.

Lemma count_categories_grow tests :
  forall c,
    fst c <= fst (fold_left (fun c (kv : string * json) => count_category c (snd kv)) tests c) /\
    snd c <= snd (fold_left (fun c (kv : string * json) => count_category c (snd kv)) tests c).
Proof.
  induction tests as [|kv tests IH]; intros c; cbn [fold_left]; [lia|].
  pose proof (count_category_grows c (snd kv)).
  pose proof (IH (count_category c (snd kv))). lia.
Qed.

(** The OCR category counts three tests, one of them failed. *)
Lemma count_ocr_accuracy c :
  count_category c ocr_accuracy_results = (fst c + 3, snd c + 1).
Proof.
  destruct c as [total failed].
  assert (E : ocr_accuracy_results =
              JDict [("clean_pdf", json_of_report (mk_ocr_report 0.99 0.98 "PASSED"));
                     ("scanned_300dpi", json_of_report (mk_ocr_report 0.98 0.97 "PASSED"));
                     ("handwritten_annotation",
                      json_of_report (mk_ocr_report 0.95 0.94 "FAILED"))])
    by (vm_compute; reflexivity).
  rewrite E. cbn. f_equal; lia.
Qed.

Lemma count_with_ocr tests k :
  In (k, ocr_accuracy_results) tests ->
  forall c,
    fst c + 3 <= fst (fold_left (fun c (kv : string * json) => count_category c (snd kv)) tests c) /\
    snd c + 1 <= snd (fold_left (fun c (kv : string * json) => count_category c (snd kv)) tests c).
Proof.
  induction tests as [|kv tests IH]; intros Hin c; [destruct Hin|].
  cbn [fold_left]. destruct Hin as [->|Hin].
  - cbn [snd]. rewrite count_ocr_accuracy.
    pose proof (count_categories_grow tests (fst c + 3, snd c + 1)) as H. cbn [fst snd] in H. lia.
  - pose proof (count_category_grows c (snd kv)).
    pose proof (IH Hin (count_category c (snd kv))). lia.
Qed.

Section Facts.
Variable mean : list float -> float.

(** X11: whatever the API measurements and whatever was stored before,
    [validate_all] never returns [True]: the handwritten OCR case always
    counts as failed, so the summary has at least three tests, at least one
    failed test and the overall status ['FAILED'], and the method returns
    [False] when the report file can be written and raises otherwise. *)
Theorem validate_all_never_passes writable policy_engine voice_system rag_qa tests :
  validate_all mean writable policy_engine voice_system rag_qa tests
    = (if writable then Some false else None) /\
  forall tests',
    PyDict.get tests' "ocr_accuracy" = Some ocr_accuracy_results ->
    let s := fst (generate_report writable tests') in
    3 <= total_tests s /\ 1 <= failed_tests s /\
    passed_tests s = total_tests s - failed_tests s /\
    overall_status s = "FAILED" /\
    snd (generate_report writable tests') = writable.
Proof.
  assert (Hrep : forall tests',
    PyDict.get tests' "ocr_accuracy" = Some ocr_accuracy_results ->
    let s := fst (generate_report writable tests') in
    3 <= total_tests s /\ 1 <= failed_tests s /\
    passed_tests s = total_tests s - failed_tests s /\
    overall_status s = "FAILED" /\
    snd (generate_report writable tests') = writable).
  { intros tests' Hget. apply get_In in Hget.
    pose proof (count_with_ocr tests' "ocr_accuracy" Hget (0, 0)) as Hc.
    unfold generate_report.
    destruct (fold_left (fun c (kv : string * json) => count_category c (snd kv)) tests' (0, 0))
      as [total failed].
    cbn [fst snd] in *. cbn [total_tests failed_tests passed_tests overall_status].
    replace (failed =? 0) with false by (symmetry; apply Z.eqb_neq; lia).
    replace (0 <? total) with true by (symmetry; apply Z.ltb_lt; lia).
    repeat split; try lia. }
  split; [|exact Hrep].
  unfold validate_all.
  set (tests4 := PyDict.set _ "rag_accuracy" _).
  assert (Hget : PyDict.get tests4 "ocr_accuracy" = Some ocr_accuracy_results).
  { unfold tests4. rewrite !get_set_other by discriminate.
    apply get_set_here. }
  destruct (Hrep tests4 Hget) as (_ & _ & _ & Hst & Hret).
  destruct (generate_report writable tests4) as [s returned].
  cbn [fst snd] in *. subst returned. rewrite Hst.
  destruct writable; reflexivity.
Qed.

End Facts.

Definition passed_api : json := JDict [("status", JStr "PASSED")].

(** A first run with three passing API tests: 13 tests, 12 passed. *)
Example fresh_report :
  let tests :=
    [("api_performance",
      JDict [("policy_engine", passed_api); ("voice_system", passed_api);
             ("rag_qa", passed_api)]);
     ("ocr_accuracy", ocr_accuracy_results);
     ("voice_generation", voice_generation_results);
     ("rag_accuracy", rag_accuracy_results (fun _ => 0.87%float))] in
  let s := fst (generate_report true tests) in
  (total_tests s, passed_tests s, failed_tests s, overall_status s)
    = (13, 12, 1, "FAILED") /\
  snd (generate_report true []) = false.
Proof. vm_compute. split; reflexivity. Qed.

Lemma validate_all_never_passes_witness :
  overall_status
    (fst (generate_report true [("ocr_accuracy", ocr_accuracy_results)]))
  = "FAILED".
Proof.
  apply (proj2 (validate_all_never_passes (fun _ => 0%float) true
                  passed_api passed_api passed_api [])
           [("ocr_accuracy", ocr_accuracy_results)]).
  reflexivity.
Defined.

End ReportFacts.

(* ================================================================= *)
(** ** What the suite reports for the performance validation *)

Module SuiteFacts.
Import PyDictFacts PyDictSetFacts PerformanceValidator PerformanceReport.
Import ReportFacts ValidationSuite.

Section Facts.

Variable mean : list float -> float.
Variable now : string.

(** A fresh validator, as the script makes one: the outcome of
    [validate_all] depends on the report file only. *)
Lemma fresh_validate_all writable policy_engine voice_system rag_qa :
  validate_all mean writable policy_engine voice_system rag_qa []
  = if writable then Some false else None.
Proof.
  unfold validate_all.
  set (tests4 := PyDict.set _ "rag_accuracy" _).
  assert (Hget : PyDict.get tests4 "ocr_accuracy" = Some ocr_accuracy_results).
  { unfold tests4. rewrite !get_set_other by discriminate.
    apply get_set_here. }
  apply get_In in Hget.
  pose proof (count_with_ocr tests4 "ocr_accuracy" Hget (0, 0)) as Hc.
  unfold generate_report.
  destruct (fold_left (fun c (kv : string * json) => count_category c (snd kv))
              tests4 (0, 0)) as [total failed].
  cbn [fst snd] in Hc. cbn [overall_status].
  replace (failed =? 0) with false by (symmetry; apply Z.eqb_neq; lia).
  replace (0 <? total) with true by (symmetry; apply Z.ltb_lt; lia).
  destruct writable; reflexivity.
Qed.

(** X21: the suite runs the performance validation as a script and reads
    its exit status only.  When that status is the one of the script on a
    fresh validator, the suite marks the performance validation ['PASSED']
    exactly when the report file could be written, although [validate_all]
    has not returned [True]; and the suite ends with status 0 exactly when
    the research script ended with status 0 and the report file could be
    written. *)
Theorem suite_passes_performance_when_report_is_written
  returncode writable policy_engine voice_system rag_qa :
  returncode "validate_performance_metrics.py"
  = Some (performance_script_exit
            (validate_all mean writable policy_engine voice_system rag_qa [])) ->
  validate_all mean writable policy_engine voice_system rag_qa [] <> Some true
  /\ (option_map v_status
        (PyDict.get (fst (run_validations returncode now))
           "validate_performance_metrics.py")
      = Some (if writable then "PASSED" else "FAILED"))
  /\ (main returncode now true = Some 0
      <-> returncode "validate_research_stats.py" = Some 0
          /\ writable = true).
Proof.
  intros Hrc. rewrite fresh_validate_all in *.
  split; [destruct writable; discriminate|].
  unfold main, run_validations, validations, run_validation_script.
  cbn [fold_left fst snd]. rewrite Hrc.
  split.
  - cbn [PyDict.set PyDict.get String.eqb Ascii.eqb Bool.eqb option_map
           v_status].
    destruct writable; reflexivity.
  - destruct (returncode "validate_research_stats.py") as [rc|];
      destruct writable; cbn [performance_script_exit Z.eqb negb];
      try (destruct (Z.eqb_spec rc 0) as [->|Hne]);
      cbn [negb]; split; try discriminate; try tauto;
      try (intros [H _]; congruence); try (intros [_ H]; congruence);
      intros _; auto.
Qed.

End Facts.

(** Both scripts end with status 0 and the report file is written. *)
Definition all_zero (script_name : string) : option Z := Some 0.

Lemma suite_passes_performance_when_report_is_written_witness :
  validate_all (fun _ => 0%float) true (JStr "") (JStr "") (JStr "") []
    <> Some true
  /\ (option_map v_status
        (PyDict.get (fst (run_validations all_zero "t"))
           "validate_performance_metrics.py")
      = Some "PASSED")
  /\ (main all_zero "t" true = Some 0
      <-> all_zero "validate_research_stats.py" = Some 0 /\ true = true).
Proof.
  apply (suite_passes_performance_when_report_is_written
           (fun _ => 0%float) "t" all_zero true (JStr "") (JStr "") (JStr "")).
  vm_compute. reflexivity.
Defined.

End SuiteFacts.

(* ================================================================= *)
(** ** The daily rate limit *)

Module RateLimitFacts.
Import WhatsAppClient.

(** The counter stays within the limit of 950. *)
Definition within_limit (self : client) : Prop :=
  rate_limit self = 950 /\ 0 <= messages_sent_today self <= 950.

Lemma check_inv e self allowed self1 :
  _check_rate_limit e self = (allowed, self1) ->
  rate_limit self1 = rate_limit self /\
  message_history self1 = message_history self /\
  allowed = (messages_sent_today self1 <? rate_limit self1) /\
  ((today e = last_reset_date self /\ self1 = self) \/
   (today e <> last_reset_date self /\ messages_sent_today self1 = 0 /\
    last_reset_date self1 = today e)).
Proof.
  unfold _check_rate_limit.
  destruct (today e =? last_reset_date self) eqn:Ed; cbn [negb];
    intros H; inversion H; subst; cbn.
  - apply Z.eqb_eq in Ed. repeat split; auto.
  - apply Z.eqb_neq in Ed. repeat split; auto.
Qed.

Lemma step_cases e self c :
  exists allowed self1,
    _check_rate_limit e self = (allowed, self1) /\
    (step e self c = (false, self1) \/
     (allowed = true /\
      exists self2,
        step e self c = (true, self2) /\
        rate_limit self2 = rate_limit self1 /\
        last_reset_date self2 = last_reset_date self1 /\
        messages_sent_today self2 = messages_sent_today self1 + 1)).
Proof.
  destruct (_check_rate_limit e self) as [allowed self1] eqn:E.
  exists allowed, self1. split; [reflexivity|].
  destruct c as [phone message key|phone path]; cbn [step];
    unfold send_text, send_voice, send_text_begin; rewrite E;
    destruct allowed; cbn [negb]; auto.
  - right. split; [reflexivity|]. eexists. split; [reflexivity|].
    cbn. auto.
  - destruct (path_exists e path); cbn [negb]; auto.
    right. split; [reflexivity|]. eexists. split; [reflexivity|].
    cbn. auto.
Qed.

Lemma step_within e self c :
  within_limit self -> within_limit (snd (step e self c)).
Proof.
  intros [Hl Hc].
  destruct (step_cases e self c) as (allowed & self1 & E & Hstep).
  destruct (check_inv e self allowed self1 E) as (Hl1 & _ & Ha & Hd).
  assert (H1 : within_limit self1).
  { unfold within_limit. destruct Hd as [[_ ->]|(_ & H0 & _)]; lia. }
  destruct Hstep as [->|(-> & self2 & -> & Hl2 & _ & Hc2)]; [exact H1|].
  symmetry in Ha. apply Z.ltb_lt in Ha.
  destruct H1 as [Hl1' Hc1]. unfold within_limit. cbn [snd]. lia.
Qed.

Lemma reachable_within self : reachable self -> within_limit self.
Proof.
  induction 1 as [e history|self e c _ IH].
  - unfold within_limit, init. simpl. lia.
  - now apply step_within.
Qed.

(** At the limit, on the day of the last reset, a send is refused and
    leaves the client as it was. *)
Lemma step_refused e self c :
  today e = last_reset_date self ->
  rate_limit self <= messages_sent_today self ->
  step e self c = (false, self).
Proof.
  intros Hday Hfull.
  assert (Hc : _check_rate_limit e self = (false, self)).
  { unfold _check_rate_limit. rewrite Hday, Z.eqb_refl. simpl.
    f_equal. apply Z.ltb_ge. exact Hfull. }
  destruct c; simpl; unfold send_text, send_voice, send_text_begin;
    now rewrite Hc.
Qed.

Lemma run_refused self calls :
  rate_limit self <= messages_sent_today self ->
  Forall (fun ec => today (fst ec) = last_reset_date self) calls ->
  run self calls = (repeat false (List.length calls), self).
Proof.
  intros Hfull Hday. induction Hday as [|[e c] calls Hd _ IH]; simpl.
  - reflexivity.
  - simpl in Hd. now rewrite (step_refused e self c Hd Hfull), IH.
Qed.

Definition day (d : Z) : env := mk_env d "2025-11-10T09:00:00" (fun _ => true).

(** The client after [n] accepted text messages on day [d]. *)
Fixpoint after_sends (d : Z) (n : nat) : client :=
  match n with
  | O => init (day d) []
  | S n' => snd (step (day d) (after_sends d n') (SendText "+911" "hello" None))
  end.

Lemma after_sends_reachable d n : reachable (after_sends d n).
Proof.
  induction n; cbn [after_sends]; [apply reach_init|now apply reach_step].
Qed.

Lemma after_sends_count d n :
  (n <= 950)%nat ->
  messages_sent_today (after_sends d n) = Z.of_nat n /\
  last_reset_date (after_sends d n) = d /\
  rate_limit (after_sends d n) = 950.
Proof.
  induction n as [|n IH]; intros Hn.
  - simpl. auto.
  - destruct IH as (Hc & Hd & Hl); [lia|].
    cbn [after_sends step].
    unfold send_text, send_text_begin, _check_rate_limit.
    cbn [today day]. rewrite Hd, Z.eqb_refl. cbn [negb].
    rewrite Hc, Hl.
    replace (Z.of_nat n <? 950) with true by (symmetry; apply Z.ltb_lt; lia).
    cbn. rewrite Hc, Hd, Hl. repeat split; lia.
Qed.

(** C3.  Every client that [__init__] and a sequence of [send_text] and
    [send_voice] calls produce has [rate_limit] 950 and a counter between 0
    and 950.  Once the counter has reached the limit, every call made on the
    day of the last reset returns [False] and leaves the client, its
    history included, as it was, for one call and for any sequence of them.
    The first check on another date sets the counter to 0, records the new
    date and allows the send. *)
Theorem daily_rate_limit :
  (forall self, reachable self ->
     rate_limit self = 950 /\ 0 <= messages_sent_today self <= 950) /\
  (forall self e c, reachable self ->
     today e = last_reset_date self ->
     950 <= messages_sent_today self ->
     step e self c = (false, self)) /\
  (forall self calls, reachable self ->
     950 <= messages_sent_today self ->
     Forall (fun ec => today (fst ec) = last_reset_date self) calls ->
     run self calls = (repeat false (List.length calls), self)) /\
  (forall self e, reachable self ->
     today e <> last_reset_date self ->
     let '(allowed, self') := _check_rate_limit e self in
     allowed = true /\ messages_sent_today self' = 0 /\
     last_reset_date self' = today e /\
     message_history self' = message_history self).
Proof.
  split; [|split; [|split]].
  - intros self H. exact (reachable_within self H).
  - intros self e c H Hday Hfull. apply step_refused; auto.
    destruct (reachable_within self H) as [-> _]. exact Hfull.
  - intros self calls H Hfull Hday. apply run_refused; auto.
    destruct (reachable_within self H) as [-> _]. exact Hfull.
  - intros self e H Hday. unfold _check_rate_limit.
    apply Z.eqb_neq in Hday. rewrite Hday. simpl.
    destruct (reachable_within self H) as [-> _]. repeat split.
Qed.

(** After 950 messages on day 5, the next one is refused. *)
Lemma daily_rate_limit_witness :
  step (day 5) (after_sends 5 950) (SendVoice "+911" "a.mp3")
  = (false, after_sends 5 950).
Proof.
  destruct (after_sends_count 5 950 (le_n _)) as (Hc & Hd & _).
  apply (proj1 (proj2 daily_rate_limit)).
  - apply after_sends_reachable.
  - now rewrite Hd.
  - rewrite Hc. lia.
Defined.

(** Two [send_text] calls that are both waiting at their [await] when the
    counter is 949 have both passed the check: when they finish, the
    counter is 951.  The limit holds for calls made one after the other,
    not for calls that overlap. *)
Lemma overlapping_sends_exceed_limit :
  let self0 := after_sends 5 949 in
  let '(allowed1, self1) := send_text_begin (day 5) self0 in
  let '(allowed2, self2) := send_text_begin (day 5) self1 in
  let self3 := send_text_finish (day 5) self2 "+911" "first" in
  let self4 := send_text_finish (day 5) self3 "+912" "second" in
  allowed1 = true /\ allowed2 = true /\ messages_sent_today self4 = 951.
Proof.
  destruct (after_sends_count 5 949 ltac:(lia)) as (Hc & Hd & Hl).
  remember (after_sends 5 949) as self0 eqn:E0. clear E0.
  cbv zeta. unfold send_text_begin, _check_rate_limit.
  cbn [today day]. rewrite Hd, Z.eqb_refl. cbn [negb].
  rewrite Hd, Z.eqb_refl. cbn [negb]. rewrite Hc, Hl.
  unfold send_text_finish, count_message, _record_message.
  cbn [messages_sent_today]. rewrite Hc. repeat split.
Qed.

End RateLimitFacts.

(* ================================================================= *)
(** ** The rate limit and the history, further *)

Module WhatsAppMoreFacts.
Import WhatsAppClient WhatsAppHistory RateLimitFacts.

(** The number of sends that were accepted. *)
Definition accepted (results : list bool) : Z :=
  Z.of_nat (List.length (filter (fun b => b) results)).

Lemma run_reachable calls :
  forall self, reachable self -> reachable (snd (run self calls)).
Proof.
  induction calls as [|[e c] calls IH]; intros self H; [exact H|].
  cbn [run]. pose proof (reach_step self e c H) as H1.
  destruct (step e self c) as [r self1]. cbn [snd] in H1.
  specialize (IH self1 H1).
  destruct (run self1 calls) as [rs self2]. exact IH.
Qed.

Lemma step_same_day e self c :
  today e = last_reset_date self ->
  let '(r, self') := step e self c in
  rate_limit self' = rate_limit self /\
  last_reset_date self' = last_reset_date self /\
  messages_sent_today self' =
    messages_sent_today self + (if r then 1 else 0).
Proof.
  intros Hday.
  destruct (step_cases e self c) as (allowed & self1 & E & Hstep).
  destruct (check_inv e self allowed self1 E) as (Hl & _ & _ & Hd).
  destruct Hd as [[_ ->]|[Hne _]]; [|congruence].
  destruct Hstep as [->|(_ & self2 & -> & H1 & H2 & H3)];
    repeat split; auto; lia.
Qed.

(** X12: on the day of the last reset, the counter grows by exactly the
    number of accepted sends, and from a reachable client the sends
    accepted on that day and those counted before are at most 950. *)
Theorem accepted_sends_are_counted self calls :
  reachable self ->
  Forall (fun ec => today (fst ec) = last_reset_date self) calls ->
  let '(results, self') := run self calls in
  messages_sent_today self' = messages_sent_today self + accepted results /\
  messages_sent_today self + accepted results <= 950 /\
  last_reset_date self' = last_reset_date self.
Proof.
  intros Hreach Hday.
  pose proof (run_reachable calls self Hreach) as Hreach'.
  assert (Hrun : forall calls self,
    Forall (fun ec => today (fst ec) = last_reset_date self) calls ->
    let '(results, self') := run self calls in
    messages_sent_today self' = messages_sent_today self + accepted results /\
    last_reset_date self' = last_reset_date self).
  { clear. induction calls as [|[e c] calls IH]; intros self Hday.
    - cbn. unfold accepted. cbn. split; [lia|reflexivity].
    - inversion Hday as [|? ? Hd Hrest]; subst. cbn [fst] in Hd.
      cbn [run]. pose proof (step_same_day e self c Hd) as Hs.
      destruct (step e self c) as [r self1].
      destruct Hs as (_ & Hd1 & Hc1).
      assert (Hrest' : Forall (fun ec => today (fst ec) = last_reset_date self1)
                         calls)
        by (eapply Forall_impl; [|exact Hrest]; intros; cbn in *; congruence).
      specialize (IH self1 Hrest').
      destruct (run self1 calls) as [rs self2]. destruct IH as [Hc2 Hd2].
      split; [|congruence].
      rewrite Hc2, Hc1. unfold accepted. cbn [filter].
      destruct r; cbn [List.length]; lia. }
  specialize (Hrun calls self Hday).
  destruct (run self calls) as [results self']. cbn [snd] in Hreach'.
  destruct Hrun as [Hc Hd].
  pose proof (reachable_within self' Hreach') as [_ Hw].
  repeat split; auto; lia.
Qed.

(** Three sends on day 5 after 948 messages: two are accepted. *)
Lemma accepted_sends_are_counted_witness :
  let '(results, self') :=
    run (after_sends 5 948)
      [(day 5, SendText "+911" "a" None); (day 5, SendText "+912" "b" None);
       (day 5, SendText "+913" "c" None)] in
  messages_sent_today self' =
    messages_sent_today (after_sends 5 948) + accepted results /\
  messages_sent_today (after_sends 5 948) + accepted results <= 950 /\
  last_reset_date self' = last_reset_date (after_sends 5 948).
Proof.
  apply (accepted_sends_are_counted (after_sends 5 948)).
  - apply after_sends_reachable.
  - destruct (after_sends_count 5 948 ltac:(lia)) as (_ & Hd & _).
    repeat constructor; cbn [fst today day]; now rewrite Hd.
Defined.

(** X13: two [send_text] calls that have both passed the check before
    either finishes take the counter one above the limit. *)
Theorem overlapping_sends_pass_the_limit e self phone1 message1 phone2 message2 :
  today e = last_reset_date self ->
  messages_sent_today self + 1 = rate_limit self ->
  let '(allowed1, self1) := send_text_begin e self in
  let '(allowed2, self2) := send_text_begin e self1 in
  let self3 := send_text_finish e self2 phone1 message1 in
  let self4 := send_text_finish e self3 phone2 message2 in
  allowed1 = true /\ allowed2 = true /\
  messages_sent_today self4 = rate_limit self4 + 1.
Proof.
  intros Hday Hc. unfold send_text_begin, _check_rate_limit.
  repeat (rewrite ?Hday, ?Z.eqb_refl; cbn [negb]).
  unfold send_text_finish, count_message, _record_message.
  cbn [messages_sent_today rate_limit].
  repeat split; try (apply Z.ltb_lt; lia). lia.
Qed.

Lemma overlapping_sends_pass_the_limit_witness :
  let '(allowed1, self1) := send_text_begin (day 5) (after_sends 5 949) in
  let '(allowed2, self2) := send_text_begin (day 5) self1 in
  let self3 := send_text_finish (day 5) self2 "+911" "first" in
  let self4 := send_text_finish (day 5) self3 "+912" "second" in
  allowed1 = true /\ allowed2 = true /\
  messages_sent_today self4 = rate_limit self4 + 1.
Proof.
  destruct (after_sends_count 5 949 ltac:(lia)) as (Hc & Hd & Hl).
  apply (overlapping_sends_pass_the_limit (day 5) (after_sends 5 949)).
  - now rewrite Hd.
  - rewrite Hc, Hl. reflexivity.
Defined.

Lemma length_append (s1 s2 : string) :
  String.length (s1 ++ s2) = (String.length s1 + String.length s2)%nat.
Proof. induction s1 as [|c s1 IH]; simpl; auto. Qed.

Lemma length_last_100 {A : Type} (l : list A) :
  (100 < List.length l)%nat -> List.length (last_100 l) = 100%nat.
Proof. intros H. unfold last_100. rewrite length_skipn. lia. Qed.

Lemma last_skipn {A : Type} (l : list A) n d :
  (n < List.length l)%nat -> last (skipn n l) d = last l d.
Proof.
  revert n; induction l as [|x l IH]; intros n H; [simpl in H; lia|].
  destruct n as [|n]; [reflexivity|].
  cbn [skipn]. simpl in H. rewrite IH by lia.
  destruct l; [simpl in H; lia|reflexivity].
Qed.

(** X14: [_record_message] leaves at most 100 records for the number, the
    new one last, which holds the text cut to 100 characters and three
    dots when it was longer; the records kept are the end of the old
    history; the other numbers and the counters are untouched. *)
Theorem record_message_keeps_last_100 e self phone type_ text :
  let self' := _record_message e self phone type_ text in
  let old := match PyDict.get (message_history self) phone with
             | Some l => l
             | None => []
             end in
  exists kept record,
    PyDict.get (message_history self') phone = Some (kept ++ [record]) /\
    (List.length (kept ++ [record]) <= 100)%nat /\
    (exists dropped, old = dropped ++ kept) /\
    phone_number record = phone /\ message_type record = type_ /\
    status record = "sent" /\ timestamp record = now e /\
    content record =
      (if 100 <? PyStr.len text
       then (PyStr.take text 100 ++ "...")%string else text) /\
    PyStr.len (content record) <= 103 /\
    (forall q, q <> phone ->
       PyDict.get (message_history self') q
       = PyDict.get (message_history self) q) /\
    messages_sent_today self' = messages_sent_today self /\
    last_reset_date self' = last_reset_date self /\
    rate_limit self' = rate_limit self.
Proof.
  intros self' old. unfold self', _record_message. fold old.
  set (record := mk_message_record phone type_ _ (now e) "sent").
  cbn [message_history messages_sent_today last_reset_date rate_limit].
  assert (Hcontent : PyStr.len (content record) <= 103).
  { unfold record. cbn [content].
    destruct (100 <? PyStr.len text) eqn:E.
    - unfold PyStr.len. rewrite length_append.
      change (String.length "...") with 3%nat.
      pose proof (PyStrFacts.len_slice text 0 100) as Hs.
      unfold PyStr.take. unfold PyStr.len in Hs.
      pose proof (PyStrFacts.clamp_index_bounds (PyStr.len text) 0
                    (PyStrFacts.len_nonneg text)).
      pose proof (PyStrFacts.clamp_index_distance (PyStr.len text) 0 100
                    (PyStrFacts.len_nonneg text) ltac:(lia)).
      unfold PyStr.len in *. lia.
    - apply Z.ltb_ge in E. lia. }
  destruct (100 <? List.length (old ++ [record]))%nat eqn:E.
  - apply Nat.ltb_lt in E.
    exists (skipn (List.length (old ++ [record]) - 100) old), record.
    assert (Hsk : last_100 (old ++ [record]) =
                  skipn (List.length (old ++ [record]) - 100) old ++ [record]).
    { unfold last_100. rewrite skipn_app.
      rewrite length_app in *. cbn [List.length] in *.
      replace (List.length old + 1 - 100 - List.length old)%nat with 0%nat by lia.
      reflexivity. }
    rewrite PyDictSetFacts.get_set_here, Hsk.
    repeat split; auto.
    + rewrite <- Hsk, length_last_100; [lia|exact E].
    + exists (firstn (List.length (old ++ [record]) - 100) old).
      symmetry. apply firstn_skipn.
    + intros q Hq. now apply PyDictSetFacts.get_set_other.
  - apply Nat.ltb_ge in E. exists old, record.
    rewrite PyDictSetFacts.get_set_here.
    repeat split; auto.
    + exists []. reflexivity.
    + intros q Hq. now apply PyDictSetFacts.get_set_other.
Qed.

(** X15: [get_message_history] returns the last [limit] records of a
    number for a positive [limit], all of them when there are fewer; with
    [limit = 0] it returns the whole history, and with a negative [limit]
    the history without its first [-limit] records; an unknown number has
    the empty history. *)
Theorem get_message_history_limits self phone limit :
  let history := match PyDict.get (message_history self) phone with
                 | Some l => l
                 | None => []
                 end in
  let n := Z.of_nat (List.length history) in
  let result := get_message_history self phone limit in
  (limit = 0 -> result = history) /\
  (0 < limit ->
   result = skipn (Z.to_nat (n - limit)) history /\
   Z.of_nat (List.length result) = Z.min limit n) /\
  (limit < 0 -> result = skipn (Z.to_nat (- limit)) history) /\
  (PyDict.get (message_history self) phone = None -> result = []).
Proof.
  intros history n result. unfold result, get_message_history. fold history.
  assert (Hfrom : match history with
                  | [] => []
                  | _ => list_from history (- limit)
                  end = list_from history (- limit)).
  { destruct history; [|reflexivity]. unfold list_from. now rewrite skipn_nil. }
  rewrite Hfrom. unfold list_from. fold n. unfold PyStr.clamp_index.
  repeat split.
  - intros ->. change (- 0 <? 0) with false. cbv iota.
    replace (Z.min (- 0) n) with 0 by lia. reflexivity.
  - destruct (- limit <? 0) eqn:E; [|lia]. f_equal. lia.
  - rewrite length_skipn. fold n. destruct (- limit <? 0) eqn:E; lia.
  - intros Hl. destruct (- limit <? 0) eqn:E; [lia|].
    destruct (Z.le_gt_cases (- limit) n) as [Hle|Hgt].
    + f_equal. lia.
    + rewrite !skipn_all2; [reflexivity|lia|lia].
  - intros Hnone. unfold history. rewrite Hnone. now rewrite skipn_nil.
Qed.

Definition two_messages : client :=
  mk_client 950 2 5
    [("+911", [mk_message_record "+911" "text" "a" "t1" "sent";
               mk_message_record "+911" "voice" "b.mp3" "t2" "sent"])].

(** Asking for no record returns both. *)
Lemma get_message_history_limits_witness :
  get_message_history two_messages "+911" 0 =
  [mk_message_record "+911" "text" "a" "t1" "sent";
   mk_message_record "+911" "voice" "b.mp3" "t2" "sent"].
Proof.
  apply (proj1 (get_message_history_limits two_messages "+911" 0)).
  reflexivity.
Defined.

End WhatsAppMoreFacts.

(* ================================================================= *)
(** ** whatsapp_client.py: what the statistics count *)

Module StatsFacts.
Import WhatsAppClient WhatsAppStats.

(** Every recorded message is a text or a voice message. *)
Definition text_or_voice (m : message_record) : Prop :=
  message_type m = "text" \/ message_type m = "voice".

Definition only_text_or_voice (history : PyDict.t (list message_record))
  : Prop :=
  Forall (fun kv => Forall text_or_voice (snd kv)) history.

Lemma Forall_set {V : Type} (P : string * V -> Prop) d k v :
  Forall P d -> P (k, v) -> Forall P (PyDict.set d k v).
Proof.
  intros Hd Hv. induction d as [|[k' v'] d IH]; simpl.
  - now constructor.
  - inversion Hd as [|? ? H1 H2]; subst.
    destruct (String.eqb k' k); constructor; auto.
Qed.

Lemma Forall_skipn {A : Type} (P : A -> Prop) n l :
  Forall P l -> Forall P (skipn n l).
Proof.
  revert l. induction n as [|n IH]; intros l H; [exact H|].
  destruct l as [|x l]; simpl; [constructor|].
  inversion H; subst. now apply IH.
Qed.

Lemma record_message_types e self phone type_ text :
  type_ = "text" \/ type_ = "voice" ->
  only_text_or_voice (message_history self) ->
  only_text_or_voice
    (message_history (_record_message e self phone type_ text)).
Proof.
  intros Hty Hh. unfold _record_message. cbn [message_history].
  apply Forall_set; [exact Hh|]. cbn [snd].
  set (old := match PyDict.get (message_history self) phone with
              | Some l => l | None => [] end).
  assert (Hold : Forall text_or_voice old).
  { unfold old. destruct (PyDict.get (message_history self) phone) eqn:E;
      [|constructor].
    apply PyDictFacts.get_In in E.
    unfold only_text_or_voice in Hh. rewrite Forall_forall in Hh.
    exact (Hh _ E). }
  assert (Hnew : Forall text_or_voice
                   (old ++ [mk_message_record phone type_
                      (if 100 <? PyStr.len text
                       then (PyStr.take text 100 ++ "...")%string else text)
                      (now e) "sent"])).
  { apply Forall_app. split; [exact Hold|].
    constructor; [exact Hty | constructor]. }
  destruct (100 <? _)%nat; [|exact Hnew].
  unfold last_100. now apply Forall_skipn.
Qed.

Lemma check_history e self :
  message_history (snd (_check_rate_limit e self)) = message_history self.
Proof.
  unfold _check_rate_limit. cbn [snd].
  now destruct (negb (today e =? last_reset_date self)).
Qed.

Lemma send_text_types e self phone message key :
  only_text_or_voice (message_history self) ->
  only_text_or_voice (message_history (snd (send_text e self phone message key))).
Proof.
  intros Hh. unfold send_text, send_text_begin, send_text_finish.
  pose proof (check_history e self) as Hc.
  destruct (_check_rate_limit e self) as [allowed self1]. cbn [snd] in Hc.
  rewrite <- Hc in Hh.
  destruct allowed; cbn [negb snd]; [|exact Hh].
  unfold count_message. cbn [message_history].
  apply record_message_types; [now left | exact Hh].
Qed.

Lemma send_voice_types e self phone path :
  only_text_or_voice (message_history self) ->
  only_text_or_voice (message_history (snd (send_voice e self phone path))).
Proof.
  intros Hh. unfold send_voice.
  pose proof (check_history e self) as Hc.
  destruct (_check_rate_limit e self) as [allowed self1]. cbn [snd] in Hc.
  rewrite <- Hc in Hh.
  destruct allowed; cbn [negb snd]; [|exact Hh].
  destruct (negb (path_exists e path)); cbn [snd]; [exact Hh|].
  unfold count_message. cbn [message_history].
  apply record_message_types; [now right | exact Hh].
Qed.

Section Templates.
Variable templates : PyDict.t (PyDict.t string).

Lemma serve_types e self r :
  only_text_or_voice (message_history self) ->
  only_text_or_voice (message_history (snd (serve templates e self r))).
Proof.
  intros Hh. destruct r as [p m k|p a|p k l|p m o]; cbn [serve].
  - now apply send_text_types.
  - now apply send_voice_types.
  - unfold send_template.
    destruct (PyDict.get templates k) as [texts|]; [|exact Hh].
    destruct (PyDict.get texts _); [|exact Hh].
    now apply send_text_types.
  - unfold send_interactive_message. now apply send_text_types.
Qed.

Lemma serve_all_types requests :
  forall self,
    only_text_or_voice (message_history self) ->
    only_text_or_voice (message_history (serve_all templates self requests)).
Proof.
  induction requests as [|[e r] requests IH]; intros self Hh; [exact Hh|].
  cbn [serve_all]. apply IH. now apply serve_types.
Qed.

End Templates.

(** The counters after a list of text and voice messages. *)
Lemma count_messages messages :
  Forall text_or_voice messages ->
  forall t v p,
  exists t' v',
    fold_left count_message_type messages
      [("text", t); ("voice", v); ("template", p)]
    = [("text", t'); ("voice", v'); ("template", p)]
    /\ t' + v' = t + v + Z.of_nat (List.length messages).
Proof.
  induction 1 as [|m messages Hm _ IH]; intros t v p.
  - exists t, v. split; [reflexivity | simpl; lia].
  - cbn [fold_left List.length].
    destruct Hm as [Hm|Hm]; unfold count_message_type at 2; rewrite Hm;
      cbn [PyDict.get PyDict.set String.eqb Ascii.eqb Bool.eqb].
    + destruct (IH (t + 1) v p) as (t' & v' & E & Hs).
      exists t', v'. split; [exact E | lia].
    + destruct (IH t (v + 1) p) as (t' & v' & E & Hs).
      exists t', v'. split; [exact E | lia].
Qed.

Lemma count_history history :
  only_text_or_voice history ->
  forall t v p,
  exists t' v',
    fold_left (fun types (kv : string * list message_record) =>
                 fold_left count_message_type (snd kv) types)
      history [("text", t); ("voice", v); ("template", p)]
    = [("text", t'); ("voice", v'); ("template", p)]
    /\ t' + v' =
       t + v + Z.of_nat (list_sum (map (fun kv => List.length (snd kv)) history)).
Proof.
  induction 1 as [|kv history Hkv _ IH]; intros t v p.
  - exists t, v. split; [reflexivity | simpl; lia].
  - cbn [fold_left map list_sum].
    destruct (count_messages (snd kv) Hkv t v p) as (t1 & v1 & E1 & H1).
    rewrite E1.
    destruct (IH t1 v1 p) as (t' & v' & E & Hs).
    exists t', v'. split; [exact E|].
    unfold list_sum in *. cbn [fold_right]. lia.
Qed.

(** X16: the client records template and interactive messages as text
    messages.  From a history that holds only text and voice messages, and
    after any requests of the four kinds, the statistics count every
    recorded message as text or as voice, and the template counter is 0. *)
Theorem get_stats_never_counts_templates templates self requests :
  only_text_or_voice (message_history self) ->
  let s := get_stats (serve_all templates self requests) in
  exists texts voices,
    message_types s = [("text", texts); ("voice", voices); ("template", 0)]
    /\ texts + voices = total_messages_sent s.
Proof.
  intros Hh s.
  pose proof (serve_all_types templates requests self Hh) as Hh'.
  destruct (count_history _ Hh' 0 0 0) as (t' & v' & E & Hs).
  exists t', v'. unfold s, get_stats. cbn [message_types total_messages_sent].
  split; [exact E|]. unfold recorded. lia.
Qed.

Definition demo_templates : PyDict.t (PyDict.t string) :=
  [("welcome", [("en", "Welcome to NitiVista!")])].

Definition demo_env : env := mk_env 7 "2025-11-10T09:00:00" (fun _ => true).

(** A template in a language it does not have, a voice message and an
    unknown template, sent from a fresh client without history. *)
Lemma get_stats_never_counts_templates_witness :
  exists texts voices,
    message_types
      (get_stats
         (serve_all demo_templates (init demo_env [])
            [(demo_env, Template "+911" "welcome" "hi");
             (demo_env, Voice "+911" "a.ogg");
             (demo_env, Template "+912" "goodbye" "en")]))
    = [("text", texts); ("voice", voices); ("template", 0)]
    /\ texts + voices
       = total_messages_sent
           (get_stats
              (serve_all demo_templates (init demo_env [])
                 [(demo_env, Template "+911" "welcome" "hi");
                  (demo_env, Voice "+911" "a.ogg");
                  (demo_env, Template "+912" "goodbye" "en")])).
Proof.
  apply (get_stats_never_counts_templates demo_templates (init demo_env [])).
  constructor.
Defined.

Example stats_demo :
  let s := get_stats
             (serve_all demo_templates (init demo_env [])
                [(demo_env, Template "+911" "welcome" "hi");
                 (demo_env, Voice "+911" "a.ogg");
                 (demo_env, Template "+912" "goodbye" "en")]) in
  message_types s = [("text", 1); ("voice", 1); ("template", 0)]
  /\ total_messages_sent s = 2 /\ unique_phone_numbers s = 1
  /\ rate_limit_used s = 2.
Proof. vm_compute. repeat split; reflexivity. Qed.

End StatsFacts.

(* ================================================================= *)
(** ** Policy type by indicator score *)

Module PolicyTypeFacts.
Import LayoutClassifier.

Lemma indicator_score_count indicators text_lower :
  indicator_score indicators text_lower =
  Z.of_nat (List.length
              (filter (fun i => PyStr.contains i text_lower) indicators)).
Proof.
  induction indicators as [|i rest IH]; [reflexivity|].
  cbn [indicator_score filter].
  destruct (PyStr.contains i text_lower); cbn [List.length]; lia.
Qed.

Lemma indicator_score_nonneg indicators text_lower :
  0 <= indicator_score indicators text_lower.
Proof. rewrite indicator_score_count. lia. Qed.

(** The score of a policy type, as [_detect_policy_type] counts it. *)
Definition score_of (text type_ : string) : option Z :=
  PyDict.get (scores text) type_.

Example detect_ex :
  _detect_policy_type "Your CAR INSURANCE covers the registration number" = "motor"
  /\ _detect_policy_type "Hospitalization and death benefit" = "health"
  /\ _detect_policy_type "Death benefit and hospitalization, nominee" = "life"
  /\ _detect_policy_type "General terms" = "health".
Proof. repeat split; reflexivity. Qed.

(** C6.  For every text, the score of each of the four types is the
    number of its indicator phrases that occur in the lowercased text;
    [_detect_policy_type] returns one of the four types, and no type has a
    greater score than the one returned; when every score is 0 it returns
    ['health']. *)
Theorem detect_policy_type_maximal (text : string) :
  let text_lower := PyStr.lower text in
  let count indicators :=
    Z.of_nat (List.length
                (filter (fun i => PyStr.contains i text_lower) indicators)) in
  scores text = [ ("health", count health_indicators);
                  ("life", count life_indicators);
                  ("motor", count motor_indicators);
                  ("travel", count travel_indicators) ] /\
  In (_detect_policy_type text) ["health"; "life"; "motor"; "travel"] /\
  (exists best, score_of text (_detect_policy_type text) = Some best /\
     forall type_ v, score_of text type_ = Some v -> v <= best) /\
  ((forall type_ v, score_of text type_ = Some v -> v = 0) ->
   _detect_policy_type text = "health").
Proof.
  intros text_lower count.
  assert (Hs : scores text = [ ("health", count health_indicators);
                  ("life", count life_indicators);
                  ("motor", count motor_indicators);
                  ("travel", count travel_indicators) ]).
  { unfold scores, count. fold text_lower.
    now rewrite !indicator_score_count. }
  split; [exact Hs|].
  unfold _detect_policy_type, score_of. rewrite Hs.
  assert (Hpos : forall l, 0 <= count l) by (intros; unfold count; lia).
  generalize (Hpos health_indicators) (Hpos life_indicators)
    (Hpos motor_indicators) (Hpos travel_indicators).
  generalize (count health_indicators) (count life_indicators)
    (count motor_indicators) (count travel_indicators).
  clear. intros h l m t Hh Hl Hm Ht.
  assert (Hget : forall type_ v (best : Z),
    h <= best -> l <= best -> m <= best -> t <= best ->
    PyDict.get [("health", h); ("life", l); ("motor", m); ("travel", t)] type_
      = Some v -> v <= best).
  { intros type_ v best H1 H2 H3 H4. cbn [PyDict.get].
    repeat match goal with
           | |- context [String.eqb ?a type_] => destruct (String.eqb a type_)
           end; intros H; inversion H; subst; assumption. }
  set (d := [("health", h); ("life", l); ("motor", m); ("travel", t)]) in *.
  assert (G1 : PyDict.get d "health" = Some h) by reflexivity.
  assert (G2 : PyDict.get d "life" = Some l) by reflexivity.
  assert (G3 : PyDict.get d "motor" = Some m) by reflexivity.
  assert (G4 : PyDict.get d "travel" = Some t) by reflexivity.
  change (max_key d) with
    (Some (max_key_from "health" h [("life", l); ("motor", m); ("travel", t)])).
  cbn [max_key_from].
  destruct (h <? l) eqn:E1;
    [destruct (l <? m) eqn:E2;
       [destruct (m <? t) eqn:E3|destruct (l <? t) eqn:E3]
    |destruct (h <? m) eqn:E2;
       [destruct (m <? t) eqn:E3|destruct (h <? t) eqn:E3]];
    rewrite ?Z.ltb_lt, ?Z.ltb_ge in *;
    rewrite ?G1, ?G2, ?G3, ?G4;
    match goal with
    | |- context [match ?x with _ => _ end] =>
        is_var x; destruct x as [|px|px] eqn:Ex; try lia
    end;
    rewrite ?G1, ?G2, ?G3, ?G4;
    (split; [simpl; tauto|]);
    (split; [eexists; split; [reflexivity|]; intros; eapply Hget; eauto; lia|]);
    intros Hall;
    try reflexivity;
    pose proof (Hall _ _ G2); pose proof (Hall _ _ G3);
    pose proof (Hall _ _ G4); lia.
Qed.

(** A text without any indicator phrase is taken for a health policy. *)
Lemma detect_policy_type_maximal_witness :
  _detect_policy_type "General terms" = "health".
Proof.
  apply (proj2 (proj2 (proj2 (detect_policy_type_maximal "General terms")))).
  intros type_ v. unfold score_of.
  change (scores "General terms")
    with [("health", 0); ("life", 0); ("motor", 0); ("travel", 0)].
  cbn [PyDict.get].
  repeat match goal with
         | |- context [String.eqb ?a type_] => destruct (String.eqb a type_)
         end; intros H; inversion H; reflexivity.
Defined.

End PolicyTypeFacts.

(* ================================================================= *)
(** ** layout_classifier.py: which line starts a section, and what its
       content holds *)

Module SectionFacts.
Import LayoutSections.

Definition clean_head (l : list ascii) : Prop :=
  match l with [] => True | c :: _ => PyStr.is_space c = false end.

Lemma lstrip_clean l : clean_head l -> PyStr.lstrip_chars l = l.
Proof. destruct l as [|c l]; simpl; [reflexivity|]. now intros ->. Qed.

Lemma lstrip_head l : clean_head (PyStr.lstrip_chars l).
Proof.
  induction l as [|c l IH]; simpl; [exact I|].
  destruct (PyStr.is_space c) eqn:E; [exact IH | exact E].
Qed.

Lemma lstrip_suffix l : exists pre, l = pre ++ PyStr.lstrip_chars l.
Proof.
  induction l as [|c l [pre IH]]; simpl.
  - now exists [].
  - destruct (PyStr.is_space c).
    + exists (c :: pre). simpl. now rewrite <- IH.
    + now exists [].
Qed.

Lemma clean_head_app l m : l <> [] -> clean_head (l ++ m) -> clean_head l.
Proof. destruct l; [congruence | trivial]. Qed.

(** [s.strip().strip() == s.strip()] *)
Lemma strip_chars_twice l :
  PyStr.strip_chars (PyStr.strip_chars l) = PyStr.strip_chars l.
Proof.
  unfold PyStr.strip_chars.
  set (a := PyStr.lstrip_chars l).
  set (b := PyStr.lstrip_chars (rev a)).
  assert (Ha : clean_head a) by apply lstrip_head.
  assert (Hb : clean_head b) by apply lstrip_head.
  assert (Hr : clean_head (rev b)).
  { destruct (lstrip_suffix (rev a)) as [pre E]. fold b in E.
    assert (E' : a = rev b ++ rev pre).
    { rewrite <- rev_app_distr, <- E. now rewrite rev_involutive. }
    destruct (rev b) as [|c r] eqn:Er; [exact I|].
    rewrite E' in Ha. exact Ha. }
  rewrite (lstrip_clean _ Hr), rev_involutive.
  now rewrite (lstrip_clean _ Hb).
Qed.

Lemma strip_twice s : PyStr.strip (PyStr.strip s) = PyStr.strip s.
Proof.
  unfold PyStr.strip.
  now rewrite PyStrFacts.chars_of_chars, strip_chars_twice.
Qed.

Section Sections.

Variable re_match : string -> string -> bool.

Abbreviation header := (_is_likely_header re_match).
Abbreviation score2 := (match_score2 re_match).

(** A stripped line of 3 to 50 characters with a letter is a likely
    header. *)
Lemma short_line_with_letter_is_header s :
  3 <= PyStr.len (PyStr.strip s) <= 50 ->
  existsb is_alpha (PyStr.chars (PyStr.strip s)) = true ->
  header s = true.
Proof.
  intros [H3 H50] Ha. unfold _is_likely_header.
  destruct (isupper _ && _); [reflexivity|].
  destruct (existsb _ header_patterns); [reflexivity|].
  rewrite Ha.
  apply Z.leb_le in H3, H50. now rewrite H3, H50.
Qed.

Definition content_piece (lines : list string) (piece : string) : Prop :=
  (exists l, In l lines /\ piece = PyStr.strip l)
  /\ 10 < PyStr.len piece
  /\ (50 <= PyStr.len piece
      \/ existsb is_alpha (PyStr.chars piece) = false).

Lemma content_lines_pieces lines :
  Forall (content_piece lines) (content_lines re_match lines).
Proof.
  induction lines as [|l lines IH]; simpl; [constructor|].
  assert (IH' : Forall (content_piece (l :: lines))
                  (content_lines re_match lines)).
  { eapply Forall_impl; [|exact IH].
    intros p [[l0 [Hin ->]] Hp]. split; [|exact Hp].
    exists l0. split; [now right | reflexivity]. }
  destruct (header (PyStr.strip l) && (PyStr.len (PyStr.strip l) <? 50))
    eqn:Eh; [constructor|].
  destruct (10 <? PyStr.len (PyStr.strip l)) eqn:E10; [|exact IH'].
  constructor; [|exact IH'].
  apply Z.ltb_lt in E10.
  split; [exists l; split; [now left | reflexivity]|].
  split; [exact E10|].
  destruct (Z.ltb_spec (PyStr.len (PyStr.strip l)) 50) as [Hlt|Hge];
    [|now left].
  right. rewrite andb_true_r in Eh.
  destruct (existsb is_alpha (PyStr.chars (PyStr.strip l))) eqn:Ea;
    [|reflexivity].
  rewrite short_line_with_letter_is_header in Eh; [discriminate| |].
  - rewrite strip_twice. lia.
  - now rewrite strip_twice.
Qed.

Lemma length_content_lines lines :
  (List.length (content_lines re_match lines) <= List.length lines)%nat.
Proof.
  induction lines as [|l lines IH]; simpl; [lia|].
  destruct (_ && _); simpl; [lia|].
  destruct (10 <? _); simpl; lia.
Qed.

Lemma In_firstn {A} (x : A) n l : In x (firstn n l) -> In x l.
Proof.
  revert l. induction n as [|n IH]; intros [|y l]; simpl; try tauto.
  intros [H|H]; [now left | right; now apply IH].
Qed.

(** X18: the content of a section is made of at most 19 of the lines that
    follow its header, stripped and joined by single spaces; each of them
    has more than 10 characters, and each has 50 characters or more or
    holds no letter at all: a shorter line with a letter counts as the next
    header and ends the section. *)
Theorem extract_section_content_pieces lines start :
  exists pieces,
    _extract_section_content re_match lines start = PyStr.join " " pieces
    /\ (List.length pieces <= 19)%nat
    /\ Forall (content_piece (skipn (Z.to_nat (start + 1)) lines)) pieces.
Proof.
  unfold _extract_section_content.
  set (rest := skipn (Z.to_nat (start + 1)) lines).
  exists (content_lines re_match (firstn 19 rest)).
  split; [reflexivity|]. split.
  - etransitivity; [apply length_content_lines|].
    rewrite length_firstn. lia.
  - eapply Forall_impl; [|apply content_lines_pieces].
    intros p [[l [Hin ->]] Hp]. split; [|exact Hp].
    exists l. split; [|reflexivity]. eapply In_firstn, Hin.
Qed.

(** *** The line chosen by [_find_section] *)

Definition has_keyword (keywords : list string) (line : string) : Prop :=
  exists keyword,
    In keyword keywords
    /\ PyStr.contains keyword (PyStr.strip (PyStr.lower line)) = true.

Lemma score2_keyword keywords line :
  2 <= score2 keywords line <-> has_keyword keywords line.
Proof.
  unfold match_score2, has_keyword.
  set (f := fun keyword => PyStr.contains keyword _).
  split.
  - intros H.
    destruct (filter f keywords) as [|k ks] eqn:E.
    + simpl in H. destruct (header line); lia.
    + assert (Hin : In k (filter f keywords)) by (rewrite E; now left).
      apply filter_In in Hin. now exists k.
  - intros [k [Hin Hk]].
    assert (Hf : In k (filter f keywords)) by (apply filter_In; now split).
    destruct (filter f keywords); [destruct Hf|].
    cbn [List.length]. destruct (header line); lia.
Qed.

(** What the loop knows after the lines [pre]. *)
Definition chosen (keywords : list string) (pre : list string)
  (best2 best : Z) : Prop :=
  (best = -1 /\ best2 = 0
   /\ forall l, In l pre -> score2 keywords l < 2)
  \/ exists b,
       best = Z.of_nat b /\ (b < List.length pre)%nat
       /\ score2 keywords (nth b pre "") = best2 /\ 2 <= best2
       /\ (forall j, (j < List.length pre)%nat ->
             score2 keywords (nth j pre "") <= best2)
       /\ (forall j, (j < b)%nat ->
             score2 keywords (nth j pre "") < best2).

Lemma chosen_step keywords pre line best2 best :
  chosen keywords pre best2 best ->
  let s := score2 keywords line in
  if (best2 <? s) && (2 <=? s)
  then chosen keywords (pre ++ [line]) s (Z.of_nat (List.length pre))
  else chosen keywords (pre ++ [line]) best2 best.
Proof.
  intros Hc s.
  assert (Hlast : nth (List.length pre) (pre ++ [line]) "" = line).
  { rewrite app_nth2 by lia. now rewrite Nat.sub_diag. }
  assert (Hold : forall j, (j < List.length pre)%nat ->
                   nth j (pre ++ [line]) "" = nth j pre "").
  { intros j Hj. now apply app_nth1. }
  assert (Hlen : List.length (pre ++ [line]) = S (List.length pre)).
  { rewrite length_app. simpl. lia. }
  destruct ((best2 <? s) && (2 <=? s)) eqn:E.
  - apply andb_true_iff in E. destruct E as [E1 E2].
    apply Z.ltb_lt in E1. apply Z.leb_le in E2.
    right. exists (List.length pre).
    split; [reflexivity|]. split; [lia|]. split; [now rewrite Hlast|].
    split; [exact E2|]. split.
    + intros j Hj. rewrite Hlen in Hj.
      destruct (Nat.eq_dec j (List.length pre)) as [->|Hne].
      * rewrite Hlast. fold s. lia.
      * rewrite Hold by lia.
        destruct Hc as [(_ & _ & Hall)|(b & _ & _ & _ & _ & Hall & _)].
        -- specialize (Hall (nth j pre "")).
           assert (In (nth j pre "") pre) by (apply nth_In; lia).
           specialize (Hall H). lia.
        -- specialize (Hall j). lia.
    + intros j Hj. rewrite Hold by lia.
      destruct Hc as [(_ & _ & Hall)|(b & _ & _ & _ & _ & Hall & _)].
      * specialize (Hall (nth j pre "")).
        assert (In (nth j pre "") pre) by (apply nth_In; lia).
        specialize (Hall H). lia.
      * specialize (Hall j). lia.
  - apply andb_false_iff in E.
    assert (E' : s <= best2 \/ s < 2).
    { destruct E as [E|E]; [left; apply Z.ltb_ge in E; lia
                           | right; apply Z.leb_gt in E; lia]. }
    clear E.
    destruct Hc as [(Hb & Hb2 & Hall)|(b & Hb & Hlt & Hs & H2 & Hall & Hfirst)].
    + left. split; [exact Hb|]. split; [exact Hb2|].
      intros l Hin. apply in_app_or in Hin. destruct Hin as [Hin|[<-|[]]].
      * now apply Hall.
      * fold s. subst best2.
        assert (0 <= s).
        { unfold s, match_score2. destruct (header line); lia. }
        destruct E' as [E'|E']; [|exact E'].
        lia.
    + right. exists b. split; [exact Hb|]. split; [lia|].
      split; [now rewrite Hold by lia|]. split; [exact H2|]. split.
      * intros j Hj. rewrite Hlen in Hj.
        destruct (Nat.eq_dec j (List.length pre)) as [->|Hne].
        -- rewrite Hlast. fold s. lia.
        -- rewrite Hold by lia. apply Hall. lia.
      * intros j Hj. rewrite Hold by lia. now apply Hfirst.
Qed.

Lemma best_line_chosen keywords rest pre best2 best :
  chosen keywords pre best2 best ->
  chosen keywords (pre ++ rest)
    (fst (best_line re_match keywords rest (Z.of_nat (List.length pre))
            best2 best))
    (snd (best_line re_match keywords rest (Z.of_nat (List.length pre))
            best2 best)).
Proof.
  revert pre best2 best.
  induction rest as [|line rest IH]; intros pre best2 best Hc.
  - simpl. now rewrite app_nil_r.
  - cbn [best_line].
    pose proof (chosen_step keywords pre line best2 best Hc) as Hs.
    cbv zeta in Hs.
    replace (Z.of_nat (List.length pre) + 1)
      with (Z.of_nat (List.length (pre ++ [line])))
      by (rewrite length_app; simpl; lia).
    replace (pre ++ line :: rest) with ((pre ++ [line]) ++ rest)
      by (now rewrite <- app_assoc).
    destruct ((best2 <? score2 keywords line) && (2 <=? score2 keywords line));
      now apply IH.
Qed.

(** X17: [_find_section] finds nothing exactly when no line holds a
    keyword (lowercased and stripped); otherwise the section starts at the
    first of the lines with the highest match score, a line that holds a
    keyword, and is titled with that line, stripped. *)
Theorem find_section_first_best_line lines section_type keywords :
  match _find_section re_match lines section_type keywords with
  | None => forall line, In line lines -> ~ has_keyword keywords line
  | Some s =>
      exists i,
        start_line s = Z.of_nat i /\ (i < List.length lines)%nat
        /\ s_type s = section_type
        /\ title s = PyStr.strip (nth i lines "")
        /\ s_content s = _extract_section_content re_match lines (Z.of_nat i)
        /\ has_keyword keywords (nth i lines "")
        /\ (forall j, (j < List.length lines)%nat ->
              score2 keywords (nth j lines "")
              <= score2 keywords (nth i lines ""))
        /\ (forall j, (j < i)%nat ->
              score2 keywords (nth j lines "")
              < score2 keywords (nth i lines ""))
  end.
Proof.
  unfold _find_section.
  assert (H0 : chosen keywords [] 0 (-1)).
  { left. split; [reflexivity|]. split; [reflexivity|]. intros l []. }
  pose proof (best_line_chosen keywords lines [] 0 (-1) H0) as Hc.
  cbn [app List.length Z.of_nat] in Hc.
  destruct (best_line re_match keywords lines 0 0 (-1)) as [best2 best].
  cbn [fst snd] in Hc.
  destruct Hc as [(Hb & _ & Hall)|(b & Hb & Hlt & Hs & H2 & Hall & Hfirst)].
  - subst best. cbn [Z.leb Z.compare].
    intros line Hin Hk. apply score2_keyword in Hk.
    specialize (Hall line Hin). lia.
  - subst best.
    destruct (0 <=? Z.of_nat b) eqn:E; [|apply Z.leb_gt in E; lia].
    exists b. cbn [start_line s_type title s_content].
    rewrite Nat2Z.id.
    split; [reflexivity|]. split; [exact Hlt|]. split; [reflexivity|].
    split; [reflexivity|]. split; [reflexivity|].
    split; [apply score2_keyword; lia|].
    rewrite Hs. split; assumption.
Qed.

End Sections.

(** A small document. *)
Definition no_match (pattern line : string) : bool := false.

Example find_section_demo :
  let lines := split_lines "POLICY
Premium payment
premium
What is covered: hospitalization and treatment of the insured person
ok" in
  option_map (fun s => (start_line s, title s, s_content s))
    (_find_section no_match lines "premium" ["premium"; "premium payment"])
  = Some (1, "Premium payment", "")
  /\ option_map (fun s => (start_line s, title s))
       (_find_section no_match lines "claims" ["claim procedure"])
     = None.
Proof. vm_compute. split; reflexivity. Qed.

End SectionFacts.

(* ================================================================= *)
(** ** Text layer or OCR *)

Module OcrFacts.
Import OCREngine.

Section Facts.
Variable _perform_ocr : string -> ocr_result.

Abbreviation extract_page := (extract_page _perform_ocr).
Abbreviation extract_pages := (extract_pages _perform_ocr).
Abbreviation _extract_from_pdf := (_extract_from_pdf _perform_ocr).

(** The page numbers [first+1], [first+2], ... of a document. *)
Fixpoint page_numbers (first : Z) (doc : list page) : list Z :=
  match doc with
  | [] => []
  | _ :: doc' => first :: page_numbers (first + 1) doc'
  end.

(** The records of the pages, page by page. *)
Definition records (first : Z) (doc : list page) : list page_data :=
  map (fun np => fst (extract_page (fst np) (snd np)))
    (combine (page_numbers first doc) doc).

(** The images handed to OCR, page by page. *)
Definition ocr_calls (doc : list page) : list string :=
  flat_map (fun p => snd (extract_page 0 p)) doc.

Lemma extract_page_calls n m p :
  snd (extract_page n p) = snd (extract_page m p).
Proof. unfold OCREngine.extract_page. now destruct (needs_ocr (get_text p)). Qed.

Lemma extract_pages_spec doc :
  forall n txt data calls,
    snd (fst (extract_pages doc n txt data calls)) = data ++ records n doc /\
    snd (extract_pages doc n txt data calls) = calls ++ ocr_calls doc.
Proof.
  induction doc as [|p doc IH]; intros n txt data calls.
  - simpl. now rewrite !app_nil_r.
  - cbn [OCREngine.extract_pages].
    destruct (extract_page n p) as [pd c] eqn:E.
    destruct (IH (n + 1) (txt ++ text pd ++ String "010" (String "010" ""))%string
                (data ++ [pd]) (calls ++ c)) as [H1 H2].
    rewrite H1, H2. unfold records, ocr_calls.
    cbn [page_numbers combine map flat_map fst snd].
    rewrite E, <- !app_assoc. cbn [fst app].
    rewrite (extract_page_calls 0 n p), E. cbn [snd]. auto.
Qed.

Lemma length_records n doc : List.length (records n doc) = List.length doc.
Proof.
  unfold records. rewrite length_map, length_combine.
  assert (H : forall k, List.length (page_numbers k doc) = List.length doc).
  { induction doc as [|p doc IH]; intros k; simpl; auto. }
  rewrite H. lia.
Qed.

(** C7.  For every page, [_extract_from_pdf] hands the page's image to
    OCR exactly when the text layer is empty or shorter than 100 characters
    once stripped, and then takes text and confidence from the OCR result;
    otherwise it makes no OCR call, keeps the text layer and sets the
    confidence to 0.95.  The OCR calls of a document are those of its pages
    in order, and for a document with at least one page the overall
    confidence is the sum of the pages' confidences divided by their number;
    a document without pages raises the division error. *)
Theorem extract_from_pdf_ocr_fallback :
  (forall n p,
     let direct := get_text p in
     let short := direct = "" \/ PyStr.len (PyStr.strip direct) < 100 in
     (snd (extract_page n p) = [pixmap_png p] <-> short) /\
     (snd (extract_page n p) = [] <-> ~ short) /\
     (short ->
      text (fst (extract_page n p)) = ocr_text (_perform_ocr (pixmap_png p)) /\
      confidence (fst (extract_page n p))
        = ocr_confidence (_perform_ocr (pixmap_png p))) /\
     (~ short ->
      text (fst (extract_page n p)) = direct /\
      confidence (fst (extract_page n p)) = 0.95%float)) /\
  (forall doc,
     fst (_extract_from_pdf doc) = ocr_calls doc /\
     match snd (_extract_from_pdf doc) with
     | None => doc = []
     | Some r =>
         doc <> [] /\
         pages_data r = records 0 doc /\
         pages r = Z.of_nat (List.length doc) /\
         overall_confidence r =
           (PyFloat.sum (map confidence (records 0 doc))
            / PyFloat.of_Z (Z.of_nat (List.length doc)))%float
     end).
Proof.
  split.
  - intros n p direct short.
    assert (Hshort : needs_ocr direct = true <-> short).
    { unfold needs_ocr, short. rewrite orb_true_iff, negb_true_iff, Z.ltb_lt.
      destruct direct; simpl; intuition (auto; discriminate). }
    unfold OCREngine.extract_page. fold direct.
    destruct (needs_ocr direct) eqn:E; cbn [fst snd text confidence].
    + assert (Hs : short) by now apply Hshort.
      repeat split; auto; try tauto; intros H; discriminate.
    + assert (Hs : ~ short) by (rewrite <- Hshort; discriminate).
      repeat split; auto; try tauto; intros H; discriminate.
  - intros doc. unfold OCREngine._extract_from_pdf.
    destruct (extract_pages_spec doc 0 "" [] []) as [H1 H2].
    destruct (extract_pages doc 0 "" [] []) as [[txt data] calls].
    cbn [fst snd] in *. subst. cbn [app].
    split; [reflexivity|].
    pose proof (length_records 0 doc) as Hlen.
    destruct (records 0 doc) as [|pd data] eqn:E.
    + destruct doc; [reflexivity|discriminate].
    + cbn [pages_data pages overall_confidence].
      repeat split; try (now rewrite Hlen).
      intros ->. discriminate.
Qed.

End Facts.

(** A page with a full text layer, and a scanned page without one. *)
Definition typed_page : page :=
  mk_page (PyStr.of_chars (repeat "x"%char 120)) "png-1".
Definition scanned_page : page := mk_page "Page 2" "png-2".

Definition demo_ocr (_ : string) : ocr_result :=
  mk_ocr_result "scanned text" 0.5%float.

Example extract_demo :
  fst (_extract_from_pdf demo_ocr [typed_page; scanned_page]) = ["png-2"] /\
  option_map overall_confidence
    (snd (_extract_from_pdf demo_ocr [typed_page; scanned_page]))
    = Some ((0.95 + 0.5) / 2)%float /\
  snd (_extract_from_pdf demo_ocr []) = None.
Proof. vm_compute. repeat split; reflexivity. Qed.

(** The scanned page has six characters of text and goes to OCR. *)
Lemma extract_from_pdf_ocr_fallback_witness :
  text (fst (extract_page demo_ocr 1 scanned_page)) = "scanned text" /\
  confidence (fst (extract_page demo_ocr 1 scanned_page)) = 0.5%float.
Proof.
  apply (proj1 (proj2 (proj2
    (proj1 (extract_from_pdf_ocr_fallback demo_ocr) 1 scanned_page)))).
  right. vm_compute. reflexivity.
Defined.

End OcrFacts.

(* ================================================================= *)
(** ** ocr_engine.py: the text and the page numbers of a document *)

Module OcrTextFacts.
Import OCREngine OcrFacts.

(** The pages' texts, each followed by an empty line. *)
Fixpoint page_texts (data : list page_data) : string :=
  match data with
  | [] => ""
  | pd :: data' =>
      (text pd ++ String "010" (String "010" "") ++ page_texts data')%string
  end.

Lemma append_assoc (a b c : string) :
  ((a ++ b) ++ c)%string = (a ++ b ++ c)%string.
Proof. induction a as [|x a IH]; simpl; [reflexivity | now rewrite IH]. Qed.

Lemma append_empty (a : string) : (a ++ "")%string = a.
Proof. induction a as [|x a IH]; simpl; [reflexivity | now rewrite IH]. Qed.

Section Facts.
Variable _perform_ocr : string -> ocr_result.

Lemma extract_pages_text doc :
  forall n txt data calls,
    fst (fst (extract_pages _perform_ocr doc n txt data calls))
    = (txt ++ page_texts (records _perform_ocr n doc))%string.
Proof.
  induction doc as [|p doc IH]; intros n txt data calls.
  - simpl. now rewrite append_empty.
  - cbn [extract_pages].
    destruct (extract_page _perform_ocr n p) as [pd c] eqn:E.
    rewrite IH. unfold records.
    cbn [page_numbers combine map fst snd page_texts].
    rewrite E. cbn [fst]. now rewrite !append_assoc.
Qed.

Lemma records_page_number doc :
  forall n i d,
    (i < List.length doc)%nat ->
    page_number (nth i (records _perform_ocr n doc) d) = n + Z.of_nat i + 1.
Proof.
  induction doc as [|p doc IH]; intros n i d Hi; [simpl in Hi; lia|].
  unfold records. cbn [page_numbers combine map fst snd].
  destruct i as [|i].
  - cbn [nth]. unfold extract_page.
    destruct (needs_ocr (get_text p)); cbn [fst page_number]; lia.
  - cbn [nth]. fold (records _perform_ocr (n + 1) doc).
    rewrite IH by (simpl in Hi; lia). lia.
Qed.

(** X19: for a document with at least one page, [_extract_from_pdf]
    returns a result whose text is the pages' texts, each followed by an
    empty line, stripped as a whole; the word count is that of the same
    text; the pages are numbered 1, 2, ... in order. *)
Theorem extract_from_pdf_text_and_numbers doc (d : page_data) :
  doc <> [] ->
  exists r,
    snd (_extract_from_pdf _perform_ocr doc) = Some r
    /\ List.length (pages_data r) = List.length doc
    /\ full_text r = PyStr.strip (page_texts (pages_data r))
    /\ total_word_count r
       = Z.of_nat (List.length (PyStr.split (page_texts (pages_data r))))
    /\ file_type r = "pdf"
    /\ forall i, (i < List.length doc)%nat ->
         page_number (nth i (pages_data r) d) = Z.of_nat i + 1.
Proof.
  intros Hdoc. unfold _extract_from_pdf.
  pose proof (extract_pages_text doc 0 "" [] []) as Ht.
  destruct (extract_pages_spec _perform_ocr doc 0 "" [] []) as [Hd _].
  destruct (extract_pages _perform_ocr doc 0 "" [] []) as [[txt data] calls].
  cbn [fst snd app] in *. cbn [String.append] in Ht. subst txt data.
  pose proof (length_records _perform_ocr 0 doc) as Hlen.
  destruct (records _perform_ocr 0 doc) as [|pd data] eqn:E.
  - destruct doc; [congruence | discriminate].
  - eexists. split; [reflexivity|].
    cbn [pages_data full_text total_word_count file_type].
    split; [exact Hlen|]. split; [reflexivity|]. split; [reflexivity|].
    split; [reflexivity|].
    intros i Hi. rewrite <- E, records_page_number by exact Hi. lia.
Qed.

End Facts.

(** The typed page and the scanned page: the text of the first, two
    line feeds, the OCR text of the second; pages 1 and 2. *)
Lemma extract_from_pdf_text_and_numbers_witness :
  exists r,
    snd (_extract_from_pdf demo_ocr [typed_page; scanned_page]) = Some r
    /\ List.length (pages_data r) = 2%nat
    /\ full_text r = PyStr.strip (page_texts (pages_data r))
    /\ total_word_count r
       = Z.of_nat (List.length (PyStr.split (page_texts (pages_data r))))
    /\ file_type r = "pdf"
    /\ forall i, (i < 2)%nat ->
         page_number (nth i (pages_data r) (mk_page_data 0 "" 0 0))
         = Z.of_nat i + 1.
Proof.
  apply (extract_from_pdf_text_and_numbers demo_ocr
           [typed_page; scanned_page] (mk_page_data 0 "" 0 0)).
  discriminate.
Defined.

Example extract_text_demo :
  option_map (fun r => (total_word_count r, map page_number (pages_data r)))
    (snd (_extract_from_pdf demo_ocr [typed_page; scanned_page]))
  = Some (3, [1; 2]).
Proof. vm_compute. reflexivity. Qed.

End OcrTextFacts.

(* ================================================================= *)
(** ** ocr_engine.py: which language is detected *)

Module LanguageFacts.
Import OCRLanguage.

Section Facts.

Variable image : Type.
Variable image_to_string : image -> string -> string -> option string.

(** The length that [_detect_language] compares for a language. *)
Definition text_length (img : image) (lang : string) : Z :=
  match image_to_string img lang "--psm 6" with
  | Some text => PyStr.len (PyStr.strip text)
  | None => 0
  end.

Lemma language_results_items img :
  language_results image image_to_string img
  = [("eng", text_length img "eng"); ("mar", text_length img "mar");
     ("hin", text_length img "hin")].
Proof. reflexivity. Qed.

(** X20: the detected language is the first of eng, mar, hin whose trial
    run gives the longest stripped text, a failed run counting as length 0;
    it is always a supported language, so the recognition run of
    [_perform_ocr] uses the detected language and never its default. *)
Theorem detect_language_first_longest img :
  let detected := _detect_language image image_to_string img in
  (exists i,
     (i < 3)%nat /\ detected = nth i supported_languages ""
     /\ (forall j, (j < 3)%nat ->
           text_length img (nth j supported_languages "")
           <= text_length img detected)
     /\ (forall j, (j < i)%nat ->
           text_length img (nth j supported_languages "")
           < text_length img detected))
  /\ ocr_language image image_to_string img = detected
  /\ ocr_text image image_to_string img
     = image_to_string img detected tesseract_config.
Proof.
  intros detected.
  assert (Hd : detected =
               if text_length img "eng" <? text_length img "mar"
               then if text_length img "mar" <? text_length img "hin"
                    then "hin" else "mar"
               else if text_length img "eng" <? text_length img "hin"
                    then "hin" else "eng").
  { unfold detected, _detect_language. rewrite language_results_items.
    cbn [LayoutClassifier.max_key LayoutClassifier.max_key_from].
    destruct (_ <? _); destruct (_ <? _); reflexivity. }
  assert (Hl : ocr_language image image_to_string img = detected).
  { unfold ocr_language. fold detected. rewrite Hd.
    destruct (_ <? _); destruct (_ <? _); reflexivity. }
  split; [|split; [exact Hl | unfold ocr_text; now rewrite Hl]].
  rewrite Hd.
  destruct (Z.ltb_spec (text_length img "eng") (text_length img "mar"));
    [destruct (Z.ltb_spec (text_length img "mar") (text_length img "hin"))
    |destruct (Z.ltb_spec (text_length img "eng") (text_length img "hin"))].
  - exists 2%nat. split; [lia|]. split; [reflexivity|]. split.
    + intros [|[|[|j]]] Hj; cbn [nth supported_languages]; lia.
    + intros [|[|j]] Hj; cbn [nth supported_languages]; lia.
  - exists 1%nat. split; [lia|]. split; [reflexivity|]. split.
    + intros [|[|[|j]]] Hj; cbn [nth supported_languages]; lia.
    + intros [|j] Hj; cbn [nth supported_languages]; lia.
  - exists 2%nat. split; [lia|]. split; [reflexivity|]. split.
    + intros [|[|[|j]]] Hj; cbn [nth supported_languages]; lia.
    + intros [|[|j]] Hj; cbn [nth supported_languages]; lia.
  - exists 0%nat. split; [lia|]. split; [reflexivity|]. split.
    + intros [|[|[|j]]] Hj; cbn [nth supported_languages]; lia.
    + intros j Hj; lia.
Qed.

End Facts.

(** Marathi and Hindi runs of equal length, longer than the English
    one: Marathi, the earlier of the two, is detected. *)
Definition demo_runs (img : unit) (lang config : string) : option string :=
  if String.eqb lang "eng" then Some " ab "
  else if String.eqb lang "mar" then Some "abcd"
  else if String.eqb lang "hin" then Some "wxyz "
  else None.

Example detect_language_demo :
  _detect_language unit demo_runs tt = "mar".
Proof. vm_compute. reflexivity. Qed.

End LanguageFacts.

(* ================================================================= *)
(** ** Answers and the keyword fallback *)

Module AnswerFacts.
Import PolicyRAGSystem.

(** The word groups of the fallback and the answer each one selects from
    the combined context. *)
Definition keyword_groups : list (list string * (string -> string)) :=
  [ (["cover"; "include"; "what"],
     fun combined =>
       ("Based on your policy document, the coverage includes: "
        ++ PyStr.take combined 150 ++ "...")%string);
    (["exclude"; "not cover"],
     fun combined =>
       ("Your policy exclusions include: "
        ++ PyStr.take combined 150 ++ "...")%string);
    (["claim"; "how"],
     fun _ =>
       "For claims, please refer to your policy document or contact customer service.");
    (["premium"; "cost"; "price"],
     fun _ => "Premium information can be found in your policy document.") ].

Definition generic_answer : string :=
  "I found some relevant information in your policy, but please check the full document for complete details.".

(** The first 200 characters of the first two contexts, joined by a
    space. *)
Definition combined_context (contexts : list context) : string :=
  PyStr.join " " (map (fun ctx => PyStr.take (text ctx) 200)
                    (firstn 2 contexts)).

(** The answer of the first group with a word that occurs in the
    lowercased question; the generic answer when there is none. *)
Definition keyword_answer (question : string) (contexts : list context)
  : string :=
  match find (fun g => PyStr.any_in (fst g) (PyStr.lower question))
          keyword_groups with
  | Some g => snd g (combined_context contexts)
  | None => generic_answer
  end.

Lemma fallback_is_keyword_answer question contexts :
  _generate_fallback_answer question contexts =
  mk_answer (keyword_answer question contexts) 0.2%float
    (SourceName "Fallback").
Proof.
  unfold _generate_fallback_answer, keyword_answer, keyword_groups.
  cbn [find fst snd]. fold (combined_context contexts).
  destruct (PyStr.any_in ["cover"; "include"; "what"] (PyStr.lower question));
    [reflexivity|].
  destruct (PyStr.any_in ["exclude"; "not cover"] (PyStr.lower question));
    [reflexivity|].
  destruct (PyStr.any_in ["claim"; "how"] (PyStr.lower question));
    [reflexivity|].
  destruct (PyStr.any_in ["premium"; "cost"; "price"] (PyStr.lower question));
    reflexivity.
Qed.

Section Facts.
Variable qa_pipeline : string -> string -> option qa_result.

(** The best confidence is 0.0 with no answer, or the score the pipeline
    gave on one of the contexts. *)
Lemma best_of_score question all contexts :
  incl contexts all ->
  forall ba bc ba' bc',
    (ba = None \/
     exists ctx r, In ctx all /\
       qa_pipeline question (text ctx) = Some r /\ bc = qa_score r) ->
    best_of qa_pipeline question contexts ba bc = (ba', bc') ->
    ba' = None \/
    exists ctx r, In ctx all /\
      qa_pipeline question (text ctx) = Some r /\ bc' = qa_score r.
Proof.
  induction contexts as [|ctx contexts IH]; intros Hincl ba bc ba' bc' H0 H.
  - simpl in H. inversion H; subst. exact H0.
  - assert (Hincl' : incl contexts all)
      by (intros x Hx; apply Hincl; now right).
    cbn [best_of] in H.
    destruct (qa_pipeline question (text ctx)) as [qa|] eqn:Eq;
      [|eapply IH; eauto].
    destruct (bc <? qa_score qa)%float; [|eapply IH; eauto].
    eapply IH; [assumption| |exact H].
    right. exists ctx, qa. repeat split; auto. apply Hincl. now left.
Qed.

(** C5.  With no retrieved context, [answer_question] returns the fixed
    no-information answer with confidence 0.0 and source ['None'].  With at
    least one context, if every score the QA pipeline gives on the retrieved
    contexts is below [confidence_threshold] (so the best one is), the
    answer is the keyword fallback: the answer of the first of the groups
    [cover, include, what], [exclude, not cover], [claim, how],
    [premium, cost, price] that has a word occurring in the lowercased
    question, or the generic answer, with confidence 0.2 and source
    ['Fallback']. *)
Theorem answer_question_fallback now question :
  (forall threshold,
     answer_question qa_pipeline now question [] threshold =
     mk_response no_information 0%float (SourceName "None") question now None) /\
  (forall contexts threshold,
     contexts <> [] ->
     (forall ctx r, In ctx contexts ->
        qa_pipeline question (text ctx) = Some r ->
        (qa_score r <? threshold)%float = true) ->
     let resp := answer_question qa_pipeline now question contexts threshold in
     r_answer resp = keyword_answer question contexts /\
     r_confidence resp = 0.2%float /\
     r_source resp = SourceName "Fallback" /\
     r_question resp = question).
Proof.
  split; [reflexivity|].
  intros contexts threshold Hne Hlow resp. unfold resp, answer_question.
  destruct contexts as [|ctx0 rest]; [congruence|].
  set (contexts := ctx0 :: rest) in *.
  destruct (best_of qa_pipeline question contexts None 0%float)
    as [ba bc] eqn:E.
  pose proof (best_of_score question contexts contexts (incl_refl _)
                None 0%float ba bc (or_introl eq_refl) E) as Hb.
  assert (Hfb : match ba with
                | None => _generate_fallback_answer question contexts
                | Some a =>
                    if (bc <? threshold)%float
                    then _generate_fallback_answer question contexts
                    else a
                end = _generate_fallback_answer question contexts).
  { destruct ba as [a|]; [|reflexivity].
    destruct Hb as [Hb|(ctx & r & Hin & Hqa & ->)]; [discriminate|].
    now rewrite (Hlow ctx r Hin Hqa). }
  rewrite Hfb, fallback_is_keyword_answer. cbn. auto.
Qed.

End Facts.

(** A pipeline that is never confident. *)
Definition unsure_pipeline (_ _ : string) : option qa_result :=
  Some (mk_qa_result "cashless" 0.1%float).

Definition one_context : list context :=
  [mk_context "Hospitalization expenses up to 5,00,000" [] 0.4%float 0.6%float].

Example fallback_demo :
  r_answer (answer_question unsure_pipeline "t" "What is covered?" one_context
              default_confidence_threshold)
  = "Based on your policy document, the coverage includes: Hospitalization expenses up to 5,00,000..."
  /\ r_answer (answer_question unsure_pipeline "t" "Is dental not covered?"
                 one_context default_confidence_threshold)
  = "Based on your policy document, the coverage includes: Hospitalization expenses up to 5,00,000..."
  /\ r_answer (answer_question unsure_pipeline "t" "How to CLAIM" one_context
                 default_confidence_threshold)
  = "For claims, please refer to your policy document or contact customer service."
  /\ r_answer (answer_question unsure_pipeline "t" "How to CLAIM" one_context
                 0.05%float)
  = "cashless".
Proof. vm_compute. repeat split; reflexivity. Qed.

(** With the default threshold of 0.3, a score of 0.1 gives the
    fallback. *)
Lemma answer_question_fallback_witness :
  r_confidence (answer_question unsure_pipeline "t" "What is the price?"
                  one_context default_confidence_threshold) = 0.2%float.
Proof.
  apply (proj2 (answer_question_fallback unsure_pipeline "t" "What is the price?")
           one_context default_confidence_threshold).
  - discriminate.
  - intros ctx r _ H. inversion H; subst. reflexivity.
Defined.

End AnswerFacts.

(* ================================================================= *)
(** ** Chunking *)

Module ChunkFacts.
Import PolicyRAGSystem PyStr PyStrFacts.

(** The chunks that the windows [ws] leave after stripping. *)
Definition kept (text : string) (ws : list (Z * Z)) : list string :=
  flat_map (fun w =>
              let c := chunk_at text (fst w) (snd w) in
              if nonempty c then [c] else []) ws.

(** Each window starts [chunk_overlap] before the end of the one
    before it; the first one starts at [s]. *)
Fixpoint chained (chunk_overlap s : Z) (ws : list (Z * Z)) : Prop :=
  match ws with
  | [] => True
  | (a, b) :: ws' => a = s /\ chained chunk_overlap (b - chunk_overlap) ws'
  end.

(** The exact test and the float test of the sentence rule agree for all
    the chunk sizes up to [max_size], at several starts, on the offsets of
    the sentence end at both ends of the chunk and around four fifths of
    it, where the test changes its answer. *)
Definition float_agrees_upto (max_size : nat) : bool :=
  forallb (fun cs =>
    forallb (fun start =>
      forallb (fun d =>
        Bool.eqb (sentence_rule (start + d) start (Z.of_nat cs))
                 (sentence_rule_float (start + d) start (Z.of_nat cs)))
        (0 :: Z.of_nat cs + 1
           :: map (fun k => 4 * Z.of_nat cs / 5 - 2 + Z.of_nat k) (seq 0 6)))
      [0; 1; 409; 99999; 123456789])
    (seq 1 max_size).

Lemma sentence_rule_float_agrees : float_agrees_upto 1024 = true.
Proof. vm_compute. reflexivity. Qed.

Section Chunks.
Variables (text : string) (chunk_size chunk_overlap : Z).

Let L := len text.

Lemma loop_windows fuel :
  forall start chunks,
    split_loop fuel text chunk_size chunk_overlap start chunks =
    option_map (fun ws => chunks ++ kept text ws)
      (split_windows fuel text chunk_size chunk_overlap start
         (List.length chunks)).
Proof.
  induction fuel as [|fuel IH]; intros start chunks; [reflexivity|].
  cbn [split_loop split_windows].
  destruct (start <? len text); [|cbn; now rewrite app_nil_r].
  set (e := chunk_end text chunk_size start).
  assert (Hlen : List.length (append_chunk chunks (chunk_at text start e)) =
                 if nonempty (chunk_at text start e)
                 then S (List.length chunks) else List.length chunks).
  { unfold append_chunk. destruct (nonempty (chunk_at text start e));
      [rewrite length_app; simpl; lia|reflexivity]. }
  assert (Happ : forall ws,
            append_chunk chunks (chunk_at text start e) ++ kept text ws =
            chunks ++ kept text ((start, e) :: ws)).
  { intros ws. unfold append_chunk, kept. cbn [flat_map fst snd].
    destruct (nonempty (chunk_at text start e));
      [now rewrite <- app_assoc|reflexivity]. }
  rewrite Hlen.
  destruct ((len text <=? e - chunk_overlap)
            || (1000 <? Z.of_nat (if nonempty (chunk_at text start e)
                                  then S (List.length chunks)
                                  else List.length chunks))).
  - cbn [option_map]. f_equal. rewrite <- (Happ []).
    unfold kept. cbn [flat_map]. now rewrite app_nil_r.
  - rewrite IH, Hlen.
    destruct (split_windows fuel text chunk_size chunk_overlap
                (e - chunk_overlap) _); cbn [option_map]; [|reflexivity].
    f_equal. apply Happ.
Qed.

Lemma windows_fuel_mono fuel :
  forall start n ws,
    split_windows fuel text chunk_size chunk_overlap start n = Some ws ->
    forall fuel', (fuel <= fuel')%nat ->
    split_windows fuel' text chunk_size chunk_overlap start n = Some ws.
Proof.
  induction fuel as [|fuel IH]; intros start n ws H fuel' Hle;
    [discriminate|].
  destruct fuel' as [|fuel']; [lia|].
  cbn [split_windows] in *.
  destruct (start <? len text); [|exact H].
  destruct ((len text <=? _) || _); [exact H|].
  destruct (split_windows fuel text chunk_size chunk_overlap _ _) as [ws'|] eqn:E;
    [|discriminate].
  rewrite (IH _ _ _ E fuel') by lia. exact H.
Qed.

(** Every window is what [chunk_end] makes of its start, and the
    windows are chained by the overlap. *)
Lemma windows_chained fuel :
  forall start n ws,
    split_windows fuel text chunk_size chunk_overlap start n = Some ws ->
    chained chunk_overlap start ws /\
    Forall (fun w => snd w = chunk_end text chunk_size (fst w)) ws.
Proof.
  induction fuel as [|fuel IH]; intros start n ws H; [discriminate|].
  cbn [split_windows] in H.
  destruct (start <? len text).
  2:{ inversion H; subst. split; constructor. }
  destruct ((len text <=? _) || _).
  - inversion H; subst. split; [cbn; auto|repeat constructor].
  - destruct (split_windows fuel text chunk_size chunk_overlap _ _)
      as [ws'|] eqn:E; [|discriminate].
    inversion H; subst. destruct (IH _ _ _ E) as [Hc Hf].
    split; [cbn; auto|constructor; auto].
Qed.

(** The loop never holds more than 1001 chunks. *)
Lemma windows_count fuel :
  forall start n ws,
    split_windows fuel text chunk_size chunk_overlap start n = Some ws ->
    (n <= 1000)%nat ->
    (n + List.length (kept text ws) <= 1001)%nat.
Proof.
  induction fuel as [|fuel IH]; intros start n ws H Hn; [discriminate|].
  cbn [split_windows] in H.
  destruct (start <? len text).
  2:{ inversion H; subst. simpl. lia. }
  set (e := chunk_end text chunk_size start) in *.
  destruct ((len text <=? e - chunk_overlap)
            || (1000 <? Z.of_nat (if nonempty (chunk_at text start e)
                                  then S n else n))) eqn:Ex.
  - inversion H; subst. unfold kept. cbn [flat_map fst snd].
    fold e. destruct (nonempty (chunk_at text start e)); simpl; lia.
  - destruct (split_windows fuel text chunk_size chunk_overlap _ _)
      as [ws'|] eqn:E; [|discriminate].
    inversion H; subst. apply orb_false_iff in Ex as [_ Ex].
    apply Z.ltb_ge in Ex.
    apply IH in E; [|destruct (nonempty (chunk_at text start e)); lia].
    unfold kept in *. cbn [flat_map fst snd]. fold e.
    rewrite length_app.
    destruct (nonempty (chunk_at text start e)); simpl in *; lia.
Qed.

(** No chunk is longer than [chunk_size]. *)
Lemma len_chunk_at start :
  0 <= chunk_size ->
  len (chunk_at text start (chunk_end text chunk_size start)) <= chunk_size.
Proof.
  intros Hcs. unfold chunk_at.
  eapply Z.le_trans; [apply len_strip|]. rewrite len_slice.
  pose proof (clamp_index_distance (len text) start (start + chunk_size)
                (len_nonneg text) ltac:(lia)) as Hd.
  unfold chunk_end.
  destruct (start + chunk_size <? len text); [|lia].
  destruct (sentence_rule _ start chunk_size); [|lia].
  destruct (rfind_spec text "." start (start + chunk_size)) as [->|[Hr _]].
  - change (-1 + 1) with 0.
    replace (clamp_index (len text) 0) with 0
      by (unfold clamp_index; pose proof (len_nonneg text); simpl; lia).
    pose proof (clamp_index_bounds (len text) start (len_nonneg text)). lia.
  - set (r := rfind text "." start (start + chunk_size)) in *.
    pose proof (clamp_index_bounds (len text) start (len_nonneg text)).
    pose proof (clamp_index_bounds (len text) (start + chunk_size)
                  (len_nonneg text)).
    replace (clamp_index (len text) (r + 1)) with (r + 1)
      by (unfold clamp_index; destruct (r + 1 <? 0) eqn:E; lia).
    lia.
Qed.

Lemma kept_lengths ws :
  0 <= chunk_size ->
  Forall (fun w => snd w = chunk_end text chunk_size (fst w)) ws ->
  Forall (fun c => len c <= chunk_size) (kept text ws).
Proof.
  intros Hcs Hws. induction Hws as [|[a b] ws Hw _ IH]; [constructor|].
  unfold kept. cbn [flat_map fst snd]. cbn [snd fst] in Hw. subst b.
  apply Forall_app. split; [|exact IH].
  destruct (nonempty _); repeat constructor. now apply len_chunk_at.
Qed.

Hypothesis size_pos : 0 < chunk_size.
Hypothesis overlap_pos : 0 < chunk_overlap.
Hypothesis overlap_lt : chunk_overlap < chunk_size.

(** What holds of every [start] the loop reaches: it is above minus a
    fifth of the chunk size, and negative only in a text longer than a
    chunk. *)
Definition start_ok (start : Z) : Prop :=
  - chunk_size < 5 * start /\ (start < 0 -> chunk_size < L).

(** One iteration from a good start: either the chunk has full size, or
    it was cut after a full stop, from a start inside the text, and is not
    empty. *)
Lemma chunk_end_cases start :
  start_ok start -> start < L ->
  let e := chunk_end text chunk_size start in
  e = start + chunk_size \/
  (0 <= start /\ start + chunk_size < L /\ start < e <= start + chunk_size /\
   4 * chunk_size < 5 * (e - 1 - start) /\
   nonempty (chunk_at text start e) = true).
Proof.
  intros [Hlow Hneg] Hlt e. unfold e, chunk_end. fold L.
  destruct (start + chunk_size <? L) eqn:El; [|now left].
  apply Z.ltb_lt in El.
  destruct (sentence_rule _ start chunk_size) eqn:Es; [|now left].
  right. unfold sentence_rule in Es. apply Z.ltb_lt in Es.
  destruct (rfind_spec text "." start (start + chunk_size)) as [Hr|[Hr Hin]].
  { rewrite Hr in Es. lia. }
  set (r := rfind text "." start (start + chunk_size)) in *.
  fold L in Hr.
  assert (H0 : 0 <= start).
  { destruct (Z.lt_ge_cases start 0) as [Hs|Hs]; [|exact Hs].
    specialize (Hneg Hs). exfalso. revert Hr. unfold clamp_index.
    destruct (start <? 0) eqn:E1; [|lia].
    destruct (start + chunk_size <? 0) eqn:E2; lia. }
  assert (Hlo : clamp_index L start = start)
    by (unfold clamp_index; destruct (start <? 0) eqn:E; lia).
  assert (Hhi : clamp_index L (start + chunk_size) = start + chunk_size)
    by (unfold clamp_index; destruct (start + chunk_size <? 0) eqn:E; lia).
  rewrite Hlo, Hhi in Hr.
  repeat split; try lia.
  unfold chunk_at, strip, slice. apply nonempty_of_chars.
  rewrite chars_of_chars. intros Hempty.
  apply (strip_chars_In "."%char) in Hin; [|reflexivity].
  rewrite Hempty in Hin. contradiction.
Qed.

Lemma start_ok_next start :
  start_ok start -> start < L ->
  start_ok (chunk_end text chunk_size start - chunk_overlap).
Proof.
  intros Hok Hlt. pose proof (chunk_end_cases start Hok Hlt) as H.
  destruct Hok as [Hlow Hneg]. unfold start_ok.
  destruct H as [->|(H0 & Hl & He & Hcut & _)]; split; lia.
Qed.

(** The loop leaves: by induction on the chunks still allowed, then on
    the distance to the end of the text. *)
Lemma windows_terminate (k : nat) :
  forall n start, (n + k = 1001)%nat -> start_ok start ->
  exists fuel ws,
    split_windows fuel text chunk_size chunk_overlap start n = Some ws.
Proof.
  induction k as [|k IHk]; intros n start Hn Hok.
  - exists 1%nat. cbn [split_windows].
    destruct (start <? len text); [|eauto].
    replace (1000 <? Z.of_nat _) with true.
    + rewrite orb_true_r. eauto.
    + symmetry. apply Z.ltb_lt. destruct (nonempty _); lia.
  - assert (Hj : forall j start,
               L - start <= Z.of_nat j -> start_ok start ->
               exists fuel ws,
                 split_windows fuel text chunk_size chunk_overlap start n
                 = Some ws).
    { clear start Hok. induction j as [|j IHj]; intros start Hd Hok.
      - exists 1%nat. cbn [split_windows]. fold L.
        replace (start <? L) with false by (symmetry; apply Z.ltb_ge; lia).
        eauto.
      - destruct (Z.lt_ge_cases start L) as [Hlt|Hge].
        2:{ exists 1%nat. cbn [split_windows]. fold L.
            replace (start <? L) with false by (symmetry; apply Z.ltb_ge; lia).
            eauto. }
        pose proof (chunk_end_cases start Hok Hlt) as Hcases.
        pose proof (start_ok_next start Hok Hlt) as Hok'.
        set (e := chunk_end text chunk_size start) in *.
        set (n' := if nonempty (chunk_at text start e) then S n else n).
        destruct ((L <=? e - chunk_overlap) || (1000 <? Z.of_nat n')) eqn:Ex.
        { exists 1%nat. cbn [split_windows]. fold L.
          replace (start <? L) with true by (symmetry; apply Z.ltb_lt; lia).
          fold e. fold n'. rewrite Ex. eauto. }
        assert (Hrec : exists fuel ws,
                  split_windows fuel text chunk_size chunk_overlap
                    (e - chunk_overlap) n' = Some ws).
        { unfold n'. destruct (nonempty (chunk_at text start e)) eqn:Ene.
          - apply IHk; [lia|exact Hok'].
          - apply IHj; [|exact Hok'].
            destruct Hcases as [He|(_ & _ & _ & _ & Hne)]; [lia|congruence]. }
        destruct Hrec as (fuel & ws & Hrec).
        exists (S fuel), ((start, e) :: ws). cbn [split_windows]. fold L.
        replace (start <? L) with true by (symmetry; apply Z.ltb_lt; lia).
        fold e. fold n'. rewrite Ex, Hrec. reflexivity. }
    apply (Hj (Z.to_nat (L - start))); [lia|exact Hok].
Qed.

(** When the loop ends below the cap, the slices up to the frontier [f]
    and those of the windows [ws] cover the text. *)
Lemma windows_cover fuel :
  forall start n f ws,
    split_windows fuel text chunk_size chunk_overlap start n = Some ws ->
    start_ok start -> 0 <= f -> start <= f ->
    (start < 0 -> 4 * chunk_size < 5 * f /\ 4 * chunk_size < 5 * chunk_overlap) ->
    (n + List.length (kept text ws) <= 1000)%nat ->
    forall p, f <= p < L -> existsb (in_window text p) ws = true.
Proof.
  induction fuel as [|fuel IH]; intros start n f ws H Hok Hf Hsf Hneg Hcap p Hp;
    [discriminate|].
  cbn [split_windows] in H. fold L in H.
  destruct (start <? L) eqn:Elt; [|apply Z.ltb_ge in Elt; lia].
  apply Z.ltb_lt in Elt.
  pose proof (chunk_end_cases start Hok Elt) as Hcases.
  pose proof (start_ok_next start Hok Elt) as Hok'.
  set (e := chunk_end text chunk_size start) in *.
  set (n' := if nonempty (chunk_at text start e) then S n else n) in *.
  assert (Hkept : forall ws', List.length (kept text ((start, e) :: ws')) =
                    (n' - n + List.length (kept text ws'))%nat).
  { intros ws'. unfold kept, n'. cbn [flat_map fst snd].
    rewrite length_app.
    destruct (nonempty (chunk_at text start e)); cbn [List.length]; lia. }
  assert (Hn' : (n <= n')%nat)
    by (unfold n'; destruct (nonempty (chunk_at text start e)); lia).
  assert (Hwin : 0 <= start -> p < e ->
                 in_window text p (start, e) = true).
  { intros H0 Hpe. unfold in_window. cbn [fst snd]. fold L.
    apply andb_true_iff. split; [apply Z.leb_le|apply Z.ltb_lt];
      unfold clamp_index.
    - destruct (start <? 0) eqn:E; lia.
    - destruct (e <? 0) eqn:E; lia. }
  destruct Hok as [Hlow Hnegl].
  destruct ((L <=? e - chunk_overlap) || (1000 <? Z.of_nat n')) eqn:Ex.
  - inversion H; subst ws. rewrite Hkept in Hcap. simpl in Hcap.
    apply orb_true_iff in Ex as [Ex|Ex]; [|apply Z.ltb_lt in Ex; lia].
    apply Z.leb_le in Ex. cbn [existsb]. rewrite Hwin; [reflexivity| |lia].
    destruct Hcases as [He|(H0 & _)]; [|exact H0].
    destruct (Z.lt_ge_cases start 0) as [Hs|Hs]; [|exact Hs].
    specialize (Hnegl Hs). lia.
  - apply orb_false_iff in Ex as [Ex _]. apply Z.leb_gt in Ex.
    destruct (split_windows fuel text chunk_size chunk_overlap _ _)
      as [ws'|] eqn:E; [|discriminate].
    inversion H; subst ws. rewrite Hkept in Hcap. cbn [existsb].
    apply orb_true_iff.
    destruct (Z.lt_ge_cases start 0) as [Hs|Hs].
    + right. destruct (Hneg Hs) as [Hf4 Ho4]. specialize (Hnegl Hs).
      destruct Hcases as [He|(H0 & _)]; [|lia].
      apply (IH _ _ f _ E Hok' Hf); try lia.
    + destruct (Z.lt_ge_cases p e) as [Hpe|Hpe]; [left; now apply Hwin|].
      right.
      apply (IH _ _ (Z.max f (Z.min e L)) _ E Hok'); try lia.
      intros Hs'. destruct Hcases as [He|(_ & Hl & He & Hcut & _)]; lia.
Qed.

(** From a good start every window is at least one and at most
    [chunk_size] characters wide. *)
Lemma windows_shape fuel :
  forall start n ws,
    split_windows fuel text chunk_size chunk_overlap start n = Some ws ->
    start_ok start ->
    Forall (fun w => fst w < snd w <= fst w + chunk_size) ws.
Proof.
  induction fuel as [|fuel IH]; intros start n ws H Hok; [discriminate|].
  cbn [split_windows] in H. fold L in H.
  destruct (start <? L) eqn:Elt; [|inversion H; constructor].
  apply Z.ltb_lt in Elt.
  pose proof (chunk_end_cases start Hok Elt) as Hcases.
  pose proof (start_ok_next start Hok Elt) as Hok'.
  set (e := chunk_end text chunk_size start) in *.
  assert (Hw : start < e <= start + chunk_size)
    by (destruct Hcases as [He|(_ & _ & He & _)]; lia).
  destruct ((L <=? _) || _).
  - inversion H; subst. repeat constructor; cbn [fst snd]; lia.
  - destruct (split_windows fuel text chunk_size chunk_overlap _ _)
      as [ws'|] eqn:E; [|discriminate].
    inversion H; subst. constructor; [cbn [fst snd]; lia|].
    eapply IH; eauto.
Qed.

End Chunks.

(** A text of 1100 letters, cut into chunks of two with an overlap of
    one. *)
Definition long_text : string := of_chars (repeat "a"%char 1100).

(** With a full stop in the last fifth of the first chunk and an overlap
    of 19 in 20, the loop returns to the start of the text until the cap
    stops it. *)
Definition stuck_text : string := "0123456789abcdefg. and so on and on".

Example stuck_window_demo :
  option_map (fun cs => (List.length cs, nth 0 cs "", nth 1000 cs ""))
    (_split_text_into_chunks 3000 stuck_text 20 19)
  = Some (1001%nat, "0123456789abcdefg.", "0123456789abcdefg.").
Proof. vm_compute. reflexivity. Qed.

Example split_demo :
  _split_text_into_chunks 10 "One. Two is here. Three" 10 3
  = Some ["One. Two i"; "o is here."; "re. Three"; "ee"].
Proof. vm_compute. reflexivity. Qed.

(** The claim as stated fails on a long text: the loop stops at 1001
    chunks, whose windows end at position 1002 of 1100. *)
Lemma chunk_cap_leaves_text_uncovered :
  option_map (@List.length string)
    (_split_text_into_chunks 1100 long_text 2 1) = Some 1001%nat /\
  0 <= 1050 < len long_text /\
  option_map (existsb (in_window long_text 1050))
    (split_windows 1100 long_text 2 1 0 0) = Some false.
Proof. vm_compute. repeat split; intros; discriminate. Qed.

(** C4 (amended), X1.  For every text, [chunk_size > 0] and
    [0 < chunk_overlap < chunk_size], [_split_text_into_chunks] returns;
    its chunks are the non-empty stripped slices of the loop's windows, each
    of at most [chunk_size] characters; every window after the first starts
    [chunk_overlap] characters before the end of the one before it, and is
    between 1 and [chunk_size] characters wide; at most 1001 chunks are
    returned, and when at most 1000 are returned (the loop ended at the end
    of the text and not at its cap) every position of the text lies in the
    slice of some window. *)
Theorem split_text_into_chunks_windows text chunk_size chunk_overlap :
  0 < chunk_size -> 0 < chunk_overlap < chunk_size ->
  exists fuel chunks ws,
    (forall fuel', (fuel <= fuel')%nat ->
       _split_text_into_chunks fuel' text chunk_size chunk_overlap
         = Some chunks /\
       split_windows fuel' text chunk_size chunk_overlap 0 0 = Some ws) /\
    chunks = kept text ws /\
    Forall (fun c => len c <= chunk_size) chunks /\
    chained chunk_overlap 0 ws /\
    Forall (fun w => snd w = chunk_end text chunk_size (fst w) /\
                     fst w < snd w <= fst w + chunk_size) ws /\
    (List.length chunks <= 1001)%nat /\
    ((List.length chunks <= 1000)%nat ->
     forall p, 0 <= p < len text ->
       existsb (in_window text p) ws = true).
Proof.
  intros Hcs [Hov Hlt].
  assert (Hok : start_ok text chunk_size 0) by (unfold start_ok; lia).
  destruct (windows_terminate text chunk_size chunk_overlap Hcs Hov Hlt
              1001 0%nat 0 eq_refl Hok) as (fuel & ws & Hws).
  exists fuel, (kept text ws), ws.
  destruct (windows_chained text chunk_size chunk_overlap fuel 0 0%nat ws Hws)
    as [Hchain Hends].
  pose proof (windows_shape text chunk_size chunk_overlap Hcs Hov Hlt
                fuel 0 0%nat ws Hws Hok) as Hshape.
  pose proof (windows_count text chunk_size chunk_overlap fuel 0 0%nat ws Hws
                ltac:(lia)) as Hcount.
  repeat split.
  - unfold _split_text_into_chunks. rewrite loop_windows. cbn [List.length].
    now rewrite (windows_fuel_mono text chunk_size chunk_overlap fuel
                   0 0%nat ws Hws fuel' H).
  - now apply (windows_fuel_mono text chunk_size chunk_overlap fuel
                 0 0%nat ws Hws).
  - apply kept_lengths; [lia|exact Hends].
  - exact Hchain.
  - rewrite Forall_forall in *. intros w Hw. split; auto.
  - lia.
  - intros Hcap p Hp.
    apply (windows_cover text chunk_size chunk_overlap Hcs Hov Hlt
             fuel 0 0%nat 0 ws Hws Hok); try lia.
Qed.

(** Chunks of ten with an overlap of three on a short text. *)
Lemma split_text_into_chunks_windows_witness :
  exists fuel chunks ws,
    (forall fuel', (fuel <= fuel')%nat ->
       _split_text_into_chunks fuel' "One. Two is here. Three" 10 3
         = Some chunks /\
       split_windows fuel' "One. Two is here. Three" 10 3 0 0 = Some ws) /\
    chunks = kept "One. Two is here. Three" ws /\
    Forall (fun c => len c <= 10) chunks /\
    chained 3 0 ws /\
    Forall (fun w => snd w = chunk_end "One. Two is here. Three" 10 (fst w) /\
                     fst w < snd w <= fst w + 10) ws /\
    (List.length chunks <= 1001)%nat /\
    ((List.length chunks <= 1000)%nat ->
     forall p, 0 <= p < len "One. Two is here. Three" ->
       existsb (in_window "One. Two is here. Three" p) ws = true).
Proof.
  apply (split_text_into_chunks_windows "One. Two is here. Three" 10 3); lia.
Defined.

(** A text of one space, with [chunk_size = chunk_overlap = 1]: the
    chunk is empty after stripping and [start] does not move. *)
Lemma whitespace_loop_stays fuel :
  split_loop fuel " " 1 1 0 [] = None.
Proof.
  induction fuel as [|fuel IH]; [reflexivity|].
  cbn [split_loop]. exact IH.
Qed.

(** C10, X2.  On the text of one space with [chunk_size = chunk_overlap = 1]
    the loop of [_split_text_into_chunks] is never left, whatever the number
    of iterations allowed: no chunk is ever appended, so the cap of 1000
    chunks does not stop it.  Whenever the function does return, it returns
    at most 1001 chunks. *)
Theorem split_text_into_chunks_may_not_return :
  (forall fuel, _split_text_into_chunks fuel " " 1 1 = None) /\
  (forall fuel text chunk_size chunk_overlap chunks,
     _split_text_into_chunks fuel text chunk_size chunk_overlap = Some chunks ->
     (List.length chunks <= 1001)%nat).
Proof.
  split.
  - intros fuel. apply whitespace_loop_stays.
  - intros fuel text cs ov chunks. unfold _split_text_into_chunks.
    rewrite loop_windows. cbn [List.length app].
    destruct (split_windows fuel text cs ov 0 0) as [ws|] eqn:E;
      [|discriminate].
    cbn [option_map]. intros H. inversion H; subst.
    pose proof (windows_count text cs ov fuel 0 0%nat ws E ltac:(lia)). lia.
Qed.

End ChunkFacts.

(* ================================================================= *)
(** ** Where an answer comes from *)

Module AnswerSourceFacts.
Import PolicyRAGSystem.

Section Facts.
Variable qa_pipeline : string -> string -> option qa_result.

(** The best answer so far is what the pipeline returned on one of the
    contexts, and the best confidence is its score. *)
Definition from_pipeline (question : string) (all : list context)
  (ba : option answer) (bc : float) : Prop :=
  match ba with
  | None => True
  | Some a =>
      exists ctx qa, In ctx all /\
        qa_pipeline question (text ctx) = Some qa /\
        a = mk_answer (qa_answer qa) (qa_score qa)
              (SourceMetadata (metadata ctx)) /\
        bc = qa_score qa
  end.

Lemma best_of_from_pipeline question all contexts :
  incl contexts all ->
  forall ba bc,
    from_pipeline question all ba bc ->
    from_pipeline question all
      (fst (best_of qa_pipeline question contexts ba bc))
      (snd (best_of qa_pipeline question contexts ba bc)).
Proof.
  induction contexts as [|ctx contexts IH]; intros Hincl ba bc H0;
    [exact H0|].
  assert (Hincl' : incl contexts all)
    by (intros x Hx; apply Hincl; now right).
  cbn [best_of].
  destruct (qa_pipeline question (text ctx)) as [qa|] eqn:Eq; [|now apply IH].
  destruct (bc <? qa_score qa)%float; [|now apply IH].
  apply IH; [assumption|].
  exists ctx, qa. repeat split; auto. apply Hincl. now left.
Qed.

Lemma length_follow_up question ans :
  List.length (_generate_follow_up_questions question ans) = 3%nat.
Proof.
  unfold _generate_follow_up_questions.
  destruct (PyStr.contains "cover" _); [reflexivity|].
  destruct (PyStr.contains "premium" _ || PyStr.contains "cost" _);
    [reflexivity|].
  destruct (PyStr.contains "claim" _); reflexivity.
Qed.

(** X4: with at least one context, the response of [answer_question] is
    either the fallback, with confidence 0.2, or the answer, the score and
    the metadata that the QA pipeline gave on one of the retrieved contexts,
    and then that score is not below the threshold; it always suggests
    three follow-up questions. *)
Theorem answer_question_is_fallback_or_pipeline now question contexts threshold :
  contexts <> [] ->
  let resp := answer_question qa_pipeline now question contexts threshold in
  ((r_source resp = SourceName "Fallback" /\ r_confidence resp = 0.2%float /\
    r_answer resp = a_answer (_generate_fallback_answer question contexts)) \/
   (exists ctx qa, In ctx contexts /\
      qa_pipeline question (text ctx) = Some qa /\
      r_answer resp = qa_answer qa /\ r_confidence resp = qa_score qa /\
      r_source resp = SourceMetadata (metadata ctx) /\
      (qa_score qa <? threshold)%float = false)) /\
  r_question resp = question /\ r_timestamp resp = now /\
  exists suggested,
    suggested_questions resp = Some suggested /\
    List.length suggested = 3%nat.
Proof.
  intros Hne resp. unfold resp, answer_question.
  destruct contexts as [|ctx0 rest]; [congruence|].
  set (contexts := ctx0 :: rest) in *.
  pose proof (best_of_from_pipeline question contexts contexts (incl_refl _)
                None 0%float I) as Hb.
  destruct (best_of qa_pipeline question contexts None 0%float) as [ba bc].
  cbn [fst snd] in Hb.
  cbn [r_answer r_confidence r_source r_question r_timestamp suggested_questions].
  split; [|repeat split; eexists; split;
             [reflexivity|apply length_follow_up]].
  destruct ba as [a|]; [|left; repeat split].
  destruct (bc <? threshold)%float eqn:E; [left; repeat split|].
  right. destruct Hb as (ctx & qa & Hin & Hqa & -> & ->).
  exists ctx, qa. repeat split; auto.
Qed.

End Facts.

(** A pipeline that is sure of itself. *)
Definition sure_pipeline (_ _ : string) : option qa_result :=
  Some (mk_qa_result "up to 5,00,000" 0.9%float).

Lemma answer_question_is_fallback_or_pipeline_witness :
  exists suggested,
    suggested_questions
      (answer_question sure_pipeline "t" "How much is covered?"
         AnswerFacts.one_context default_confidence_threshold) = Some suggested /\
    List.length suggested = 3%nat.
Proof.
  apply (answer_question_is_fallback_or_pipeline sure_pipeline "t"
           "How much is covered?" AnswerFacts.one_context
           default_confidence_threshold).
  discriminate.
Defined.

End AnswerSourceFacts.

(* ================================================================= *)
(** ** rag_model.py: what a conversation holds *)

Module ChatFacts.
Import PolicyRAGSystem RAGChatInterface PyDictSetFacts.

Section Facts.

Variables greeting help_text goodbye : string.
Variable qa_pipeline : string -> string -> option qa_result.
Variable _retrieve_relevant_contexts :
  string -> option string -> Z -> list context.

Abbreviation chat :=
  (chat greeting help_text goodbye qa_pipeline _retrieve_relevant_contexts).
Abbreviation chat_all :=
  (chat_all greeting help_text goodbye qa_pipeline
     _retrieve_relevant_contexts).

(** The message is answered by the goodbye handler. *)
Definition says_goodbye (r : chat_request) : bool :=
  negb (PyStr.any_in greeting_words (PyStr.lower (message r)))
  && negb (PyStr.any_in help_words (PyStr.lower (message r)))
  && PyStr.any_in goodbye_words (PyStr.lower (message r)).

(** The reply to a request; it does not depend on the conversation. *)
Definition reply_of (r : chat_request) : reply :=
  if PyStr.any_in greeting_words (PyStr.lower (message r))
  then _handle_greeting greeting
  else if PyStr.any_in help_words (PyStr.lower (message r))
  then _handle_help_request help_text
  else if PyStr.any_in goodbye_words (PyStr.lower (message r))
  then mk_reply goodbye 1%float (SourceName "Goodbye") None
  else rag_answer qa_pipeline _retrieve_relevant_contexts
         (answer_now (at_ r)) (message r) (policy r).

(** The two messages that a request adds to its user's conversation. *)
Definition exchange (r : chat_request) : list chat_message :=
  [ mk_chat_message "user" (message r) (user_now (at_ r));
    mk_chat_message "assistant" (answer (reply_of r))
      (assistant_now (at_ r)) ].

(** The conversation that a request starts when its user has none. *)
Definition opened_by (r : chat_request) : conversation :=
  mk_conversation [] (policy r) (start_now (at_ r)) false.

Definition conversation_after (old : option conversation)
  (r : chat_request) : conversation :=
  let base := match old with Some conv => conv | None => opened_by r end in
  mk_conversation (messages base ++ exchange r) (policy_context base)
    (start_time base) (ended base || says_goodbye r).

Definition by_user (u : string) (requests : list chat_request)
  : list chat_request :=
  filter (fun r => String.eqb (user r) u) requests.

Lemma chat_step history r :
  let '(response, history') :=
    chat (at_ r) history (user r) (message r) (policy r) in
  PyDict.get history' (user r)
    = Some (conversation_after (PyDict.get history (user r)) r)
  /\ (forall u, u <> user r ->
        PyDict.get history' u = PyDict.get history u)
  /\ response
     = mk_chat_response (reply_of r) (user r)
         (Some (Z.of_nat
                  (List.length
                     (messages
                        (conversation_after (PyDict.get history (user r))
                           r))))).
Proof.
  unfold RAGChatInterface.chat.
  set (history1 := if PyDict.mem history (user r) then history
                   else PyDict.set history (user r) (opened_by r)).
  set (base := match PyDict.get history (user r) with
               | Some conv => conv | None => opened_by r end).
  assert (H1 : PyDict.get history1 (user r) = Some base).
  { unfold history1, base, PyDict.mem.
    destruct (PyDict.get history (user r)) eqn:E; [exact E|].
    apply get_set_here. }
  assert (O1 : forall u, u <> user r ->
                 PyDict.get history1 u = PyDict.get history u).
  { intros u Hu. unfold history1.
    destruct (PyDict.mem history (user r)); [reflexivity|].
    now apply get_set_other. }
  fold (opened_by r). fold history1.
  unfold append_message at 1. rewrite H1.
  set (history2 := PyDict.set history1 (user r) _).
  assert (H2 : PyDict.get history2 (user r)
               = Some (mk_conversation
                         (messages base
                          ++ [mk_chat_message "user" (message r)
                                (user_now (at_ r))])
                         (policy_context base) (start_time base)
                         (ended base)))
    by apply get_set_here.
  assert (O2 : forall u, u <> user r ->
                 PyDict.get history2 u = PyDict.get history u).
  { intros u Hu. unfold history2. rewrite get_set_other by exact Hu.
    now apply O1. }
  unfold conversation_after. fold base.
  unfold reply_of, says_goodbye, exchange, reply_of.
  destruct (PyStr.any_in greeting_words (PyStr.lower (message r)));
    [|destruct (PyStr.any_in help_words (PyStr.lower (message r)));
      [|destruct (PyStr.any_in goodbye_words (PyStr.lower (message r)))]];
    cbn [negb andb];
    try (unfold append_message; rewrite H2;
         cbn [messages policy_context start_time ended];
         rewrite get_set_here; cbn [messages];
         rewrite <- app_assoc; cbn [app]; rewrite ?orb_false_r;
         split; [apply get_set_here|];
         split; [intros u Hu; rewrite get_set_other by exact Hu;
                 now apply O2 | reflexivity]).
  unfold _handle_goodbye. rewrite H2.
  unfold append_message. rewrite get_set_here.
  cbn [messages policy_context start_time ended answer].
  rewrite get_set_here. cbn [messages].
  rewrite <- app_assoc. cbn [app]. rewrite orb_true_r.
  split; [apply get_set_here|].
  split; [|reflexivity].
  intros u Hu. rewrite !get_set_other by exact Hu. now apply O2.
Qed.

Definition grow (o : option conversation) (r : chat_request)
  : option conversation :=
  Some (conversation_after o r).

Lemma chat_all_get u requests :
  forall history,
    PyDict.get (snd (chat_all history requests)) u
    = fold_left grow (by_user u requests) (PyDict.get history u).
Proof.
  induction requests as [|r requests IH]; intros history; [reflexivity|].
  cbn [RAGChatInterface.chat_all by_user filter].
  pose proof (chat_step history r) as Hs.
  destruct (chat (at_ r) history (user r) (message r) (policy r))
    as [response history1].
  destruct Hs as (Hhere & Hother & _).
  specialize (IH history1).
  destruct (chat_all history1 requests) as [responses history2].
  cbn [snd] in *. rewrite IH. fold (by_user u requests).
  destruct (String.eqb (user r) u) eqn:E.
  - apply String.eqb_eq in E. subst u. cbn [fold_left].
    now rewrite Hhere.
  - apply String.eqb_neq in E. rewrite Hother by congruence. reflexivity.
Qed.

Lemma grow_all mine :
  forall o,
    mine <> [] ->
    let base := match o with
                | Some conv => conv
                | None => opened_by (hd (mk_chat_request
                                           (mk_clock "" "" "" "") "" "" None)
                                       mine)
                end in
    fold_left grow mine o
    = Some (mk_conversation
              (messages base ++ flat_map exchange mine)
              (policy_context base) (start_time base)
              (ended base || existsb says_goodbye mine)).
Proof.
  induction mine as [|r mine IH]; intros o Hne; [congruence|].
  cbn [fold_left hd flat_map existsb]. cbv zeta.
  destruct mine as [|r' mine].
  - cbn [fold_left flat_map existsb]. unfold grow, conversation_after.
    now rewrite app_nil_r, orb_false_r.
  - rewrite IH by discriminate. unfold grow, conversation_after.
    cbn [messages policy_context start_time ended].
    now rewrite <- app_assoc, <- orb_assoc.
Qed.

Lemma length_exchanges l :
  List.length (flat_map exchange l) = (2 * List.length l)%nat.
Proof.
  induction l as [|r l IH]; [reflexivity|].
  cbn [flat_map exchange app List.length]. rewrite IH. lia.
Qed.

Lemma conversation_after_length requests r :
  Z.of_nat
    (List.length
       (messages
          (conversation_after
             (PyDict.get (snd (chat_all [] requests)) (user r)) r)))
  = 2 * (Z.of_nat (List.length (by_user (user r) requests)) + 1).
Proof.
  rewrite chat_all_get. cbn [PyDict.get].
  destruct (by_user (user r) requests) as [|first mine] eqn:E.
  - cbn [fold_left]. unfold conversation_after, opened_by.
    cbn [messages app exchange List.length]. lia.
  - rewrite grow_all by discriminate. unfold conversation_after.
    cbn [hd opened_by messages app].
    rewrite length_app, length_exchanges.
    cbn [exchange List.length]. lia.
Qed.

(** X5: in an interface that starts without conversations, a user's
    conversation exists exactly when the user has sent a message, and it
    then holds, in order, each of the user's messages followed by the answer
    to it.  Its policy context is the one given with the user's first
    message, whatever later calls give, and a goodbye only marks the
    conversation as ended: the messages after it are added as before. *)
Theorem chat_conversation_is_transcript requests u :
  let mine := by_user u requests in
  match PyDict.get (snd (chat_all [] requests)) u with
  | None => mine = []
  | Some conv =>
      messages conv = flat_map exchange mine
      /\ List.length (messages conv) = (2 * List.length mine)%nat
      /\ ended conv = existsb says_goodbye mine
      /\ exists first,
           hd_error mine = Some first
           /\ policy_context conv = policy first
           /\ start_time conv = start_now (at_ first)
  end.
Proof.
  intros mine. rewrite chat_all_get. fold mine. cbn [PyDict.get].
  destruct mine as [|first mine'] eqn:E; [reflexivity|].
  rewrite grow_all by discriminate.
  cbn [hd opened_by messages policy_context start_time ended app orb].
  split; [reflexivity|].
  split; [apply length_exchanges|].
  split; [reflexivity|].
  exists first. repeat split.
Qed.

Lemma chat_all_app requests1 :
  forall history requests2,
    chat_all history (requests1 ++ requests2)
    = (fst (chat_all history requests1)
       ++ fst (chat_all (snd (chat_all history requests1)) requests2),
       snd (chat_all (snd (chat_all history requests1)) requests2)).
Proof.
  induction requests1 as [|r requests1 IH]; intros history requests2.
  - cbn. now destruct (chat_all history requests2).
  - cbn [app RAGChatInterface.chat_all].
    destruct (chat (at_ r) history (user r) (message r) (policy r))
      as [response history1].
    rewrite IH.
    destruct (chat_all history1 requests1) as [responses history2].
    cbn [fst snd]. reflexivity.
Qed.

Lemma length_chat_all requests :
  forall history,
    List.length (fst (chat_all history requests)) = List.length requests.
Proof.
  induction requests as [|r requests IH]; intros history; [reflexivity|].
  cbn [RAGChatInterface.chat_all].
  destruct (chat (at_ r) history (user r) (message r) (policy r))
    as [response history1].
  specialize (IH history1).
  destruct (chat_all history1 requests) as [responses history2].
  cbn [fst List.length] in *. now rewrite IH.
Qed.

(** X6: in an interface that starts without conversations, every call
    of [chat] returns the reply to its message together with a message
    count, never the error response, and the count is twice the number of
    messages that the user has sent so far, the present one included. *)
Theorem chat_counts_two_per_message earlier r later :
  nth_error (fst (chat_all [] (earlier ++ r :: later))) (List.length earlier)
  = Some (mk_chat_response (reply_of r) (user r)
            (Some (2 * (Z.of_nat (List.length (by_user (user r) earlier))
                        + 1)))).
Proof.
  rewrite chat_all_app. cbn [fst].
  rewrite nth_error_app2 by (rewrite length_chat_all; lia).
  rewrite length_chat_all, Nat.sub_diag.
  cbn [RAGChatInterface.chat_all].
  pose proof (chat_step (snd (chat_all [] earlier)) r) as Hs.
  destruct (chat (at_ r) (snd (chat_all [] earlier)) (user r) (message r)
              (policy r)) as [response history1].
  destruct Hs as (_ & _ & ->).
  destruct (chat_all history1 later) as [responses history2].
  cbn [fst nth_error]. do 3 f_equal.
  apply conversation_after_length.
Qed.

End Facts.

(** A question about "this policy" holds the letters of "hi" and is
    answered by the greeting. *)
Example chat_demo :
  let c := mk_clock "t0" "t1" "t2" "t3" in
  let '(response, history) :=
    RAGChatInterface.chat "Hello!" "Help." "Bye." (fun _ _ => None)
      (fun _ _ _ => []) c [] "u1" "What does this policy cover?" None in
  reply_source (chat_reply response) = SourceName "Greeting"
  /\ message_count response = Some 2
  /\ option_map (fun conv => map content (messages conv))
       (PyDict.get history "u1")
     = Some ["What does this policy cover?"; "Hello!"].
Proof. vm_compute. repeat split; reflexivity. Qed.

End ChatFacts.

(* ================================================================= *)
(** ** rag_model.py: when the chunking loop cannot advance *)

Module ChunkLoopFacts.
Import PyStr PolicyRAGSystem.

Lemma lstrip_spaces l : forallb is_space l = true -> lstrip_chars l = [].
Proof.
  induction l as [|c l IH]; simpl; [reflexivity|].
  intros H. apply andb_true_iff in H. destruct H as [-> H]. auto.
Qed.

Lemma strip_spaces l : forallb is_space l = true -> strip_chars l = [].
Proof. intros H. unfold strip_chars. now rewrite (lstrip_spaces l H). Qed.

Lemma In_firstn_le {A} (x : A) n m l :
  (n <= m)%nat -> In x (firstn n l) -> In x (firstn m l).
Proof.
  revert m l. induction n as [|n IH]; intros m l Hle; [intros []|].
  destruct m as [|m]; [lia|]. destruct l as [|y l]; [intros []|].
  simpl. intros [H|H]; [now left | right; apply (IH m); [lia | exact H]].
Qed.

Lemma slice_chars_from_0 l b :
  slice_chars l 0 b
  = firstn (Z.to_nat (clamp_index (Z.of_nat (List.length l)) b)) l.
Proof.
  unfold slice_chars.
  assert (H0 : clamp_index (Z.of_nat (List.length l)) 0 = 0).
  { unfold clamp_index. cbn [Z.ltb Z.compare]. lia. }
  rewrite H0. cbn [Z.to_nat skipn]. now rewrite Z.sub_0_r.
Qed.

Lemma clamp_index_mono n a b :
  0 <= a <= b -> clamp_index n a <= clamp_index n b.
Proof.
  intros H. unfold clamp_index.
  destruct (Z.ltb_spec a 0), (Z.ltb_spec b 0); lia.
Qed.

Section Loop.

Variables (text : string) (chunk_size : Z).
Hypothesis size_positive : 0 < chunk_size.
Hypothesis text_nonempty : 0 < len text.
Hypothesis leading_space :
  forallb is_space (slice_chars (chars text) 0 chunk_size) = true.

(** No full stop in the first window, so it is not cut short. *)
Lemma first_chunk_end : chunk_end text chunk_size 0 = chunk_size.
Proof.
  unfold chunk_end. cbn [Z.add].
  destruct (chunk_size <? len text); [|reflexivity].
  destruct (PyStrFacts.rfind_spec text "." 0 chunk_size) as [E|[Hr Hin]].
  - rewrite E. unfold sentence_rule.
    destruct (Z.ltb_spec (4 * chunk_size) (5 * (-1 - 0))); [lia|reflexivity].
  - exfalso.
    assert (H0 : clamp_index (len text) 0 = 0).
    { unfold clamp_index. cbn [Z.ltb Z.compare].
      pose proof (PyStrFacts.len_nonneg text). lia. }
    rewrite H0 in Hr.
    assert (Hle : rfind text "." 0 chunk_size + 1 <= chunk_size).
    { pose proof (PyStrFacts.clamp_index_bounds (len text) chunk_size
                    (PyStrFacts.len_nonneg text)).
      unfold clamp_index in Hr.
      destruct (Z.ltb_spec chunk_size 0); lia. }
    rewrite slice_chars_from_0 in Hin.
    rewrite slice_chars_from_0 in leading_space.
    rewrite forallb_forall in leading_space.
    assert (Hs : is_space "." = true).
    { apply leading_space.
      eapply In_firstn_le; [|exact Hin].
      apply Z2Nat.inj_le.
      - apply PyStrFacts.clamp_index_bounds. lia.
      - apply PyStrFacts.clamp_index_bounds. lia.
      - apply clamp_index_mono. lia. }
    discriminate Hs.
Qed.

(** The first window holds white space only: its chunk is empty. *)
Lemma first_chunk_empty : chunk_at text 0 chunk_size = "".
Proof.
  unfold chunk_at, strip, slice.
  rewrite PyStrFacts.chars_of_chars.
  now rewrite (strip_spaces _ leading_space).
Qed.

Lemma loop_stays fuel :
  split_loop fuel text chunk_size chunk_size 0 [] = None.
Proof.
  induction fuel as [|fuel IH]; [reflexivity|].
  cbn [split_loop].
  destruct (Z.ltb_spec 0 (len text)) as [_|H]; [|lia].
  rewrite first_chunk_end, first_chunk_empty.
  unfold append_chunk. cbn [nonempty List.length Z.of_nat].
  rewrite Z.sub_diag.
  destruct (Z.leb_spec (len text) 0) as [H|_]; [lia|].
  cbn [orb Z.ltb Z.compare]. exact IH.
Qed.

End Loop.

(** X3: with [chunk_overlap = chunk_size], a text whose first
    [chunk_size] characters are all white space is never split:
    [_split_text_into_chunks] stays in its loop, whatever the number of
    iterations allowed, since the empty chunk is not appended and [start]
    stays at 0; the cap of 1000 chunks is never reached. *)
Theorem split_text_into_chunks_stuck_on_leading_space text chunk_size :
  0 < chunk_size -> 0 < len text ->
  forallb is_space (slice_chars (chars text) 0 chunk_size) = true ->
  forall fuel,
    _split_text_into_chunks fuel text chunk_size chunk_size = None.
Proof.
  intros Hs Ht Hw fuel. unfold _split_text_into_chunks.
  now apply loop_stays.
Qed.

(** Three spaces before the text, chunks of three. *)
Lemma split_text_into_chunks_stuck_on_leading_space_witness :
  _split_text_into_chunks 2000 "   Policy terms." 3 3 = None.
Proof.
  apply (split_text_into_chunks_stuck_on_leading_space "   Policy terms." 3).
  - lia.
  - vm_compute. reflexivity.
  - vm_compute. reflexivity.
Defined.

End ChunkLoopFacts.
